(** * The "Translate this message" button of matrix-react-sdk

    A verification development for
    [src/components/views/messages/TranslateThis.tsx] and the other
    revisions of that file that the repository carries.  Two revisions hold
    the upload / detect / translate / poll / download workflow against the
    Lilt service:

    - the _fixed-delay_ revision ([TranslateThis.tsx]), whose two polling
      loops are written out as [while] loops that sleep [liltPollTimeMs]
      (1000 ms) between polls; it is embedded in module [Fixed];
    - the _backoff_ revision, which factors polling into [pollFor], sleeps
      [sleepTime(numPolls)] between polls and filters messages that look
      English; it is embedded in module [Backoff].

    The two earlier revisions, which translate with a single request, are
    not embedded; where they have an eligibility predicate it is that of the
    fixed-delay revision.

    JavaScript values, the pieces of the language the workflow depends on
    (property access, string coercion, strict and loose equality) and the
    network are embedded first; the two revisions follow. *)

From Stdlib Require Import ZArith Lia Bool List Ascii String.
From stdpp Require Import base tactics option list strings gmap pretty.

Set Warnings "-register-all".
Local Open Scope Z_scope.
Local Open Scope string_scope.

(* ------------------------------------------------------------------ *)
(** ** Strings *)

(** A string is a sequence of UTF-16 code units; a character is a code unit
    below 256 here (Basic Latin and the Latin-1 Supplement), so that a text
    with any other character has no counterpart in this development.

    [String.prototype.toLowerCase] on these characters: the capital letters,
    which are A-Z (65-90) and all of U+00C0-U+00DE (192-222) but the
    multiplication sign U+00D7 (215), move 32 places up to their small
    letters; every other character is kept, whatever stands around it. *)
Definition toLowerCaseChar (c : ascii) : ascii :=
  let n := nat_of_ascii c in
  if ((65 <=? n)%nat && (n <=? 90)%nat
      || (192 <=? n)%nat && (n <=? 222)%nat && negb (n =? 215)%nat)%bool
  then ascii_of_nat (n + 32) else c.

Fixpoint toLowerCase (s : string) : string :=
  match s with
  | EmptyString => EmptyString
  | String c rest => String (toLowerCaseChar c) (toLowerCase rest)
  end.

(** [s.includes(sub)]: [sub] occurs in [s] at some position. *)
Fixpoint includes (s sub : string) : bool :=
  (String.prefix sub s ||
   match s with
   | EmptyString => false
   | String _ rest => includes rest sub
   end)%bool.

(** What [includes] decides: [sub] sits between some [before] and [after]. *)
Definition occursIn (sub s : string) : Prop :=
  exists before after, s = before +:+ sub +:+ after.

(** [a !== b] on two strings. *)
Definition strictNeq (a b : string) : bool := negb (String.eqb a b).

(* ------------------------------------------------------------------ *)
(** ** JavaScript values *)

(** What [response.json()] can resolve to, and [undefined], which property
    access adds.  A Number is held by the text that [Number::toString]
    gives it: the workflow never computes with a number it is sent nor
    compares it with another, it only turns it into text (in a URL, a
    property key, a warning).  So the identifier 7 is [VNum "7"], 1.5 is
    [VNum "1.5"], 1e21 is [VNum "1e+21"], and a body that spells an integer
    no Number holds, such as 9007199254740993, parses to the Number next to
    it, [VNum "9007199254740992"].  An object is the list of its own
    properties. *)
Inductive value : Type :=
| VUndefined
| VNull
| VBool (b : bool)
| VNum (rendering : string)
| VStr (s : string)
| VArr (items : list value)
| VObj (props : list (string * value)).

Inductive exn : Type := TypeError | SyntaxError.

(** How an expression or an awaited promise completes.  [OutOfFuel] is the
    embedding's own: a loop that was given too little fuel. *)
Inductive completion (A : Type) : Type :=
| Normal (a : A)
| Throw (e : exn)
| OutOfFuel.
Arguments Normal {A} a.
Arguments Throw {A} e.
Arguments OutOfFuel {A}.

(** [v == null]: true of [null] and of [undefined]. *)
Definition looseNull (v : value) : bool :=
  match v with VUndefined | VNull => true | _ => false end.

(** [v === null]. *)
Definition strictNull (v : value) : bool :=
  match v with VNull => true | _ => false end.

(** [v === s] for a string literal [s]. *)
Definition strictEqStr (v : value) (s : string) : bool :=
  match v with VStr t => String.eqb t s | _ => false end.

(** Own-property lookup in an object literal as parsed from JSON. *)
Fixpoint ownProperty (props : list (string * value)) (k : string) : option value :=
  match props with
  | [] => None
  | (k', v) :: rest => if String.eqb k' k then Some v else ownProperty rest k
  end.

(** [v.k] for the property names the workflow reads ([id], [detected_lang],
    [status]), none of which a built-in prototype defines: reading them off
    [null] or [undefined] throws, off an object gives the own property or
    [undefined], off any other value gives [undefined]. *)
Definition getProp (v : value) (k : string) : completion value :=
  match v with
  | VUndefined | VNull => Throw TypeError
  | VObj props => Normal (default VUndefined (ownProperty props k))
  | _ => Normal VUndefined
  end.

(** [v[0]]. *)
Definition index0 (v : value) : completion value :=
  match v with
  | VUndefined | VNull => Throw TypeError
  | VArr items => Normal (default VUndefined (head items))
  | VStr (String c _) => Normal (VStr (String c EmptyString))
  | VObj props => Normal (default VUndefined (ownProperty props "0"))
  | _ => Normal VUndefined
  end.

(** [Array.prototype.join] with the default separator, given the pieces. *)
Fixpoint joinComma (pieces : list string) : string :=
  match pieces with
  | [] => ""
  | [p] => p
  | p :: rest => p +:+ "," +:+ joinComma rest
  end.

(** [ToString(v)].  An object whose own [toString] property shadows the
    inherited method has no primitive rendering: the coercion throws. *)
Fixpoint toString (v : value) : completion string :=
  match v with
  | VUndefined => Normal "undefined"
  | VNull => Normal "null"
  | VBool b => Normal (if b then "true" else "false")
  | VNum rendering => Normal rendering
  | VStr s => Normal s
  | VArr items =>
      (fix pieces (l : list value) (acc : list string) : completion string :=
         match l with
         | [] => Normal (joinComma (rev acc))
         | x :: rest =>
             match (if looseNull x then Normal "" else toString x) with
             | Normal s => pieces rest (s :: acc)
             | Throw e => Throw e
             | OutOfFuel => OutOfFuel
             end
         end) items []
  | VObj props =>
      match ownProperty props "toString" with
      | Some _ => Throw TypeError
      | None => Normal "[object Object]"
      end
  end.

(** [ToPropertyKey(v)] for the values at hand (no symbols). *)
Definition toPropertyKey (v : value) : completion string := toString v.

(** The property names every object inherits from [Object.prototype]. *)
Definition objectPrototypeNames : list string :=
  [ "constructor"; "__defineGetter__"; "__defineSetter__"; "hasOwnProperty";
    "__lookupGetter__"; "__lookupSetter__"; "isPrototypeOf";
    "propertyIsEnumerable"; "toString"; "valueOf"; "__proto__";
    "toLocaleString" ].

Definition inObjectPrototype (k : string) : bool :=
  existsb (String.eqb k) objectPrototypeNames.

(* ------------------------------------------------------------------ *)
(** ** The component's state *)

Inductive Status : Type := Ready | Translating | Translated | Failed.

(** The two [useState] cells of [TranslateThis]. *)
Record component : Type := mkComponent {
  status : Status;
  translation : value
}.

(** [useState(Status.Ready)], [useState()]. *)
Definition initialComponent : component :=
  {| status := Ready; translation := VUndefined |}.

(** [disabled={status === Status.Translating}]. *)
Definition buttonDisabled (c : component) : bool :=
  match status c with Translating => true | _ => false end.

(* ------------------------------------------------------------------ *)
(** ** The network *)

(** [GetSubstitution] for a match of the string [matched] that stands
    between [before] and [after] in the text searched and has no captures.
    In the replacement text [$$] is a dollar sign, [$&] the match, [$`]
    what is before the match and [$'] what is after it; a dollar sign
    before anything else (a digit or [<] included, there being no
    captures) stands for itself. *)
Fixpoint getSubstitution (matched before after replacement : string) : string :=
  match replacement with
  | EmptyString => EmptyString
  | String c rest =>
      if Ascii.eqb c "$" then
        match rest with
        | EmptyString => String c EmptyString
        | String c' rest' =>
            if Ascii.eqb c' "$" then
              String c' (getSubstitution matched before after rest')
            else if Ascii.eqb c' "&" then
              matched +:+ getSubstitution matched before after rest'
            else if Ascii.eqb c' "`" then
              before +:+ getSubstitution matched before after rest'
            else if Ascii.eqb c' "'" then
              after +:+ getSubstitution matched before after rest'
            else String c (getSubstitution matched before after rest)
        end
      else String c (getSubstitution matched before after rest)
  end.

(** [before + template] after [template.replace(pattern, replacement)],
    for a string [pattern] and a [replacement] that is text: the first
    occurrence of the pattern gives way to its substitution, and a text
    without the pattern is kept. *)
Fixpoint replaceFrom (before template pattern replacement : string) : string :=
  if String.prefix pattern template then
    let after := String.substring (String.length pattern)
                   (String.length template - String.length pattern) template in
    before +:+ getSubstitution pattern before after replacement +:+ after
  else
    match template with
    | EmptyString => before
    | String c rest =>
        replaceFrom (before +:+ String c EmptyString) rest pattern replacement
    end.

Definition replace (template pattern replacement : string) : string :=
  replaceFrom "" template pattern replacement.

(** The entries of [liltUrls]. *)
Module liltUrls.
Definition upload : string :=
  "https://lilt.com/2/files?name=element_web.txt&langId=true".
Definition checkUpload : string := "https://lilt.com/2/files?id=FILE_ID".
Definition translate : string :=
  "https://lilt.com/2/translate/file?memoryId=MEMORY_ID&fileId=FILE_ID".
Definition checkTranslate : string :=
  "https://lilt.com/2/translate/file?translationIds=TRANSLATION_ID".
Definition download : string :=
  "https://lilt.com/2/translate/files?id=TRANSLATION_ID".
End liltUrls.

(** A call of [fetch], by the entry of [liltUrls] its URL is made from and
    the texts that the workflow gives to [String.prototype.replace] for
    [FILE_ID], [MEMORY_ID] and [TRANSLATION_ID]: the identifiers as
    [ToString] renders them, before [replace] reads any [$] in them.
    [Upload] carries the request body.  The URL that is fetched is [url] of
    the request; two requests with one URL are one request to the network,
    so that a service of the network is a [service] below that answers
    them alike, and what holds of every [service] holds of it. *)
Inductive request : Type :=
| Upload (text : string)
| CheckUpload (fileId : string)
| Translate (memoryId fileId : string)
| CheckTranslate (translationId : string)
| Download (translationId : string).

(** The URL of a request. *)
Definition url (req : request) : string :=
  match req with
  | Upload _ => liltUrls.upload
  | CheckUpload fileId => replace liltUrls.checkUpload "FILE_ID" fileId
  | Translate memoryId fileId =>
      replace (replace liltUrls.translate "MEMORY_ID" memoryId) "FILE_ID" fileId
  | CheckTranslate translationId =>
      replace liltUrls.checkTranslate "TRANSLATION_ID" translationId
  | Download translationId =>
      replace liltUrls.download "TRANSLATION_ID" translationId
  end.

(** A [Response]: [ok], what [json()] resolves to ([None]: the body is not
    JSON and the promise rejects) and what [text()] resolves to. *)
Record response : Type := mkResponse {
  ok : bool;
  json : option value;
  text : string
}.

(** The messages passed to [console.warn]. *)
Inductive diagnostic : Type :=
| FailedUploading              (* "Failed uploading text to translate." *)
| FailedCheckingUpload         (* "Failed checking upload of translation text." *)
| UnableToDetectAPI            (* "API was unable to detect language for translation." *)
| NotSetUp (detectedLang : string)  (* `Not set up to translate from ${detectedLang}.` *)
| FailedRequestingTranslation  (* "Failed requesting translation of uploaded file." *)
| FailedCheckingStatus         (* "Failed checking translation status." *)
| FailedDownloading            (* "Failed downloading translation." *)
| UnableToDetect               (* "Unable to detect the language of this message." *)
| FailedPolling (url : request)     (* `Failed polling ${url}.` *)
| GaveUpPolling (url : request).    (* `Gave up polling ${url}.` *)

(** What a run does that the outside can see, in order. *)
Inductive event : Type :=
| EFetch (req : request)
| ESleep (milliseconds : Z)
| EWarn (d : diagnostic).

(** The service: its answer to the [n]-th request of a run. *)
Definition service : Type := nat -> request -> response.

(** An asynchronous computation: from the number of requests made so far
    to its completion, the new number and the events it produced. *)
Definition M (A : Type) : Type := nat -> completion A * nat * list event.

Definition ret {A} (a : A) : M A := fun n => (Normal a, n, []).

Definition bind {A B} (m : M A) (k : A -> M B) : M B := fun n =>
  match m n with
  | (Normal a, n1, l1) => let '(c, n2, l2) := k a n1 in (c, n2, (l1 ++ l2)%list)
  | (Throw e, n1, l1) => (Throw e, n1, l1)
  | (OutOfFuel, n1, l1) => (OutOfFuel, n1, l1)
  end.

Notation "'let*' x ':=' m 'in' k" := (bind m (fun x => k))
  (at level 10, x name, m at level 100, k at level 200, only parsing).

(** A synchronous expression inside an [async] function. *)
Definition lift {A} (c : completion A) : M A := fun n => (c, n, []).

Definition outOfFuel {A} : M A := lift OutOfFuel.

Definition fetch (srv : service) (req : request) : M response :=
  fun n => (Normal (srv n req), S n, [EFetch req]).

(** [await sleep(milliseconds)]. *)
Definition sleep (milliseconds : Z) : M unit :=
  fun n => (Normal tt, n, [ESleep milliseconds]).

Definition warn (d : diagnostic) : M unit :=
  fun n => (Normal tt, n, [EWarn d]).

(** Sequencing of synchronous expressions. *)
Definition andThen {A B} (c : completion A) (k : A -> completion B) : completion B :=
  match c with
  | Normal a => k a
  | Throw e => Throw e
  | OutOfFuel => OutOfFuel
  end.

(** [await response.json()]. *)
Definition bodyOf (r : response) : completion value :=
  match json r with
  | Some v => Normal v
  | None => Throw SyntaxError
  end.

(** [(await response.json()).id]. *)
Definition idOf (r : response) : completion value :=
  andThen (bodyOf r) (fun body => getProp body "id").

(** [(await response.json())[0].id]. *)
Definition firstIdOf (r : response) : completion value :=
  andThen (bodyOf r) (fun body =>
  andThen (index0 body) (fun first => getProp first "id")).

(** [(await response.json())[0].detected_lang]. *)
Definition detectedLangOf (r : response) : completion value :=
  andThen (bodyOf r) (fun body =>
  andThen (index0 body) (fun first => getProp first "detected_lang")).

(** [(await response.json()).status]. *)
Definition statusOf (r : response) : completion value :=
  andThen (bodyOf r) (fun body => getProp body "status").

(** [liltUrls.checkUpload.replace("FILE_ID", fileId)] and its siblings:
    [replace] first renders the identifier with [ToString], which can
    throw, and the request is the one made from that text. *)
Definition urlCheckUpload (fileId : value) : completion request :=
  andThen (toString fileId) (fun s => Normal (CheckUpload s)).

Definition urlCheckTranslate (translationId : value) : completion request :=
  andThen (toString translationId) (fun s => Normal (CheckTranslate s)).

Definition urlDownload (translationId : value) : completion request :=
  andThen (toString translationId) (fun s => Normal (Download s)).

(** The body of the handler that [onTranslateThisClick] returns, given the
    revision's [liltTranslate].  A rejection of [liltTranslate] rejects the
    handler's own promise after the two [setStatus(Translating)] calls. *)
Definition clickHandler (liltTranslate : string -> M (option string))
    (text : string) (c : component) : completion unit * component * list event :=
  let c := {| status := Translating; translation := translation c |} in
  let c := {| status := Translating; translation := translation c |} in
  match liltTranslate text 0%nat with
  | (Normal (Some t), _, l) =>
      (Normal tt, {| status := Translated; translation := VStr t |}, l)
  | (Normal None, _, l) =>
      (Normal tt, {| status := Failed; translation := VNull |}, l)
  | (Throw e, _, l) => (Throw e, c, l)
  | (OutOfFuel, _, l) => (OutOfFuel, c, l)
  end.

(** How a loop body leaves the loop: by [return] from the enclosing
    function, or by falling out of the loop with the loop variable. *)
Inductive loopExit : Type :=
| Returned (r : option string)
| Left (v : value).

(** Putting events in front of what a computation goes on to produce. *)
Definition after {A} (l0 : list event) (r : completion A * nat * list event)
    : completion A * nat * list event :=
  let '(c, n, l) := r in (c, n, (l0 ++ l)%list).

(** The completion, and the events, of a run. *)
Definition outcome {A} (r : completion A * nat * list event) : completion A :=
  r.1.1.

Definition events {A} (r : completion A * nat * list event) : list event :=
  r.2.

(** The requests among the events, and how many go to an endpoint. *)
Definition isFetch (e : event) : bool :=
  match e with EFetch _ => true | _ => false end.

Definition isCheckUpload (e : event) : bool :=
  match e with EFetch (CheckUpload _) => true | _ => false end.

Definition isTranslate (e : event) : bool :=
  match e with EFetch (Translate _ _) => true | _ => false end.

Definition isCheckTranslate (e : event) : bool :=
  match e with EFetch (CheckTranslate _) => true | _ => false end.

Definition isDownload (e : event) : bool :=
  match e with EFetch (Download _) => true | _ => false end.

Definition isUpload (e : event) : bool :=
  match e with EFetch (Upload _) => true | _ => false end.

Definition count (p : event -> bool) (l : list event) : nat :=
  List.length (List.filter p l).

(** The delays slept, in order, and the warnings, in order. *)
Definition delays (l : list event) : list Z :=
  omap (fun e => match e with ESleep ms => Some ms | _ => None end) l.

Definition warnings (l : list event) : list diagnostic :=
  omap (fun e => match e with EWarn d => Some d | _ => None end) l.

(* ------------------------------------------------------------------ *)
(** ** The fixed-delay revision ([TranslateThis.tsx]) *)

Module Fixed.

Definition liltPollTimeMs : Z := 1000.
Definition liltMaxPolls : Z := 20.

Definition liltMemories : gmap string Z :=
  {[ "fr" := 69501; "de" := 69706 ]}.

Definition liltShouldOfferTranslation
    (messageSender currentUser _messageText : string) : bool :=
  strictNeq messageSender currentUser.

Definition shouldOfferTranslation
    (messageSender currentUser messageText : string) : bool :=
  liltShouldOfferTranslation messageSender currentUser messageText.

(** [liltUrls.translate.replace("MEMORY_ID", memoryId).replace("FILE_ID", fileId)]:
    the memory number, one of [liltMemories], is rendered in decimal
    digits, the identifier with [ToString]. *)
Definition urlTranslate (memoryId : Z) (fileId : value) : completion request :=
  andThen (toString fileId) (fun s => Normal (Translate (pretty memoryId) s)).

Section Workflow.
Variable srv : service.

(** [while (detectedLang == null) { ... }], entered with the current
    [detectedLang] and [checkUploadTries]; each iteration takes one unit of
    fuel. *)
Fixpoint checkUploadLoop (fuel : nat) (fileId detectedLang : value)
    (checkUploadTries : Z) : M loopExit :=
  if negb (looseNull detectedLang) then ret (Left detectedLang)
  else
    match fuel with
    | O => outOfFuel
    | S fuel' =>
        let* url := lift (urlCheckUpload fileId) in
        let* responseCheckUpload := fetch srv url in
        if negb (ok responseCheckUpload) then
          let* _ := warn FailedCheckingUpload in
          ret (Returned None)
        else
          let* detectedLang := lift (detectedLangOf responseCheckUpload) in
          let checkUploadTries := checkUploadTries + 1 in
          if (liltMaxPolls <=? checkUploadTries)%Z then ret (Left detectedLang)
          else
            let* _ := sleep liltPollTimeMs in
            checkUploadLoop fuel' fileId detectedLang checkUploadTries
    end.

(** [while (translateStatus !== "ReadyForDownload") { ... }]. *)
Fixpoint checkTranslateLoop (fuel : nat) (translationId translateStatus : value)
    (checkTranslateTries : Z) : M loopExit :=
  if strictEqStr translateStatus "ReadyForDownload" then ret (Left translateStatus)
  else
    match fuel with
    | O => outOfFuel
    | S fuel' =>
        let* url := lift (urlCheckTranslate translationId) in
        let* responseCheckTranslate := fetch srv url in
        if negb (ok responseCheckTranslate) then
          let* _ := warn FailedCheckingStatus in
          ret (Returned None)
        else
          let* translateStatus := lift (statusOf responseCheckTranslate) in
          let checkTranslateTries := checkTranslateTries + 1 in
          if (liltMaxPolls <=? checkTranslateTries)%Z then ret (Left translateStatus)
          else
            let* _ := sleep liltPollTimeMs in
            checkTranslateLoop fuel' translationId translateStatus checkTranslateTries
    end.

(** The tail of [liltTranslate] from the download on. *)
Definition download (translationId : value) : M (option string) :=
  let* url := lift (urlDownload translationId) in
  let* responseDownload := fetch srv url in
  if negb (ok responseDownload) then
    let* _ := warn FailedDownloading in
    ret None
  else ret (Some (text responseDownload)).

(** [liltTranslate] from the translate request on, the language being one
    the memories cover. *)
Definition translateWith (fuel : nat) (memoryId : Z) (fileId : value)
    : M (option string) :=
  let* url := lift (urlTranslate memoryId fileId) in
  let* responseTranslate := fetch srv url in
  if negb (ok responseTranslate) then
    let* _ := warn FailedRequestingTranslation in
    ret None
  else
    let* translationId := lift (firstIdOf responseTranslate) in
    let* exit := checkTranslateLoop fuel translationId VNull 0 in
    match exit with
    | Returned r => ret r
    | Left _ => download translationId
    end.

(** [liltTranslate] from the [hasOwnProperty] test on. *)
Definition afterDetection (fuel : nat) (fileId detectedLang : value)
    : M (option string) :=
  let* key := lift (toPropertyKey detectedLang) in
  match liltMemories !! key with
  | None =>
      let* _ := (if strictNull detectedLang then warn UnableToDetectAPI
                 else warn (NotSetUp key)) in
      ret None
  | Some memoryId => translateWith fuel memoryId fileId
  end.

(** [liltTranslate] from the first polling loop on. *)
Definition afterUpload (fuel : nat) (fileId : value) : M (option string) :=
  let* exit := checkUploadLoop fuel fileId VNull 0 in
  match exit with
  | Returned r => ret r
  | Left detectedLang => afterDetection fuel fileId detectedLang
  end.

(** [liltTranslate], its loops given [fuel] iterations each. *)
Definition liltTranslateFuel (fuel : nat) (text : string) : M (option string) :=
  let* responseUpload := fetch srv (Upload text) in
  if negb (ok responseUpload) then
    let* _ := warn FailedUploading in
    ret None
  else
    let* fileId := lift (idOf responseUpload) in
    afterUpload fuel fileId.

Definition liltTranslate (text : string) : M (option string) :=
  liltTranslateFuel (Z.to_nat liltMaxPolls) text.

Definition onTranslateThisClick (text : string) (c : component)
    : completion unit * component * list event :=
  clickHandler liltTranslate text c.

End Workflow.
End Fixed.

(* ------------------------------------------------------------------ *)
(** ** The backoff revision *)

Module Backoff.

Definition liltPollTimeMs : Z := 100.
Definition liltMaxPolls : Z := 20.

Definition liltMemories : gmap string Z :=
  {[ "fr" := 69501; "de" := 69706 ]}.

Definition englishSegments : list string :=
  [ " all "; " and "; " from "; " had "; " has "; " thanks "; " that ";
    " the "; " this "; " yeah " ].

(** The [for (const segment of englishSegments)] loop over the segments
    still to be looked at. *)
Fixpoint scanSegments (lc : string) (segments : list string) : bool :=
  match segments with
  | [] => true
  | segment :: rest =>
      if includes lc (toLowerCase segment) then false
      else scanSegments lc rest
  end.

Definition liltShouldOfferTranslation (messageText : string) : bool :=
  let lc := toLowerCase messageText in
  scanSegments lc englishSegments.

Definition shouldOfferTranslation
    (messageSender currentUser messageText : string) : bool :=
  (strictNeq messageSender currentUser
   && liltShouldOfferTranslation messageText)%bool.

Definition sleepTime (pollNumber : Z) : Z :=
  liltPollTimeMs * Z.min 32 (2 ^ (pollNumber + 1)).

(** What [liltMemories[key]] evaluates to: an own property, a member
    inherited from [Object.prototype], or [undefined]. *)
Inductive member : Type :=
| OwnMember (memoryId : Z)
| InheritedMember (name : string)
| NoMember.

Definition lookupMember (key : string) : member :=
  match liltMemories !! key with
  | Some memoryId => OwnMember memoryId
  | None => if inObjectPrototype key then InheritedMember key else NoMember
  end.

(** [!memoryId] is false of a non-zero number and of every function and
    object. *)
Definition truthy (m : member) : bool :=
  match m with
  | OwnMember memoryId => negb (memoryId =? 0)%Z
  | InheritedMember _ => true
  | NoMember => false
  end.

(** The text that [liltUrls.translate.replace("MEMORY_ID", memoryId)] has
    for [MEMORY_ID].  A number is rendered; [__proto__] is the object
    [Object.prototype] and is rendered; any other inherited member is a
    function, which [replace] calls with [this] undefined and the match as
    first argument, and whose result it renders.  None of these texts has
    a dollar sign, so that it stands in the URL as it is. *)
Definition memoryIdText (m : member) : completion string :=
  match m with
  | OwnMember memoryId => Normal (pretty memoryId)
  | NoMember => Normal "undefined"
  | InheritedMember name =>
      if String.eqb name "constructor" then Normal "MEMORY_ID"
      else if String.eqb name "toString" then Normal "[object Undefined]"
      else if String.eqb name "isPrototypeOf" then Normal "false"
      else if String.eqb name "__proto__" then Normal "[object Object]"
      else Throw TypeError
  end.

Definition urlTranslate (memoryId : member) (fileId : value) : completion request :=
  andThen (memoryIdText memoryId) (fun m =>
  andThen (toString fileId) (fun s => Normal (Translate m s))).

(** [(json) => json[0].detected_lang ?? null]. *)
Definition checkDetectedLang (body : value) : completion value :=
  andThen (index0 body) (fun first =>
  andThen (getProp first "detected_lang") (fun d =>
  Normal (if looseNull d then VNull else d))).

(** [(json) => json[0].status === "ReadyForDownload" ? json[0].status : null]. *)
Definition checkStatus (body : value) : completion value :=
  andThen (index0 body) (fun first =>
  andThen (getProp first "status") (fun s =>
  Normal (if strictEqStr s "ReadyForDownload" then s else VNull))).

Section Workflow.
Variable srv : service.

(** The [for] loop of [pollFor], entered with the current [numPolls]; the
    body ends in [numPolls++] and the loop header adds its own. *)
Fixpoint pollLoop (fuel : nat) (url : request)
    (checkResponse : value -> completion value) (numPolls : Z) : M value :=
  if (numPolls <? liltMaxPolls)%Z then
    match fuel with
    | O => outOfFuel
    | S fuel' =>
        let* response := fetch srv url in
        if negb (ok response) then
          let* _ := warn (FailedPolling url) in
          ret VNull
        else
          let* body := lift (bodyOf response) in
          let* answer := lift (checkResponse body) in
          if negb (strictNull answer) then ret answer
          else
            let* _ := sleep (sleepTime numPolls) in
            let numPolls := numPolls + 1 in
            let numPolls := numPolls + 1 in
            pollLoop fuel' url checkResponse numPolls
    end
  else
    let* _ := warn (GaveUpPolling url) in
    ret VNull.

Definition pollForFuel (fuel : nat) (url : request)
    (checkResponse : value -> completion value) : M value :=
  pollLoop fuel url checkResponse 0.

Definition pollFor : request -> (value -> completion value) -> M value :=
  pollForFuel (Z.to_nat liltMaxPolls).

Definition download (translationId : value) : M (option string) :=
  let* url := lift (urlDownload translationId) in
  let* responseDownload := fetch srv url in
  if negb (ok responseDownload) then
    let* _ := warn FailedDownloading in
    ret None
  else ret (Some (text responseDownload)).

(** [liltTranslate] from the translate request on. *)
Definition translateWith (fuel : nat) (memoryId : member) (fileId : value)
    : M (option string) :=
  let* url := lift (urlTranslate memoryId fileId) in
  let* responseTranslate := fetch srv url in
  if negb (ok responseTranslate) then
    let* _ := warn FailedRequestingTranslation in
    ret None
  else
    let* translationId := lift (firstIdOf responseTranslate) in
    let* url := lift (urlCheckTranslate translationId) in
    let* translationStatus := pollForFuel fuel url checkStatus in
    if negb (strictEqStr translationStatus "ReadyForDownload") then ret None
    else download translationId.

(** [liltTranslate] from the test for ["und"] on. *)
Definition afterDetection (fuel : nat) (fileId detectedLang : value)
    : M (option string) :=
  if strictEqStr detectedLang "und" then
    let* _ := warn UnableToDetect in
    ret None
  else
    let* key := lift (toPropertyKey detectedLang) in
    let memoryId := lookupMember key in
    if negb (truthy memoryId) then
      let* _ := (if strictNull detectedLang then warn UnableToDetectAPI
                 else warn (NotSetUp key)) in
      ret None
    else translateWith fuel memoryId fileId.

(** [liltTranslate] from the first [pollFor] on. *)
Definition afterUpload (fuel : nat) (fileId : value) : M (option string) :=
  let* url := lift (urlCheckUpload fileId) in
  let* detectedLang := pollForFuel fuel url checkDetectedLang in
  afterDetection fuel fileId detectedLang.

Definition liltTranslateFuel (fuel : nat) (text : string) : M (option string) :=
  let* responseUpload := fetch srv (Upload text) in
  if negb (ok responseUpload) then
    let* _ := warn FailedUploading in
    ret None
  else
    let* fileId := lift (idOf responseUpload) in
    afterUpload fuel fileId.

Definition liltTranslate (text : string) : M (option string) :=
  liltTranslateFuel (Z.to_nat liltMaxPolls) text.

Definition onTranslateThisClick (text : string) (c : component)
    : completion unit * component * list event :=
  clickHandler liltTranslate text c.

End Workflow.
End Backoff.

(* ------------------------------------------------------------------ *)
(** ** Describing what the service answers *)

(** The answers the workflow waits for. *)
Definition uploads (r : response) (fileId : value) : Prop :=
  ok r = true /\ idOf r = Normal fileId.

Definition detects (r : response) (detectedLang : value) : Prop :=
  ok r = true /\ detectedLangOf r = Normal detectedLang.

Definition starts (r : response) (translationId : value) : Prop :=
  ok r = true /\ firstIdOf r = Normal translationId.

Definition reports (r : response) (translateStatus : value) : Prop :=
  ok r = true /\ statusOf r = Normal translateStatus.

Definition delivers (r : response) (t : string) : Prop :=
  ok r = true /\ text r = t.

(** A successful poll that leaves the fixed-delay loops running: no
    language yet, or a status other than ["ReadyForDownload"]. *)
Definition pendingDetection (r : response) : bool :=
  ok r && match detectedLangOf r with Normal d => looseNull d | _ => false end.

Definition pendingStatus (r : response) : bool :=
  ok r && match statusOf r with
          | Normal s => negb (strictEqStr s "ReadyForDownload")
          | _ => false
          end.

(** [(await response.json())[0].status], as the backoff revision reads the
    status, and a poll that leaves its [pollFor] running. *)
Definition firstStatusOf (r : response) : completion value :=
  andThen (bodyOf r) (fun body =>
  andThen (index0 body) (fun first => getProp first "status")).

Definition pendingFirstStatus (r : response) : bool :=
  ok r && match firstStatusOf r with
          | Normal s => negb (strictEqStr s "ReadyForDownload")
          | _ => false
          end.

(** What [pollFor] computes from a successful response, and a poll that
    leaves it running. *)
Definition answerOf (checkResponse : value -> completion value) (r : response)
    : completion value :=
  andThen (bodyOf r) checkResponse.

Definition pendingAnswer (checkResponse : value -> completion value)
    (r : response) : bool :=
  ok r && match answerOf checkResponse r with
          | Normal a => strictNull a
          | _ => false
          end.

(** How the events of a fixed-delay loop end: the last poll, and the sleep
    after it unless the budget was spent. *)
Definition lastPoll (url : request) (ms : Z) (l : list event) : Prop :=
  l = [EFetch url] \/ l = [EFetch url; ESleep ms].

(** [k] polls of [url], each followed by a sleep of [ms]. *)
Definition pollEvents (url : request) (ms : Z) (k : nat) : list event :=
  concat (replicate k [EFetch url; ESleep ms]).

(** [k] polls of [url] by [pollFor], the first with the counter at
    [numPolls], each followed by its sleep; the counter moves by two. *)
Fixpoint backoffEvents (url : request) (numPolls : Z) (k : nat) : list event :=
  match k with
  | O => []
  | S k' =>
      EFetch url :: ESleep (Backoff.sleepTime numPolls)
        :: backoffEvents url (numPolls + 1 + 1) k'
  end.

(* ------------------------------------------------------------------ *)
(** ** Properties of computations *)

(** [m] never runs out of fuel. *)
Definition terminates {A} (m : M A) : Prop :=
  forall n, outcome (m n) <> OutOfFuel.

(** Every event of [m] satisfies [P]. *)
Definition always {A} (P : event -> Prop) (m : M A) : Prop :=
  forall n, Forall P (events (m n)).

(** [m] produces at most [b] events that satisfy [p]. *)
Definition atMost {A} (p : event -> bool) (b : nat) (m : M A) : Prop :=
  forall n, (count p (events (m n)) <= b)%nat.

Definition isNormal {A} (c : completion A) : bool :=
  match c with Normal _ => true | _ => false end.

(* ------------------------------------------------------------------ *)
(** ** Services used as examples *)

Definition okJson (v : value) : response :=
  {| ok := true; json := Some v; text := "" |}.

Definition okText (t : string) : response :=
  {| ok := true; json := None; text := t |}.

Definition notOk : response :=
  {| ok := false; json := None; text := "" |}.

(** A service that answers by endpoint, the same way every time. *)
Definition byEndpoint (onUpload onCheckUpload onTranslate onCheckTranslate
    onDownload : response) : service :=
  fun _ req =>
    match req with
    | Upload _ => onUpload
    | CheckUpload _ => onCheckUpload
    | Translate _ _ => onTranslate
    | CheckTranslate _ => onCheckTranslate
    | Download _ => onDownload
    end.

(** A service that answers the [n]-th request with the [n]-th response of
    a script. *)
Definition scripted (script : list response) : service :=
  fun n _ => nth n script notOk.

Definition fileCreated : response := okJson (VObj [("id", VNum "7")]).
Definition translationCreated : response := okJson (VArr [VObj [("id", VNum "9")]]).
Definition language (d : value) : response :=
  okJson (VArr [VObj [("detected_lang", d)]]).
Definition statusObject (s : string) : response :=
  okJson (VObj [("status", VStr s)]).
Definition statusList (s : string) : response :=
  okJson (VArr [VObj [("status", VStr s)]]).

(** French is detected on the second poll and the translation is ready on
    the second poll; the status comes as the fixed-delay revision reads it. *)
Definition happyService : service :=
  scripted [ fileCreated; language VNull; language (VStr "fr");
             translationCreated; statusObject "InProgress";
             statusObject "ReadyForDownload"; okText "Hello" ].

(** French is detected at once and the translation never gets ready. *)
Definition stuckService : service :=
  byEndpoint fileCreated (language (VStr "fr")) translationCreated
    (statusList "InProgress") (okText "Hello").

(** No language is ever detected. *)
Definition silentService : service :=
  byEndpoint fileCreated (language VNull) translationCreated
    (statusList "ReadyForDownload") (okText "Hello").

(** The language is reported as [detected]; the rest goes well. *)
Definition detectingService (detected : string) : service :=
  byEndpoint fileCreated (language (VStr detected)) translationCreated
    (statusList "ReadyForDownload") (okText "Hello").

(** The upload is refused. *)
Definition refusingService : service :=
  byEndpoint notOk notOk notOk notOk notOk.

(** The upload check answers with an empty list. *)
Definition emptyListService : service :=
  byEndpoint fileCreated (okJson (VArr [])) translationCreated
    (statusList "ReadyForDownload") (okText "Hello").


(* ------------------------------------------------------------------ *)
(** ** What the component renders *)

(** What [TranslateThis] returns, by the element and what it shows: the
    button with its label and its [disabled] attribute, or the block with
    its heading and the translation. *)
Inductive element : Type :=
| ButtonElement (label : string) (disabled : bool)
| TranslatedElement (heading : string) (translation : value).

Section Rendering.
(** [_t] of [languageHandler], which is not among the sources. *)
Variable _t : string -> string.

Definition message (status : Status) : string :=
  match status with
  | Ready => _t "Translate this"
  | Translating => _t "Translating ..."
  | _ => _t "Translation failed. Try again?"
  end.

Definition renderButton (status : Status) : element :=
  ButtonElement (message status)
    (match status with Translating => true | _ => false end).

Definition renderTranslated (translation : value) : element :=
  TranslatedElement (_t "Translation:") translation.

Definition TranslateThis (c : component) : element :=
  match status c with
  | Translated => renderTranslated (translation c)
  | _ => renderButton (status c)
  end.

End Rendering.

(* ------------------------------------------------------------------ *)
(** ** The order of the requests *)

(** The requests of a run, in order, and the text an identifier is put
    into a URL as. *)
Definition requests (l : list event) : list request :=
  omap (fun e => match e with EFetch req => Some req | _ => None end) l.

Definition isSleep (e : event) : bool :=
  match e with ESleep _ => true | _ => false end.

Definition rendering (v : value) : string :=
  match toString v with Normal s => s | _ => "" end.

(** The requests from the download on, from the translate request on, and
    of a whole run: one upload, polls of the upload check for one file, and
    then nothing more or one translate request for that file, polls of the
    translation check for one translation and at most one download of
    it.  The file and the translation are the identifiers that are given
    to [replace]; what [replace] makes of them in each URL is [url]. *)
Definition downloadOrder (tid : string) (rs : list request) : Prop :=
  rs = [] \/ rs = [Download tid].

Definition translateOrder (fid : string) (rs : list request) : Prop :=
  rs = [] \/
  exists mem tid m dl,
    rs = (Translate mem fid :: replicate m (CheckTranslate tid) ++ dl)%list /\
    downloadOrder tid dl.

Definition protocolOrder (text : string) (rs : list request) : Prop :=
  exists fid k rest,
    rs = (Upload text :: replicate k (CheckUpload fid) ++ rest)%list /\
    translateOrder fid rest.

(** A run and the click that makes it, when the run produces the events
    [l] and returns [null], leaving the component [Failed], or returns the
    text [t], leaving the component [Translated]; the requests counted are
    those of [l]. *)
Definition endsFailed (run : completion (option string) * nat * list event)
    (click : completion unit * component * list event) (l : list event) : Prop :=
  run = (Normal None, List.length (requests l), l) /\
  click = (Normal tt, {| status := Failed; translation := VNull |}, l).

Definition endsTranslated (run : completion (option string) * nat * list event)
    (click : completion unit * component * list event) (l : list event)
    (t : string) : Prop :=
  run = (Normal (Some t), List.length (requests l), l) /\
  click = (Normal tt, {| status := Translated; translation := VStr t |}, l).

(** The events of a fixed-delay loop that makes [k] polls and leaves on
    the last: each poll but the twentieth is followed by a sleep. *)
Definition fixedPolls (url : request) (k : nat) : list event :=
  (pollEvents url Fixed.liltPollTimeMs (k - 1)
   ++ (if (k =? 20)%nat then [EFetch url]
       else [EFetch url; ESleep Fixed.liltPollTimeMs]))%list.

(** The events of a [pollFor] that makes [k] polls and gets its answer on
    the last. *)
Definition backoffPolls (url : request) (k : nat) : list event :=
  (backoffEvents url 0 (k - 1) ++ [EFetch url])%list.

(** A successful poll as the backoff revision reads the status. *)
Definition reportsFirst (r : response) (translateStatus : value) : Prop :=
  ok r = true /\ firstStatusOf r = Normal translateStatus.

(** The letters that come in two cases, each as the pair of its capital
    and its small letter: A-Z and, in the Latin-1 Supplement, the capitals
    from U+00C0 to U+00D6 and from U+00D8 to U+00DE. *)
Definition letterCases : list (ascii * ascii) :=
  List.map (fun n => (ascii_of_nat n, ascii_of_nat (n + 32)))
    (seq 65 26 ++ seq 192 23 ++ seq 216 7)%list.



(** Two characters that are equal or the two cases of one letter, and two
    texts that differ in the case of their letters at most. *)
Definition sameLetter (c d : ascii) : bool :=
  Ascii.eqb c d
  || existsb (fun p => Ascii.eqb (fst p) c && Ascii.eqb (snd p) d
                       || Ascii.eqb (fst p) d && Ascii.eqb (snd p) c) letterCases.

Fixpoint sameIgnoringCase (a b : string) : bool :=
  match a, b with
  | EmptyString, EmptyString => true
  | String c a', String d b' => sameLetter c d && sameIgnoringCase a' b'
  | _, _ => false
  end.

(** The number of space characters of a text. *)
Fixpoint spaces (s : string) : nat :=
  match s with
  | EmptyString => 0
  | String c rest => ((if Ascii.eqb c " " then 1 else 0) + spaces rest)%nat
  end.

(** The memory texts of the requests. *)
Definition memoryTexts (rs : list request) : list string :=
  omap (fun r => match r with Translate mem _ => Some mem | _ => None end) rs.

(** The time slept in all, in milliseconds. *)
Definition waited (l : list event) : Z := foldr Z.add 0 (delays l).

(** [m] sleeps at most [b] milliseconds in all. *)
Definition waitsAtMost {A} (b : Z) (m : M A) : Prop :=
  forall n, waited (events (m n)) <= b.

(** The time the loop of [pollFor] can sleep when entered with [numPolls]. *)
Fixpoint backoffBudget (fuel : nat) (numPolls : Z) : Z :=
  match fuel with
  | O => 0
  | S fuel' =>
      if (numPolls <? Backoff.liltMaxPolls)%Z
      then Backoff.sleepTime numPolls + backoffBudget fuel' (numPolls + 1 + 1)
      else 0
  end.

(** The service that answers the first [k] requests as [srv] does and
    refuses the rest. *)
Definition cutShort (k : nat) (srv : service) : service :=
  fun n req => if (n <? k)%nat then srv n req else notOk.

(** German is detected on the second poll and the translation is ready on
    the second poll; the status comes as the backoff revision reads it. *)
Definition happyListService : service :=
  scripted [ fileCreated; language VNull; language (VStr "de");
             translationCreated; statusList "InProgress";
             statusList "ReadyForDownload"; okText "Good day" ].






(** German is detected on the second poll and the translation never gets
    ready. *)
Definition lateGermanService : service :=
  fun n req =>
    match req with
    | CheckUpload _ => if (n <? 2)%nat then language VNull else language (VStr "de")
    | _ => stuckService n req
    end.

(* ------------------------------------------------------------------ *)
(** * Properties *)

(** ** The eligibility predicate *)

Lemma prefix_app (sub s : string) :
  String.prefix sub s = true <-> exists after, s = sub +:+ after.
Proof.
  revert s. induction sub as [|c sub IH]; intros [|c' s]; simpl.
  - split; [intros _; by exists "" | intros _; reflexivity].
  - split; [intros _; by exists (String c' s) | intros _; reflexivity].
  - split; [discriminate | intros [after H]; discriminate].
  - destruct (Ascii.ascii_dec c c') as [->|Hne].
    + rewrite IH. split; intros [after H]; exists after; [by rewrite H | by inversion H].
    + split; [discriminate | intros [after H]; inversion H; subst; by destruct Hne].
Qed.

Lemma includes_occursIn (s sub : string) :
  includes s sub = true <-> occursIn sub s.
Proof.
  unfold occursIn. induction s as [|c s IH]; cbn [includes].
  - rewrite orb_false_r, prefix_app. split.
    + intros [after H]. exists "", after. exact H.
    + intros (before & after & H). destruct before; simpl in H.
      * by exists after.
      * discriminate.
  - rewrite orb_true_iff, prefix_app, IH. split.
    + intros [[after H] | (before & after & H)].
      * exists "", after. exact H.
      * exists (String c before), after. simpl. by rewrite H.
    + intros (before & after & H). destruct before as [|c' before]; simpl in H.
      * left. by exists after.
      * right. inversion H. by exists before, after.
Qed.

Lemma scanSegments_spec (lc : string) (segments : list string) :
  Backoff.scanSegments lc segments = true <->
  forall segment, In segment segments -> ~ occursIn (toLowerCase segment) lc.
Proof.
  induction segments as [|seg rest IH]; simpl.
  - split; [intros _ ? [] | intros _; reflexivity].
  - destruct (includes lc (toLowerCase seg)) eqn:E.
    + split; [discriminate |]. intros H. exfalso.
      apply (H seg); [by left | by apply includes_occursIn].
    + rewrite IH. split.
      * intros H segment [<- | Hin]; [| by apply H].
        rewrite <- includes_occursIn. by rewrite E.
      * intros H segment Hin. apply H. by right.
Qed.

Lemma strictNeq_spec (a b : string) : strictNeq a b = true <-> a <> b.
Proof.
  unfold strictNeq. rewrite negb_true_iff. apply String.eqb_neq.
Qed.

Lemma append_cons c (a b : string) : String c a +:+ b = String c (a +:+ b).
Proof. reflexivity. Qed.

Lemma toLowerCase_app a b : toLowerCase (a +:+ b) = toLowerCase a +:+ toLowerCase b.
Proof.
  induction a as [|c a IH]; [reflexivity |].
  rewrite append_cons. cbn [toLowerCase]. by rewrite append_cons, IH.
Qed.

Lemma append_assoc (a b c : string) : (a +:+ b) +:+ c = a +:+ (b +:+ c).
Proof. induction a as [|x a IH]; [reflexivity |]. by rewrite !append_cons, IH. Qed.

Lemma occursIn_trans a b c : occursIn a b -> occursIn b c -> occursIn a c.
Proof.
  intros (p & q & ->) (p' & q' & ->).
  exists (p' +:+ p), (q +:+ q'). by rewrite !append_assoc.
Qed.

Lemma occursIn_toLowerCase a b :
  occursIn a b -> occursIn (toLowerCase a) (toLowerCase b).
Proof.
  intros (p & q & ->). exists (toLowerCase p), (toLowerCase q).
  by rewrite !toLowerCase_app.
Qed.

Ltac every_character c :=
  destruct c as [[] [] [] [] [] [] [] []]; vm_compute; try reflexivity.

Lemma toLowerCaseChar_space c :
  Ascii.eqb (toLowerCaseChar c) " " = Ascii.eqb c " ".
Proof. every_character c. Qed.



Lemma every_character_listed c : In c (List.map ascii_of_nat (seq 0 256)).
Proof.
  apply in_map_iff. exists (nat_of_ascii c). split; [apply ascii_nat_embedding |].
  apply in_seq. pose proof (nat_ascii_bounded c). lia.
Qed.

Lemma sameLetter_toLowerCaseChar c d :
  sameLetter c d = true -> toLowerCaseChar c = toLowerCaseChar d.
Proof.
  assert (H : forallb (fun c => forallb (fun d =>
                implb (sameLetter c d)
                  (Ascii.eqb (toLowerCaseChar c) (toLowerCaseChar d)))
                (List.map ascii_of_nat (seq 0 256)))
                (List.map ascii_of_nat (seq 0 256)) = true)
    by (vm_compute; reflexivity).
  rewrite forallb_forall in H. specialize (H c (every_character_listed c)).
  rewrite forallb_forall in H. specialize (H d (every_character_listed d)).
  intros Hcd. rewrite Hcd in H. by apply Ascii.eqb_eq.
Qed.

Lemma sameIgnoringCase_toLowerCase a b :
  sameIgnoringCase a b = true -> toLowerCase a = toLowerCase b.
Proof.
  revert b. induction a as [|c a IH]; intros [|d b]; cbn [sameIgnoringCase];
    try discriminate; [reflexivity |].
  intros [Hcd Hab]%andb_true_iff. cbn [toLowerCase].
  by rewrite (sameLetter_toLowerCaseChar c d Hcd), (IH b Hab).
Qed.

Lemma spaces_toLowerCase s : spaces (toLowerCase s) = spaces s.
Proof.
  induction s as [|c s IH]; [reflexivity |].
  cbn [toLowerCase spaces]. by rewrite toLowerCaseChar_space, IH.
Qed.

Lemma spaces_app a b : spaces (a +:+ b) = (spaces a + spaces b)%nat.
Proof.
  induction a as [|c a IH]; [reflexivity |].
  rewrite append_cons. cbn [spaces]. rewrite IH. lia.
Qed.


(** C1, as amended.  In the fixed-delay revision the button is offered
    exactly when the sender differs from the current user, whatever the
    message text. *)
Theorem fixed_eligibility (messageSender currentUser messageText : string) :
  (Fixed.shouldOfferTranslation messageSender currentUser messageText = true <->
   messageSender <> currentUser) /\
  (forall otherText,
     Fixed.shouldOfferTranslation messageSender currentUser otherText =
     Fixed.shouldOfferTranslation messageSender currentUser messageText).
Proof.
  split; [apply strictNeq_spec | reflexivity].
Qed.

(** C1 fails on the backoff revision: with sender and current user
    different, an English-looking text is refused and another is offered. *)
Lemma backoff_text_matters :
  "@alice:example.org" <> "@bob:example.org" /\
  Backoff.shouldOfferTranslation "@alice:example.org" "@bob:example.org"
    "Where is the cat" = false /\
  Backoff.shouldOfferTranslation "@alice:example.org" "@bob:example.org"
    "Ou est le chat" = true.
Proof. split; [discriminate | split; reflexivity]. Qed.

(** ** The URLs *)

(** A text without a dollar sign is its own substitution. *)
Lemma getSubstitution_plain matched before after replacement :
  ~ occursIn "$" replacement ->
  getSubstitution matched before after replacement = replacement.
Proof.
  induction replacement as [|c rest IH]; intros Hplain; [reflexivity |].
  cbn [getSubstitution].
  destruct (Ascii.eqb_spec c "$") as [-> | Hc].
  - destruct Hplain. by exists "", rest.
  - f_equal. apply IH. intros (p & q & ->). apply Hplain.
    exists (String c p), q. reflexivity.
Qed.

Lemma append_nil_r (s : string) : s +:+ "" = s.
Proof. induction s as [|c s IH]; [reflexivity |]. by rewrite append_cons, IH. Qed.

(** An identifier without a dollar sign stands in the URL as it is. *)
Lemma url_plain (identifier : string) :
  ~ occursIn "$" identifier ->
  url (CheckUpload identifier) = "https://lilt.com/2/files?id=" +:+ identifier /\
  url (Translate "69501" identifier)
    = "https://lilt.com/2/translate/file?memoryId=69501&fileId=" +:+ identifier /\
  url (Translate "69706" identifier)
    = "https://lilt.com/2/translate/file?memoryId=69706&fileId=" +:+ identifier /\
  url (CheckTranslate identifier)
    = "https://lilt.com/2/translate/file?translationIds=" +:+ identifier /\
  url (Download identifier) = "https://lilt.com/2/translate/files?id=" +:+ identifier.
Proof.
  intros Hplain.
  assert (H : forall matched before,
            before +:+ getSubstitution matched before "" identifier +:+ ""
              = before +:+ identifier)
    by (intros; by rewrite getSubstitution_plain, append_nil_r).
  repeat split; apply H.
Qed.

(** One with a dollar sign is read by [replace]: [$&] leaves [FILE_ID] in
    the URL, and [$`] puts there what comes before the identifier, which
    is not the same text in the URL of the upload check and in that of the
    translate request. *)
Lemma url_patterns :
  url (CheckUpload "$&") = "https://lilt.com/2/files?id=FILE_ID" /\
  url (CheckUpload "$$7") = "https://lilt.com/2/files?id=$7" /\
  url (CheckUpload "$`")
    = "https://lilt.com/2/files?id=https://lilt.com/2/files?id=" /\
  url (Translate "69501" "$`")
    = "https://lilt.com/2/translate/file?memoryId=69501&fileId=" +:+
      "https://lilt.com/2/translate/file?memoryId=69501&fileId=".
Proof. repeat split. Qed.

(** ** Events and counting *)

Lemma after_after {A} l0 l1 (r : completion A * nat * list event) :
  after l0 (after l1 r) = after (l0 ++ l1)%list r.
Proof. destruct r as [[c n] l]. simpl. by rewrite app_assoc. Qed.

Lemma after_nil {A} (r : completion A * nat * list event) : after [] r = r.
Proof. by destruct r as [[c n] l]. Qed.

Lemma pollEvents_S url ms k :
  pollEvents url ms (S k) = EFetch url :: ESleep ms :: pollEvents url ms k.
Proof. reflexivity. Qed.

Lemma count_app p l1 l2 : count p (l1 ++ l2)%list = (count p l1 + count p l2)%nat.
Proof. unfold count. by rewrite List.filter_app, length_app. Qed.

Lemma count_cons p e l :
  count p (e :: l) = ((if p e then 1 else 0) + count p l)%nat.
Proof. unfold count. simpl. by destruct (p e). Qed.

Lemma warnings_app l1 l2 : warnings (l1 ++ l2)%list = (warnings l1 ++ warnings l2)%list.
Proof. unfold warnings. apply omap_app. Qed.

Lemma delays_app l1 l2 : delays (l1 ++ l2)%list = (delays l1 ++ delays l2)%list.
Proof. unfold delays. apply omap_app. Qed.

Lemma count_pollEvents_fetch url ms k : count isFetch (pollEvents url ms k) = k.
Proof. induction k as [|k IH]; [reflexivity |]. rewrite pollEvents_S. unfold count in *. simpl. by rewrite IH. Qed.

Lemma count_pollEvents p url ms k :
  p (ESleep ms) = false ->
  count p (pollEvents url ms k) = if p (EFetch url) then k else 0%nat.
Proof.
  intros Hs. induction k as [|k IH]; [by destruct (p (EFetch url)) |].
  rewrite pollEvents_S. unfold count in *. simpl. rewrite Hs.
  destruct (p (EFetch url)); simpl; by rewrite IH.
Qed.

Lemma warnings_pollEvents url ms k : warnings (pollEvents url ms k) = [].
Proof. induction k as [|k IH]; [reflexivity |]. rewrite pollEvents_S. exact IH. Qed.

Lemma delays_pollEvents url ms k : delays (pollEvents url ms k) = replicate k ms.
Proof. induction k as [|k IH]; [reflexivity |]. rewrite pollEvents_S. simpl. f_equal. exact IH. Qed.

Lemma count_polls p url ms k tail :
  lastPoll url ms tail ->
  p (ESleep ms) = false ->
  count p (pollEvents url ms k ++ tail)%list = if p (EFetch url) then S k else 0%nat.
Proof.
  intros Htail Hs. rewrite count_app, count_pollEvents by assumption.
  destruct Htail as [-> | ->]; unfold count; simpl; rewrite ?Hs;
    destruct (p (EFetch url)); simpl; lia.
Qed.

Lemma warnings_polls url ms k tail :
  lastPoll url ms tail -> warnings (pollEvents url ms k ++ tail)%list = [].
Proof.
  intros Htail. rewrite warnings_app, warnings_pollEvents.
  by destruct Htail as [-> | ->].
Qed.

(** ** The fixed-delay revision, stage by stage *)

Section FixedRuns.
Variable srv : service.

Lemma checkUploadLoop_exit fuel fileId d tries n :
  looseNull d = false ->
  Fixed.checkUploadLoop srv fuel fileId d tries n = (Normal (Left d), n, []).
Proof. intros H. destruct fuel; simpl; rewrite H; reflexivity. Qed.

Lemma checkUploadLoop_step fuel fileId fid d tries n :
  looseNull d = true ->
  toString fileId = Normal fid ->
  Fixed.checkUploadLoop srv (S fuel) fileId d tries n =
    let url := CheckUpload fid in
    let r := srv n url in
    if ok r then
      match detectedLangOf r with
      | Normal d' =>
          if (Fixed.liltMaxPolls <=? tries + 1)%Z
          then (Normal (Left d'), S n, [EFetch url])
          else after [EFetch url; ESleep Fixed.liltPollTimeMs]
                 (Fixed.checkUploadLoop srv fuel fileId d' (tries + 1) (S n))
      | Throw e => (Throw e, S n, [EFetch url])
      | OutOfFuel => (OutOfFuel, S n, [EFetch url])
      end
    else (Normal (Returned None), S n, [EFetch url; EWarn FailedCheckingUpload]).
Proof.
  intros Hd Hid. cbn [Fixed.checkUploadLoop]. rewrite Hd. cbn [negb].
  unfold bind at 1. unfold lift at 1, urlCheckUpload. rewrite Hid. cbn [andThen].
  unfold bind at 1. unfold fetch at 1. cbv zeta.
  destruct (ok (srv n (CheckUpload fid))); cbn [negb].
  - unfold bind at 1. unfold lift at 1.
    destruct (detectedLangOf (srv n (CheckUpload fid))) as [d'| |]; try reflexivity.
    destruct (Fixed.liltMaxPolls <=? tries + 1)%Z.
    + reflexivity.
    + unfold bind, sleep, after.
      destruct (Fixed.checkUploadLoop srv fuel fileId d' (tries + 1) (S n)) as [[c n'] l].
      reflexivity.
  - reflexivity.
Qed.

Lemma checkUploadLoop_pending fileId fid k :
  toString fileId = Normal fid ->
  forall fuel d tries n,
  looseNull d = true ->
  tries + Z.of_nat k < Fixed.liltMaxPolls ->
  (forall j, (j < k)%nat -> pendingDetection (srv (n + j)%nat (CheckUpload fid)) = true) ->
  exists d', looseNull d' = true /\
    Fixed.checkUploadLoop srv (k + fuel) fileId d tries n =
    after (pollEvents (CheckUpload fid) Fixed.liltPollTimeMs k)
      (Fixed.checkUploadLoop srv fuel fileId d' (tries + Z.of_nat k) (n + k)%nat).
Proof.
  intros Hid. induction k as [|k IH]; intros fuel d tries n Hd Hlt Hpend.
  - exists d. split; [exact Hd |]. rewrite after_nil.
    by replace (tries + Z.of_nat 0) with tries by lia; replace (n + 0)%nat with n by lia.
  - pose proof (Hpend 0%nat ltac:(lia)) as H0.
    replace (n + 0)%nat with n in H0 by lia.
    unfold pendingDetection in H0. apply andb_true_iff in H0 as [Hok Hdet].
    destruct (detectedLangOf (srv n (CheckUpload fid))) as [d1| |] eqn:E1; try discriminate.
    destruct (IH fuel d1 (tries + 1) (S n) Hdet ltac:(lia)) as (d' & Hd' & Heq).
    { intros j Hj. replace (S n + j)%nat with (n + S j)%nat by lia. apply Hpend. lia. }
    exists d'. split; [exact Hd' |].
    change (S k + fuel)%nat with (S (k + fuel)).
    rewrite (checkUploadLoop_step _ _ fid) by assumption. cbv zeta.
    rewrite Hok, E1.
    destruct (Z.leb_spec Fixed.liltMaxPolls (tries + 1)) as [Hle | _]; [lia |].
    rewrite Heq, after_after. rewrite pollEvents_S.
    replace (tries + 1 + Z.of_nat k) with (tries + Z.of_nat (S k)) by lia.
    by replace (S n + k)%nat with (n + S k)%nat by lia.
Qed.

(** A poll that ends the first loop: the language is there, or the budget
    is spent. *)
Lemma checkUploadLoop_last fileId fid fuel d tries n d' :
  toString fileId = Normal fid ->
  looseNull d = true ->
  ok (srv n (CheckUpload fid)) = true ->
  detectedLangOf (srv n (CheckUpload fid)) = Normal d' ->
  looseNull d' = false \/ Fixed.liltMaxPolls <= tries + 1 ->
  exists l,
    Fixed.checkUploadLoop srv (S fuel) fileId d tries n = (Normal (Left d'), S n, l) /\
    lastPoll (CheckUpload fid) Fixed.liltPollTimeMs l.
Proof.
  intros Hid Hd Hok Hdet Hend.
  rewrite (checkUploadLoop_step _ _ fid) by assumption. cbv zeta. rewrite Hok, Hdet.
  destruct (Z.leb_spec Fixed.liltMaxPolls (tries + 1)) as [Hle | Hlt].
  - eexists. split; [reflexivity | by left].
  - destruct Hend as [Hend | Hend]; [| lia].
    rewrite checkUploadLoop_exit by assumption.
    eexists. split; [reflexivity | by right].
Qed.

Lemma checkTranslateLoop_exit fuel translationId s tries n :
  strictEqStr s "ReadyForDownload" = true ->
  Fixed.checkTranslateLoop srv fuel translationId s tries n = (Normal (Left s), n, []).
Proof. intros H. destruct fuel; simpl; rewrite H; reflexivity. Qed.

Lemma checkTranslateLoop_step fuel translationId tid s tries n :
  strictEqStr s "ReadyForDownload" = false ->
  toString translationId = Normal tid ->
  Fixed.checkTranslateLoop srv (S fuel) translationId s tries n =
    let url := CheckTranslate tid in
    let r := srv n url in
    if ok r then
      match statusOf r with
      | Normal s' =>
          if (Fixed.liltMaxPolls <=? tries + 1)%Z
          then (Normal (Left s'), S n, [EFetch url])
          else after [EFetch url; ESleep Fixed.liltPollTimeMs]
                 (Fixed.checkTranslateLoop srv fuel translationId s' (tries + 1) (S n))
      | Throw e => (Throw e, S n, [EFetch url])
      | OutOfFuel => (OutOfFuel, S n, [EFetch url])
      end
    else (Normal (Returned None), S n, [EFetch url; EWarn FailedCheckingStatus]).
Proof.
  intros Hs Hid. cbn [Fixed.checkTranslateLoop]. rewrite Hs.
  unfold bind at 1. unfold lift at 1, urlCheckTranslate. rewrite Hid. cbn [andThen].
  unfold bind at 1. unfold fetch at 1. cbv zeta.
  destruct (ok (srv n (CheckTranslate tid))); cbn [negb].
  - unfold bind at 1. unfold lift at 1.
    destruct (statusOf (srv n (CheckTranslate tid))) as [s'| |]; try reflexivity.
    destruct (Fixed.liltMaxPolls <=? tries + 1)%Z.
    + reflexivity.
    + unfold bind, sleep, after.
      destruct (Fixed.checkTranslateLoop srv fuel translationId s' (tries + 1) (S n))
        as [[c n'] l].
      reflexivity.
  - reflexivity.
Qed.

Lemma checkTranslateLoop_pending translationId tid k :
  toString translationId = Normal tid ->
  forall fuel s tries n,
  strictEqStr s "ReadyForDownload" = false ->
  tries + Z.of_nat k < Fixed.liltMaxPolls ->
  (forall j, (j < k)%nat -> pendingStatus (srv (n + j)%nat (CheckTranslate tid)) = true) ->
  exists s', strictEqStr s' "ReadyForDownload" = false /\
    Fixed.checkTranslateLoop srv (k + fuel) translationId s tries n =
    after (pollEvents (CheckTranslate tid) Fixed.liltPollTimeMs k)
      (Fixed.checkTranslateLoop srv fuel translationId s' (tries + Z.of_nat k) (n + k)%nat).
Proof.
  intros Hid. induction k as [|k IH]; intros fuel s tries n Hs Hlt Hpend.
  - exists s. split; [exact Hs |]. rewrite after_nil.
    by replace (tries + Z.of_nat 0) with tries by lia; replace (n + 0)%nat with n by lia.
  - pose proof (Hpend 0%nat ltac:(lia)) as H0.
    replace (n + 0)%nat with n in H0 by lia.
    unfold pendingStatus in H0. apply andb_true_iff in H0 as [Hok Hst].
    destruct (statusOf (srv n (CheckTranslate tid))) as [s1| |] eqn:E1; try discriminate.
    apply negb_true_iff in Hst.
    destruct (IH fuel s1 (tries + 1) (S n) Hst ltac:(lia)) as (s' & Hs' & Heq).
    { intros j Hj. replace (S n + j)%nat with (n + S j)%nat by lia. apply Hpend. lia. }
    exists s'. split; [exact Hs' |].
    change (S k + fuel)%nat with (S (k + fuel)).
    rewrite (checkTranslateLoop_step _ _ tid) by assumption. cbv zeta.
    rewrite Hok, E1.
    destruct (Z.leb_spec Fixed.liltMaxPolls (tries + 1)) as [Hle | _]; [lia |].
    rewrite Heq, after_after. rewrite pollEvents_S.
    replace (tries + 1 + Z.of_nat k) with (tries + Z.of_nat (S k)) by lia.
    by replace (S n + k)%nat with (n + S k)%nat by lia.
Qed.

Lemma checkTranslateLoop_last translationId tid fuel s tries n s' :
  toString translationId = Normal tid ->
  strictEqStr s "ReadyForDownload" = false ->
  ok (srv n (CheckTranslate tid)) = true ->
  statusOf (srv n (CheckTranslate tid)) = Normal s' ->
  strictEqStr s' "ReadyForDownload" = true \/ Fixed.liltMaxPolls <= tries + 1 ->
  exists l,
    Fixed.checkTranslateLoop srv (S fuel) translationId s tries n = (Normal (Left s'), S n, l) /\
    lastPoll (CheckTranslate tid) Fixed.liltPollTimeMs l.
Proof.
  intros Hid Hs Hok Hst Hend.
  rewrite (checkTranslateLoop_step _ _ tid) by assumption. cbv zeta. rewrite Hok, Hst.
  destruct (Z.leb_spec Fixed.liltMaxPolls (tries + 1)) as [Hle | Hlt].
  - eexists. split; [reflexivity | by left].
  - destruct Hend as [Hend | Hend]; [| lia].
    rewrite checkTranslateLoop_exit by assumption.
    eexists. split; [reflexivity | by right].
Qed.


(** The first loop, entered as [liltTranslate] enters it, when the [k]
    first polls find no language and the next one ends the loop. *)
Lemma checkUploadLoop_run fileId fid k n d' :
  toString fileId = Normal fid ->
  (k < 20)%nat ->
  (forall j, (j < k)%nat -> pendingDetection (srv (n + j)%nat (CheckUpload fid)) = true) ->
  detects (srv (n + k)%nat (CheckUpload fid)) d' ->
  looseNull d' = false \/ k = 19%nat ->
  exists tail,
    Fixed.checkUploadLoop srv (Z.to_nat Fixed.liltMaxPolls) fileId VNull 0 n
      = (Normal (Left d'), S (n + k),
         (pollEvents (CheckUpload fid) Fixed.liltPollTimeMs k ++ tail)%list) /\
    lastPoll (CheckUpload fid) Fixed.liltPollTimeMs tail.
Proof.
  intros Hid Hk Hpend [Hok Hdet] Hend.
  replace (Z.to_nat Fixed.liltMaxPolls) with (k + S (19 - k))%nat
    by (unfold Fixed.liltMaxPolls; lia).
  destruct (checkUploadLoop_pending fileId fid k Hid (S (19 - k)) VNull 0 n)
    as (d1 & Hd1 & Heq); [reflexivity | unfold Fixed.liltMaxPolls; lia | exact Hpend |].
  destruct (checkUploadLoop_last fileId fid (19 - k) d1 (0 + Z.of_nat k) (n + k) d')
    as (l & Hl & Hlast); try assumption.
  { destruct Hend as [Hend | ->]; [by left | right; unfold Fixed.liltMaxPolls; lia]. }
  rewrite Heq, Hl. cbn [after]. by exists l.
Qed.

Lemma checkTranslateLoop_run translationId tid k n s' :
  toString translationId = Normal tid ->
  (k < 20)%nat ->
  (forall j, (j < k)%nat -> pendingStatus (srv (n + j)%nat (CheckTranslate tid)) = true) ->
  reports (srv (n + k)%nat (CheckTranslate tid)) s' ->
  strictEqStr s' "ReadyForDownload" = true \/ k = 19%nat ->
  exists tail,
    Fixed.checkTranslateLoop srv (Z.to_nat Fixed.liltMaxPolls) translationId VNull 0 n
      = (Normal (Left s'), S (n + k),
         (pollEvents (CheckTranslate tid) Fixed.liltPollTimeMs k ++ tail)%list) /\
    lastPoll (CheckTranslate tid) Fixed.liltPollTimeMs tail.
Proof.
  intros Hid Hk Hpend [Hok Hst] Hend.
  replace (Z.to_nat Fixed.liltMaxPolls) with (k + S (19 - k))%nat
    by (unfold Fixed.liltMaxPolls; lia).
  destruct (checkTranslateLoop_pending translationId tid k Hid (S (19 - k)) VNull 0 n)
    as (s1 & Hs1 & Heq); [reflexivity | unfold Fixed.liltMaxPolls; lia | exact Hpend |].
  destruct (checkTranslateLoop_last translationId tid (19 - k) s1 (0 + Z.of_nat k) (n + k) s')
    as (l & Hl & Hlast); try assumption.
  { destruct Hend as [Hend | ->]; [by left | right; unfold Fixed.liltMaxPolls; lia]. }
  rewrite Heq, Hl. cbn [after]. by exists l.
Qed.

(** *** The stages of [liltTranslate] *)

Lemma fixed_upload_failed fuel text n :
  ok (srv n (Upload text)) = false ->
  Fixed.liltTranslateFuel srv fuel text n =
    (Normal None, S n, [EFetch (Upload text); EWarn FailedUploading]).
Proof.
  intros H. unfold Fixed.liltTranslateFuel, bind, fetch. by rewrite H.
Qed.

Lemma fixed_uploaded fuel text n fileId :
  uploads (srv n (Upload text)) fileId ->
  Fixed.liltTranslateFuel srv fuel text n =
    after [EFetch (Upload text)] (Fixed.afterUpload srv fuel fileId (S n)).
Proof.
  intros [Hok Hid]. unfold Fixed.liltTranslateFuel, bind at 1, fetch at 1.
  rewrite Hok. cbn [negb]. unfold bind at 1, lift at 1. rewrite Hid.
  by destruct (Fixed.afterUpload srv fuel fileId (S n)) as [[c n'] l].
Qed.

Lemma fixed_afterUpload fuel fileId n d n' l :
  Fixed.checkUploadLoop srv fuel fileId VNull 0 n = (Normal (Left d), n', l) ->
  Fixed.afterUpload srv fuel fileId n =
    after l (Fixed.afterDetection srv fuel fileId d n').
Proof.
  intros H. unfold Fixed.afterUpload, bind at 1. by rewrite H.
Qed.

Lemma fixed_supported fuel fileId d key memoryId n :
  toPropertyKey d = Normal key ->
  Fixed.liltMemories !! key = Some memoryId ->
  Fixed.afterDetection srv fuel fileId d n =
    Fixed.translateWith srv fuel memoryId fileId n.
Proof.
  intros Hkey Hmem. unfold Fixed.afterDetection, bind at 1, lift at 1.
  rewrite Hkey, Hmem.
  by destruct (Fixed.translateWith srv fuel memoryId fileId n) as [[c n'] l].
Qed.

Lemma fixed_unsupported fuel fileId d key n :
  toPropertyKey d = Normal key ->
  Fixed.liltMemories !! key = None ->
  Fixed.afterDetection srv fuel fileId d n =
    (Normal None, n,
     [EWarn (if strictNull d then UnableToDetectAPI else NotSetUp key)]).
Proof.
  intros Hkey Hmem. unfold Fixed.afterDetection, bind at 1, lift at 1.
  rewrite Hkey, Hmem. unfold bind, warn, ret. by destruct (strictNull d).
Qed.

Lemma fixed_translateWith fuel memoryId fileId fid n translationId n' l s :
  toString fileId = Normal fid ->
  starts (srv n (Translate (pretty memoryId) fid)) translationId ->
  Fixed.checkTranslateLoop srv fuel translationId VNull 0 (S n) = (Normal (Left s), n', l) ->
  Fixed.translateWith srv fuel memoryId fileId n =
    after (EFetch (Translate (pretty memoryId) fid) :: l)
      (Fixed.download srv translationId n').
Proof.
  intros Hid [Hok Htid] Hloop.
  unfold Fixed.translateWith, bind at 1, lift at 1, Fixed.urlTranslate.
  rewrite Hid. cbn [andThen]. unfold bind at 1, fetch at 1. rewrite Hok. cbn [negb].
  unfold bind at 1, lift at 1. rewrite Htid. unfold bind at 1. rewrite Hloop.
  by destruct (Fixed.download srv translationId n') as [[c n''] l'].
Qed.

Lemma fixed_download translationId tid n t :
  toString translationId = Normal tid ->
  delivers (srv n (Download tid)) t ->
  Fixed.download srv translationId n =
    (Normal (Some t), S n, [EFetch (Download tid)]).
Proof.
  intros Hid [Hok Ht]. unfold Fixed.download, bind at 1, lift at 1, urlDownload.
  rewrite Hid. cbn [andThen]. unfold bind, fetch. rewrite Hok. cbn [negb].
  unfold ret. by rewrite Ht.
Qed.


(** *** The click handler *)

Lemma click_translated lt text c n l t :
  lt text 0%nat = (Normal (Some t), n, l) ->
  clickHandler lt text c =
    (Normal tt, {| status := Translated; translation := VStr t |}, l).
Proof. intros H. unfold clickHandler. by rewrite H. Qed.

Lemma click_failed lt text c n l :
  lt text 0%nat = (Normal None, n, l) ->
  clickHandler lt text c =
    (Normal tt, {| status := Failed; translation := VNull |}, l).
Proof. intros H. unfold clickHandler. by rewrite H. Qed.

Lemma click_thrown lt text c n l e :
  lt text 0%nat = (Throw e, n, l) ->
  clickHandler lt text c =
    (Throw e, {| status := Translating; translation := translation c |}, l).
Proof. intros H. unfold clickHandler. by rewrite H. Qed.

(** C4.  In the fixed-delay revision, when the upload succeeds with a file
    identifier, poll [D] of the upload check is the first to report a
    language and reports ["fr"], the translate request succeeds with a
    translation identifier, poll [N] of the translation check is the first
    to report ["ReadyForDownload"] ([D] and [N] within the budget of 20) and
    the download succeeds with text [t], [liltTranslate] resolves to [t]
    and the click handler ends in [Translated] showing [t]. *)
Theorem fixed_happy_path text c fileId fid translationId tid (D N : nat) t :
  uploads (srv 0%nat (Upload text)) fileId ->
  toString fileId = Normal fid ->
  (1 <= D <= 20)%nat ->
  (forall j, (1 <= j < D)%nat -> pendingDetection (srv j (CheckUpload fid)) = true) ->
  detects (srv D (CheckUpload fid)) (VStr "fr") ->
  starts (srv (D + 1)%nat (Translate "69501" fid)) translationId ->
  toString translationId = Normal tid ->
  (1 <= N <= 20)%nat ->
  (forall j, (1 <= j < N)%nat ->
     pendingStatus (srv (D + 1 + j)%nat (CheckTranslate tid)) = true) ->
  reports (srv (D + 1 + N)%nat (CheckTranslate tid)) (VStr "ReadyForDownload") ->
  delivers (srv (D + N + 2)%nat (Download tid)) t ->
  exists l,
    Fixed.liltTranslate srv text 0%nat = (Normal (Some t), (D + N + 3)%nat, l) /\
    Fixed.onTranslateThisClick srv text c =
      (Normal tt, {| status := Translated; translation := VStr t |}, l) /\
    count isCheckUpload l = D /\ count isCheckTranslate l = N /\
    count isDownload l = 1%nat.
Proof.
  intros Hup Hfid HD Hpend Hdet Hstart Htid HN Hpend' Hready Hdl.
  destruct (checkUploadLoop_run fileId fid (D - 1) 1 (VStr "fr"))
    as (tail1 & Hloop1 & Htail1); try assumption; try lia.
  { intros j Hj. apply Hpend. lia. }
  { by replace (1 + (D - 1))%nat with D by lia. }
  { by left. }
  destruct (checkTranslateLoop_run translationId tid (N - 1) (S (D + 1))
              (VStr "ReadyForDownload"))
    as (tail2 & Hloop2 & Htail2); try assumption; try lia.
  { intros j Hj. replace (S (D + 1) + j)%nat with (D + 1 + S j)%nat by lia.
    apply Hpend'. lia. }
  { by replace (S (D + 1) + (N - 1))%nat with (D + 1 + N)%nat by lia. }
  { by left. }
  replace (S (1 + (D - 1))) with (D + 1)%nat in Hloop1 by lia.
  assert (Hrun : exists l,
    Fixed.liltTranslate srv text 0%nat = (Normal (Some t), (D + N + 3)%nat, l) /\
    count isCheckUpload l = D /\ count isCheckTranslate l = N /\
    count isDownload l = 1%nat).
  { unfold Fixed.liltTranslate.
    rewrite (fixed_uploaded _ _ _ fileId Hup).
    rewrite (fixed_afterUpload _ _ _ _ _ _ Hloop1).
    rewrite (fixed_supported _ _ _ "fr" 69501) by reflexivity.
    rewrite (fixed_translateWith _ 69501 _ fid (D + 1)%nat translationId _ _ _ Hfid Hstart Hloop2).
    rewrite (fixed_download _ tid _ t Htid).
    2:{ by replace (S (S (D + 1) + (N - 1))) with (D + N + 2)%nat by lia. }
    cbn [after]. eexists. split.
    { f_equal. f_equal. lia. }
    destruct Htail1 as [-> | ->], Htail2 as [-> | ->];
      repeat rewrite ?count_app, ?count_cons, ?count_pollEvents by reflexivity;
      cbn; lia. }
  destruct Hrun as (l & Hl & Hc).
  exists l. split; [exact Hl |]. split; [| exact Hc].
  exact (click_translated _ _ _ _ _ _ Hl).
Qed.

(** C5.  When the upload is answered with a non-success response, both
    revisions warn, return [null] after that single request and the click
    handler ends in [Failed]. *)
Theorem upload_failure text c :
  ok (srv 0%nat (Upload text)) = false ->
  let l := [EFetch (Upload text); EWarn FailedUploading] in
  Fixed.liltTranslate srv text 0%nat = (Normal None, 1%nat, l) /\
  Fixed.onTranslateThisClick srv text c =
    (Normal tt, {| status := Failed; translation := VNull |}, l) /\
  Backoff.liltTranslate srv text 0%nat = (Normal None, 1%nat, l) /\
  Backoff.onTranslateThisClick srv text c =
    (Normal tt, {| status := Failed; translation := VNull |}, l) /\
  count isFetch l = 1%nat.
Proof.
  intros H l.
  assert (H1 : Fixed.liltTranslate srv text 0%nat = (Normal None, 1%nat, l))
    by (by apply fixed_upload_failed).
  assert (H2 : Backoff.liltTranslate srv text 0%nat = (Normal None, 1%nat, l)).
  { unfold Backoff.liltTranslate, Backoff.liltTranslateFuel, bind, fetch. by rewrite H. }
  repeat split; try assumption.
  - exact (click_failed _ _ _ _ _ H1).
  - exact (click_failed _ _ _ _ _ H2).
Qed.

End FixedRuns.

Lemma count_backoffEvents p url numPolls k :
  (forall ms, p (ESleep ms) = false) ->
  count p (backoffEvents url numPolls k) = if p (EFetch url) then k else 0%nat.
Proof.
  intros Hs. revert numPolls. induction k as [|k IH]; intros numPolls.
  - by destruct (p (EFetch url)).
  - cbn [backoffEvents]. rewrite !count_cons, Hs, IH.
    destruct (p (EFetch url)); lia.
Qed.

Lemma warnings_backoffEvents url numPolls k :
  warnings (backoffEvents url numPolls k) = [].
Proof. revert numPolls. induction k as [|k IH]; intros numPolls; [reflexivity | apply IH]. Qed.

(** ** The backoff revision, stage by stage *)

Section BackoffRuns.
Variable srv : service.

Lemma pollLoop_gaveUp fuel url check numPolls n :
  Backoff.liltMaxPolls <= numPolls ->
  Backoff.pollLoop srv fuel url check numPolls n =
    (Normal VNull, n, [EWarn (GaveUpPolling url)]).
Proof.
  intros H. destruct fuel; cbn [Backoff.pollLoop];
    (destruct (Z.ltb_spec numPolls Backoff.liltMaxPolls); [lia | reflexivity]).
Qed.

Lemma pollLoop_step fuel url check numPolls n :
  numPolls < Backoff.liltMaxPolls ->
  Backoff.pollLoop srv (S fuel) url check numPolls n =
    let r := srv n url in
    if ok r then
      match answerOf check r with
      | Normal a =>
          if strictNull a
          then after [EFetch url; ESleep (Backoff.sleepTime numPolls)]
                 (Backoff.pollLoop srv fuel url check (numPolls + 1 + 1) (S n))
          else (Normal a, S n, [EFetch url])
      | Throw e => (Throw e, S n, [EFetch url])
      | OutOfFuel => (OutOfFuel, S n, [EFetch url])
      end
    else (Normal VNull, S n, [EFetch url; EWarn (FailedPolling url)]).
Proof.
  intros Hlt. cbn [Backoff.pollLoop].
  destruct (Z.ltb_spec numPolls Backoff.liltMaxPolls); [| lia].
  unfold bind at 1, fetch at 1. cbv zeta.
  destruct (ok (srv n url)); cbn [negb]; [| reflexivity].
  unfold answerOf. unfold bind at 1, lift at 1.
  destruct (bodyOf (srv n url)) as [body| |]; cbn [andThen]; try reflexivity.
  unfold bind at 1, lift at 1.
  destruct (check body) as [a| |]; try reflexivity.
  destruct (strictNull a); cbn [negb]; [| reflexivity].
  unfold bind, sleep, after.
  by destruct (Backoff.pollLoop srv fuel url check (numPolls + 1 + 1) (S n)) as [[c n'] l].
Qed.

Lemma pollLoop_pending url check k :
  forall fuel numPolls n,
  numPolls + 2 * Z.of_nat k < Backoff.liltMaxPolls + 2 ->
  (forall j, (j < k)%nat -> pendingAnswer check (srv (n + j)%nat url) = true) ->
  Backoff.pollLoop srv (k + fuel) url check numPolls n =
    after (backoffEvents url numPolls k)
      (Backoff.pollLoop srv fuel url check (numPolls + 2 * Z.of_nat k) (n + k)%nat).
Proof.
  induction k as [|k IH]; intros fuel numPolls n Hlt Hpend.
  - rewrite after_nil.
    by replace (numPolls + 2 * Z.of_nat 0) with numPolls by lia;
       replace (n + 0)%nat with n by lia.
  - pose proof (Hpend 0%nat ltac:(lia)) as H0.
    replace (n + 0)%nat with n in H0 by lia.
    unfold pendingAnswer in H0. apply andb_true_iff in H0 as [Hok Hans].
    destruct (answerOf check (srv n url)) as [a| |] eqn:E; try discriminate.
    change (S k + fuel)%nat with (S (k + fuel)).
    rewrite pollLoop_step by lia. cbv zeta. rewrite Hok, E, Hans.
    rewrite IH.
    + rewrite after_after. cbn [backoffEvents app].
      replace (numPolls + 1 + 1 + 2 * Z.of_nat k) with (numPolls + 2 * Z.of_nat (S k)) by lia.
      by replace (S n + k)%nat with (n + S k)%nat by lia.
    + lia.
    + intros j Hj. replace (S n + j)%nat with (n + S j)%nat by lia. apply Hpend. lia.
Qed.

(** [pollFor] when the [k] first polls give no answer and the next gives
    [a]. *)
Lemma pollFor_answer url check k n a :
  (k < 10)%nat ->
  (forall j, (j < k)%nat -> pendingAnswer check (srv (n + j)%nat url) = true) ->
  ok (srv (n + k)%nat url) = true ->
  answerOf check (srv (n + k)%nat url) = Normal a ->
  strictNull a = false ->
  Backoff.pollFor srv url check n =
    (Normal a, S (n + k), (backoffEvents url 0 k ++ [EFetch url])%list).
Proof.
  intros Hk Hpend Hok Hans Ha. unfold Backoff.pollFor, Backoff.pollForFuel.
  replace (Z.to_nat Backoff.liltMaxPolls) with (k + S (19 - k))%nat
    by (unfold Backoff.liltMaxPolls; lia).
  rewrite pollLoop_pending by (unfold Backoff.liltMaxPolls; first [lia | assumption]).
  rewrite pollLoop_step by (unfold Backoff.liltMaxPolls; lia).
  cbv zeta. by rewrite Hok, Hans, Ha.
Qed.

(** [pollFor] when no poll gives an answer: it gives up after ten polls. *)
Lemma pollFor_gaveUp url check n :
  (forall j, (j < 10)%nat -> pendingAnswer check (srv (n + j)%nat url) = true) ->
  Backoff.pollFor srv url check n =
    (Normal VNull, (n + 10)%nat,
     (backoffEvents url 0 10 ++ [EWarn (GaveUpPolling url)])%list).
Proof.
  intros Hpend. unfold Backoff.pollFor, Backoff.pollForFuel.
  change (Z.to_nat Backoff.liltMaxPolls) with (10 + 10)%nat.
  rewrite pollLoop_pending by (unfold Backoff.liltMaxPolls; first [lia | assumption]).
  by rewrite pollLoop_gaveUp by (unfold Backoff.liltMaxPolls; lia).
Qed.

End BackoffRuns.

(** ** The two revisions compared *)

Lemma answerOf_detectedLang r d :
  detectedLangOf r = Normal d ->
  answerOf Backoff.checkDetectedLang r = Normal (if looseNull d then VNull else d).
Proof.
  unfold detectedLangOf, answerOf, Backoff.checkDetectedLang.
  destruct (bodyOf r) as [body| |]; cbn [andThen]; try discriminate.
  destruct (index0 body) as [first| |]; cbn [andThen]; try discriminate.
  by intros ->.
Qed.

Lemma pendingAnswer_detectedLang r :
  pendingDetection r = true -> pendingAnswer Backoff.checkDetectedLang r = true.
Proof.
  unfold pendingDetection, pendingAnswer. intros H.
  apply andb_true_iff in H as [Hok H]. rewrite Hok. cbn [andb].
  destruct (detectedLangOf r) as [d| |] eqn:E; try discriminate.
  rewrite (answerOf_detectedLang r d E). by rewrite H.
Qed.

Lemma answerOf_status r s :
  firstStatusOf r = Normal s ->
  answerOf Backoff.checkStatus r =
    Normal (if strictEqStr s "ReadyForDownload" then s else VNull).
Proof.
  unfold firstStatusOf, answerOf, Backoff.checkStatus.
  destruct (bodyOf r) as [body| |]; cbn [andThen]; try discriminate.
  destruct (index0 body) as [first| |]; cbn [andThen]; try discriminate.
  by intros ->.
Qed.

Lemma pendingAnswer_status r :
  pendingFirstStatus r = true -> pendingAnswer Backoff.checkStatus r = true.
Proof.
  unfold pendingFirstStatus, pendingAnswer. intros H.
  apply andb_true_iff in H as [Hok H]. rewrite Hok. cbn [andb].
  destruct (firstStatusOf r) as [s| |] eqn:E; try discriminate.
  rewrite (answerOf_status r s E). apply negb_true_iff in H. by rewrite H.
Qed.

Lemma warnings_cons e l :
  warnings (e :: l) =
    match e with EWarn d => d :: warnings l | _ => warnings l end.
Proof. by destruct e. Qed.

Section BackoffStages.
Variable srv : service.

Lemma fixed_download_any translationId tid n :
  toString translationId = Normal tid ->
  Fixed.download srv translationId n =
    let r := srv n (Download tid) in
    if ok r then (Normal (Some (text r)), S n, [EFetch (Download tid)])
    else (Normal None, S n, [EFetch (Download tid); EWarn FailedDownloading]).
Proof.
  intros Hid. unfold Fixed.download, bind at 1, lift at 1, urlDownload.
  rewrite Hid. cbn [andThen]. unfold bind, fetch. cbv zeta.
  by destruct (ok (srv n (Download tid))).
Qed.

Lemma backoff_uploaded fuel text n fileId :
  uploads (srv n (Upload text)) fileId ->
  Backoff.liltTranslateFuel srv fuel text n =
    after [EFetch (Upload text)] (Backoff.afterUpload srv fuel fileId (S n)).
Proof.
  intros [Hok Hid]. unfold Backoff.liltTranslateFuel, bind at 1, fetch at 1.
  rewrite Hok. cbn [negb]. unfold bind at 1, lift at 1. rewrite Hid.
  by destruct (Backoff.afterUpload srv fuel fileId (S n)) as [[c n'] l].
Qed.

Lemma backoff_afterUpload fuel fileId fid n d n' l :
  toString fileId = Normal fid ->
  Backoff.pollForFuel srv fuel (CheckUpload fid) Backoff.checkDetectedLang n
    = (Normal d, n', l) ->
  Backoff.afterUpload srv fuel fileId n =
    after l (Backoff.afterDetection srv fuel fileId d n').
Proof.
  intros Hid H. unfold Backoff.afterUpload, bind at 1, lift at 1, urlCheckUpload.
  rewrite Hid. cbn [andThen]. unfold bind at 1. rewrite H.
  by destruct (Backoff.afterDetection srv fuel fileId d n') as [[c n''] l'].
Qed.

Lemma backoff_und fuel fileId n :
  Backoff.afterDetection srv fuel fileId (VStr "und") n =
    (Normal None, n, [EWarn UnableToDetect]).
Proof. reflexivity. Qed.

Lemma backoff_absent fuel fileId n :
  Backoff.afterDetection srv fuel fileId VNull n =
    (Normal None, n, [EWarn UnableToDetectAPI]).
Proof. reflexivity. Qed.

Lemma backoff_unsupported fuel fileId lang n :
  lang <> "und" ->
  Backoff.truthy (Backoff.lookupMember lang) = false ->
  Backoff.afterDetection srv fuel fileId (VStr lang) n =
    (Normal None, n, [EWarn (NotSetUp lang)]).
Proof.
  intros Hund Hmem. unfold Backoff.afterDetection. cbn [strictEqStr].
  apply String.eqb_neq in Hund. rewrite Hund.
  unfold bind at 1, lift at 1. cbn [toPropertyKey toString]. by rewrite Hmem.
Qed.

Lemma backoff_supported fuel fileId lang n :
  lang <> "und" ->
  Backoff.truthy (Backoff.lookupMember lang) = true ->
  Backoff.afterDetection srv fuel fileId (VStr lang) n =
    Backoff.translateWith srv fuel (Backoff.lookupMember lang) fileId n.
Proof.
  intros Hund Hmem. unfold Backoff.afterDetection. cbn [strictEqStr].
  apply String.eqb_neq in Hund. rewrite Hund.
  unfold bind at 1, lift at 1. cbn [toPropertyKey toString]. rewrite Hmem. cbn [negb].
  by destruct (Backoff.translateWith _ _ _ _ _) as [[c n'] l].
Qed.

Lemma backoff_translateWith fuel memoryId mtext fileId fid n translationId tid st n' l :
  Backoff.memoryIdText memoryId = Normal mtext ->
  toString fileId = Normal fid ->
  starts (srv n (Translate mtext fid)) translationId ->
  toString translationId = Normal tid ->
  Backoff.pollForFuel srv fuel (CheckTranslate tid) Backoff.checkStatus (S n)
    = (Normal st, n', l) ->
  Backoff.translateWith srv fuel memoryId fileId n =
    if strictEqStr st "ReadyForDownload"
    then after (EFetch (Translate mtext fid) :: l) (Backoff.download srv translationId n')
    else (Normal None, n', EFetch (Translate mtext fid) :: l).
Proof.
  intros Hm Hid [Hok Htid] Htid' Hpoll.
  unfold Backoff.translateWith, bind at 1, lift at 1, Backoff.urlTranslate.
  rewrite Hm, Hid. cbn [andThen]. unfold bind at 1, fetch at 1. rewrite Hok. cbn [negb].
  unfold bind at 1, lift at 1. rewrite Htid.
  unfold bind at 1, lift at 1, urlCheckTranslate. rewrite Htid'. cbn [andThen].
  unfold bind at 1. rewrite Hpoll.
  destruct (strictEqStr st "ReadyForDownload"); cbn [negb].
  - by destruct (Backoff.download srv translationId n') as [[c n''] l'].
  - unfold ret. by rewrite app_nil_r.
Qed.

Lemma backoff_download_any translationId tid n :
  toString translationId = Normal tid ->
  Backoff.download srv translationId n =
    let r := srv n (Download tid) in
    if ok r then (Normal (Some (text r)), S n, [EFetch (Download tid)])
    else (Normal None, S n, [EFetch (Download tid); EWarn FailedDownloading]).
Proof.
  intros Hid. unfold Backoff.download, bind at 1, lift at 1, urlDownload.
  rewrite Hid. cbn [andThen]. unfold bind, fetch. cbv zeta.
  by destruct (ok (srv n (Download tid))).
Qed.

End BackoffStages.

(** ** When no language is found, or none that is supported *)

Ltac count_events :=
  repeat rewrite ?count_app, ?count_cons, ?count_pollEvents,
    ?count_backoffEvents by reflexivity;
  cbn; try lia.

Ltac list_warnings :=
  repeat rewrite ?warnings_app, ?warnings_cons, ?warnings_pollEvents,
    ?warnings_backoffEvents;
  try reflexivity.

Section DetectionFailures.
Variable srv : service.
Variables (text : string) (c : component) (fileId : value) (fid : string).
Hypothesis Hup : uploads (srv 0%nat (Upload text)) fileId.
Hypothesis Hfid : toString fileId = Normal fid.

Lemma fixed_undetected :
  (forall j, (1 <= j < 20)%nat -> pendingDetection (srv j (CheckUpload fid)) = true) ->
  detects (srv 20%nat (CheckUpload fid)) VNull ->
  exists l,
    Fixed.liltTranslate srv text 0%nat = (Normal None, 21%nat, l) /\
    Fixed.onTranslateThisClick srv text c =
      (Normal tt, {| status := Failed; translation := VNull |}, l) /\
    warnings l = [UnableToDetectAPI] /\
    count isCheckUpload l = 20%nat /\ count isTranslate l = 0%nat.
Proof.
  intros Hpend Hdet.
  destruct (checkUploadLoop_run srv fileId fid 19 1 VNull)
    as (tail & Hloop & Htail); try assumption; try lia.
  { intros j Hj. apply Hpend. lia. }
  assert (H : exists l,
    Fixed.liltTranslate srv text 0%nat = (Normal None, 21%nat, l) /\
    warnings l = [UnableToDetectAPI] /\
    count isCheckUpload l = 20%nat /\ count isTranslate l = 0%nat).
  { unfold Fixed.liltTranslate.
    rewrite (fixed_uploaded _ _ _ _ fileId Hup).
    rewrite (fixed_afterUpload _ _ _ _ _ _ _ Hloop).
    rewrite (fixed_unsupported _ _ _ _ "null") by reflexivity.
    cbn [after strictNull]. eexists. split; [reflexivity |].
    destruct Htail as [-> | ->]; (split; [list_warnings | split; count_events]). }
  destruct H as (l & Hl & Hrest). exists l. split; [exact Hl |].
  split; [exact (click_failed _ _ _ _ _ Hl) | exact Hrest].
Qed.

Lemma fixed_unsupported_language (D : nat) (lang : string) :
  (1 <= D <= 20)%nat ->
  (forall j, (1 <= j < D)%nat -> pendingDetection (srv j (CheckUpload fid)) = true) ->
  detects (srv D (CheckUpload fid)) (VStr lang) ->
  Fixed.liltMemories !! lang = None ->
  exists l,
    Fixed.liltTranslate srv text 0%nat = (Normal None, (D + 1)%nat, l) /\
    Fixed.onTranslateThisClick srv text c =
      (Normal tt, {| status := Failed; translation := VNull |}, l) /\
    warnings l = [NotSetUp lang] /\
    count isCheckUpload l = D /\ count isTranslate l = 0%nat.
Proof.
  intros HD Hpend Hdet Hmem.
  destruct (checkUploadLoop_run srv fileId fid (D - 1) 1 (VStr lang))
    as (tail & Hloop & Htail); try assumption; try lia.
  { intros j Hj. apply Hpend. lia. }
  { by replace (1 + (D - 1))%nat with D by lia. }
  { by left. }
  replace (S (1 + (D - 1))) with (D + 1)%nat in Hloop by lia.
  assert (H : exists l,
    Fixed.liltTranslate srv text 0%nat = (Normal None, (D + 1)%nat, l) /\
    warnings l = [NotSetUp lang] /\
    count isCheckUpload l = D /\ count isTranslate l = 0%nat).
  { unfold Fixed.liltTranslate.
    rewrite (fixed_uploaded _ _ _ _ fileId Hup).
    rewrite (fixed_afterUpload _ _ _ _ _ _ _ Hloop).
    rewrite (fixed_unsupported _ _ _ _ lang) by done.
    cbn [after strictNull]. eexists. split; [reflexivity |].
    destruct Htail as [-> | ->]; (split; [list_warnings | split; count_events]). }
  destruct H as (l & Hl & Hrest). exists l. split; [exact Hl |].
  split; [exact (click_failed _ _ _ _ _ Hl) | exact Hrest].
Qed.

Lemma backoff_undetected :
  (forall j, (1 <= j <= 10)%nat -> pendingDetection (srv j (CheckUpload fid)) = true) ->
  exists l,
    Backoff.liltTranslate srv text 0%nat = (Normal None, 11%nat, l) /\
    Backoff.onTranslateThisClick srv text c =
      (Normal tt, {| status := Failed; translation := VNull |}, l) /\
    warnings l = [GaveUpPolling (CheckUpload fid); UnableToDetectAPI] /\
    count isCheckUpload l = 10%nat /\ count isTranslate l = 0%nat.
Proof.
  intros Hpend.
  assert (Hpoll : Backoff.pollFor srv (CheckUpload fid) Backoff.checkDetectedLang 1%nat
            = (Normal VNull, 11%nat,
               (backoffEvents (CheckUpload fid) 0 10
                  ++ [EWarn (GaveUpPolling (CheckUpload fid))])%list)).
  { apply pollFor_gaveUp. intros j Hj. apply pendingAnswer_detectedLang, Hpend. lia. }
  assert (H : exists l,
    Backoff.liltTranslate srv text 0%nat = (Normal None, 11%nat, l) /\
    warnings l = [GaveUpPolling (CheckUpload fid); UnableToDetectAPI] /\
    count isCheckUpload l = 10%nat /\ count isTranslate l = 0%nat).
  { unfold Backoff.liltTranslate.
    rewrite (backoff_uploaded _ _ _ _ fileId Hup).
    rewrite (backoff_afterUpload _ _ _ fid _ _ _ _ Hfid Hpoll).
    rewrite backoff_absent. cbn [after]. eexists. split; [reflexivity |].
    split; [list_warnings | split; count_events]. }
  destruct H as (l & Hl & Hrest). exists l. split; [exact Hl |].
  split; [exact (click_failed _ _ _ _ _ Hl) | exact Hrest].
Qed.

Lemma backoff_detected (D : nat) (lang : string) :
  (1 <= D <= 10)%nat ->
  (forall j, (1 <= j < D)%nat -> pendingDetection (srv j (CheckUpload fid)) = true) ->
  detects (srv D (CheckUpload fid)) (VStr lang) ->
  Backoff.pollFor srv (CheckUpload fid) Backoff.checkDetectedLang 1%nat
    = (Normal (VStr lang), (D + 1)%nat,
       (backoffEvents (CheckUpload fid) 0 (D - 1) ++ [EFetch (CheckUpload fid)])%list).
Proof.
  intros HD Hpend [Hok Hdet].
  rewrite (pollFor_answer srv _ _ (D - 1) 1 (VStr lang)); try done; try lia.
  - f_equal. f_equal. lia.
  - intros j Hj. apply pendingAnswer_detectedLang, Hpend. lia.
  - by replace (1 + (D - 1))%nat with D by lia.
  - replace (1 + (D - 1))%nat with D by lia.
    exact (answerOf_detectedLang _ _ Hdet).
Qed.

Lemma backoff_undetermined (D : nat) :
  (1 <= D <= 10)%nat ->
  (forall j, (1 <= j < D)%nat -> pendingDetection (srv j (CheckUpload fid)) = true) ->
  detects (srv D (CheckUpload fid)) (VStr "und") ->
  exists l,
    Backoff.liltTranslate srv text 0%nat = (Normal None, (D + 1)%nat, l) /\
    Backoff.onTranslateThisClick srv text c =
      (Normal tt, {| status := Failed; translation := VNull |}, l) /\
    warnings l = [UnableToDetect] /\
    count isCheckUpload l = D /\ count isTranslate l = 0%nat.
Proof.
  intros HD Hpend Hdet.
  pose proof (backoff_detected D "und" HD Hpend Hdet) as Hpoll.
  assert (H : exists l,
    Backoff.liltTranslate srv text 0%nat = (Normal None, (D + 1)%nat, l) /\
    warnings l = [UnableToDetect] /\
    count isCheckUpload l = D /\ count isTranslate l = 0%nat).
  { unfold Backoff.liltTranslate.
    rewrite (backoff_uploaded _ _ _ _ fileId Hup).
    rewrite (backoff_afterUpload _ _ _ fid _ _ _ _ Hfid Hpoll).
    rewrite backoff_und. cbn [after]. eexists. split; [reflexivity |].
    split; [list_warnings | split; count_events]. }
  destruct H as (l & Hl & Hrest). exists l. split; [exact Hl |].
  split; [exact (click_failed _ _ _ _ _ Hl) | exact Hrest].
Qed.

Lemma backoff_unsupported_language (D : nat) (lang : string) :
  (1 <= D <= 10)%nat ->
  (forall j, (1 <= j < D)%nat -> pendingDetection (srv j (CheckUpload fid)) = true) ->
  detects (srv D (CheckUpload fid)) (VStr lang) ->
  lang <> "und" ->
  Backoff.liltMemories !! lang = None ->
  inObjectPrototype lang = false ->
  exists l,
    Backoff.liltTranslate srv text 0%nat = (Normal None, (D + 1)%nat, l) /\
    Backoff.onTranslateThisClick srv text c =
      (Normal tt, {| status := Failed; translation := VNull |}, l) /\
    warnings l = [NotSetUp lang] /\
    count isCheckUpload l = D /\ count isTranslate l = 0%nat.
Proof.
  intros HD Hpend Hdet Hund Hmem Hproto.
  pose proof (backoff_detected D lang HD Hpend Hdet) as Hpoll.
  assert (H : exists l,
    Backoff.liltTranslate srv text 0%nat = (Normal None, (D + 1)%nat, l) /\
    warnings l = [NotSetUp lang] /\
    count isCheckUpload l = D /\ count isTranslate l = 0%nat).
  { unfold Backoff.liltTranslate.
    rewrite (backoff_uploaded _ _ _ _ fileId Hup).
    rewrite (backoff_afterUpload _ _ _ fid _ _ _ _ Hfid Hpoll).
    rewrite backoff_unsupported;
      [| exact Hund | unfold Backoff.lookupMember; by rewrite Hmem, Hproto].
    cbn [after]. eexists. split; [reflexivity |].
    split; [list_warnings | split; count_events]. }
  destruct H as (l & Hl & Hrest). exists l. split; [exact Hl |].
  split; [exact (click_failed _ _ _ _ _ Hl) | exact Hrest].
Qed.

End DetectionFailures.

(** ** Termination: the fuel given to the loops is enough *)

Lemma toString_fuel v : toString v <> OutOfFuel.
Proof.
  revert v. fix IH 1. intros [| | b | n | s | items | props]; cbn [toString];
    try discriminate.
  - generalize (@nil string).
    induction items as [|x items IHitems]; intros acc; [discriminate |].
    destruct (looseNull x); [apply IHitems |].
    pose proof (IH x) as Hx. destruct (toString x); [apply IHitems | discriminate | done].
  - destruct (ownProperty props "toString"); discriminate.
Qed.

Lemma andThen_fuel {A B} (c : completion A) (k : A -> completion B) :
  c <> OutOfFuel -> (forall a, k a <> OutOfFuel) -> andThen c k <> OutOfFuel.
Proof. intros Hc Hk. destruct c; cbn; [apply Hk | discriminate | done]. Qed.

Lemma getProp_fuel v k : getProp v k <> OutOfFuel.
Proof. destruct v; discriminate. Qed.

Lemma index0_fuel v : index0 v <> OutOfFuel.
Proof. destruct v as [| | | | [|? ?] | |]; discriminate. Qed.

Lemma bodyOf_fuel r : bodyOf r <> OutOfFuel.
Proof. unfold bodyOf. destruct (json r); discriminate. Qed.

Ltac fuel :=
  repeat first
    [ apply andThen_fuel | apply toString_fuel | apply getProp_fuel
    | apply index0_fuel | apply bodyOf_fuel | intro; discriminate | intros ? ].

Lemma idOf_fuel r : idOf r <> OutOfFuel.
Proof. unfold idOf. fuel. Qed.
Lemma firstIdOf_fuel r : firstIdOf r <> OutOfFuel.
Proof. unfold firstIdOf. fuel. Qed.
Lemma detectedLangOf_fuel r : detectedLangOf r <> OutOfFuel.
Proof. unfold detectedLangOf. fuel. Qed.
Lemma statusOf_fuel r : statusOf r <> OutOfFuel.
Proof. unfold statusOf. fuel. Qed.
Lemma urlCheckUpload_fuel v : urlCheckUpload v <> OutOfFuel.
Proof. unfold urlCheckUpload. fuel. Qed.
Lemma urlCheckTranslate_fuel v : urlCheckTranslate v <> OutOfFuel.
Proof. unfold urlCheckTranslate. fuel. Qed.
Lemma urlDownload_fuel v : urlDownload v <> OutOfFuel.
Proof. unfold urlDownload. fuel. Qed.
Lemma fixed_urlTranslate_fuel m v : Fixed.urlTranslate m v <> OutOfFuel.
Proof. unfold Fixed.urlTranslate. fuel. Qed.
Lemma memoryIdText_fuel m : Backoff.memoryIdText m <> OutOfFuel.
Proof. unfold Backoff.memoryIdText. destruct m; repeat case_match; discriminate. Qed.
Lemma backoff_urlTranslate_fuel m v : Backoff.urlTranslate m v <> OutOfFuel.
Proof. unfold Backoff.urlTranslate. apply andThen_fuel; [apply memoryIdText_fuel |]. fuel. Qed.
Lemma checkDetectedLang_fuel v : Backoff.checkDetectedLang v <> OutOfFuel.
Proof. unfold Backoff.checkDetectedLang. fuel. Qed.
Lemma checkStatus_fuel v : Backoff.checkStatus v <> OutOfFuel.
Proof. unfold Backoff.checkStatus. fuel. Qed.

Lemma terminates_ret {A} (a : A) : terminates (ret a).
Proof. intros n. discriminate. Qed.

Lemma terminates_lift {A} (c : completion A) : c <> OutOfFuel -> terminates (lift c).
Proof. intros H n. exact H. Qed.

Lemma terminates_bind {A B} (m : M A) (k : A -> M B) :
  terminates m -> (forall a, terminates (k a)) -> terminates (bind m k).
Proof.
  intros Hm Hk n. specialize (Hm n). unfold bind, outcome in *.
  destruct (m n) as [[[a| |] n1] l1]; cbn in *; try done.
  specialize (Hk a n1). unfold outcome in Hk.
  by destruct (k a n1) as [[c n2] l2].
Qed.

Lemma terminates_fetch srv req : terminates (fetch srv req).
Proof. intros n. discriminate. Qed.

Lemma terminates_sleep ms : terminates (sleep ms).
Proof. intros n. discriminate. Qed.

Lemma terminates_warn d : terminates (warn d).
Proof. intros n. discriminate. Qed.

Ltac terminate :=
  repeat first
    [ apply terminates_ret | apply terminates_fetch | apply terminates_sleep
    | apply terminates_warn
    | apply terminates_lift;
        first [ apply urlCheckUpload_fuel | apply urlCheckTranslate_fuel
              | apply urlDownload_fuel | apply fixed_urlTranslate_fuel
              | apply backoff_urlTranslate_fuel | apply idOf_fuel
              | apply firstIdOf_fuel | apply detectedLangOf_fuel
              | apply statusOf_fuel | apply bodyOf_fuel | apply toString_fuel
              | apply checkDetectedLang_fuel | apply checkStatus_fuel ]
    | apply terminates_bind; [| intros ?]
    | match goal with |- terminates (if ?b then _ else _) => destruct b end
    | match goal with |- terminates (match ?x with _ => _ end) => destruct x end ].

Section Termination.
Variable srv : service.

Lemma fixed_checkUploadLoop_terminates fileId fuel :
  forall d tries, tries < Fixed.liltMaxPolls ->
  Fixed.liltMaxPolls - tries <= Z.of_nat fuel ->
  terminates (Fixed.checkUploadLoop srv fuel fileId d tries).
Proof.
  induction fuel as [|fuel IH]; intros d tries Hlt Hfuel; cbn [Fixed.checkUploadLoop].
  - destruct (looseNull d); cbn [negb]; [lia | apply terminates_ret].
  - destruct (looseNull d); cbn [negb]; [| apply terminates_ret].
    apply terminates_bind; [terminate | intros url].
    apply terminates_bind; [terminate | intros r].
    destruct (ok r); cbn [negb]; [| terminate].
    apply terminates_bind; [terminate | intros d'].
    destruct (Z.leb_spec Fixed.liltMaxPolls (tries + 1)); [terminate |].
    apply terminates_bind; [terminate | intros _]. apply IH; lia.
Qed.

Lemma fixed_checkTranslateLoop_terminates translationId fuel :
  forall s tries, tries < Fixed.liltMaxPolls ->
  Fixed.liltMaxPolls - tries <= Z.of_nat fuel ->
  terminates (Fixed.checkTranslateLoop srv fuel translationId s tries).
Proof.
  induction fuel as [|fuel IH]; intros s tries Hlt Hfuel; cbn [Fixed.checkTranslateLoop].
  - destruct (strictEqStr s "ReadyForDownload"); [apply terminates_ret | lia].
  - destruct (strictEqStr s "ReadyForDownload"); [apply terminates_ret |].
    apply terminates_bind; [terminate | intros url].
    apply terminates_bind; [terminate | intros r].
    destruct (ok r); cbn [negb]; [| terminate].
    apply terminates_bind; [terminate | intros s'].
    destruct (Z.leb_spec Fixed.liltMaxPolls (tries + 1)); [terminate |].
    apply terminates_bind; [terminate | intros _]. apply IH; lia.
Qed.

Lemma backoff_pollLoop_terminates url check fuel :
  (forall body, check body <> OutOfFuel) ->
  forall numPolls, Backoff.liltMaxPolls - numPolls <= Z.of_nat fuel ->
  terminates (Backoff.pollLoop srv fuel url check numPolls).
Proof.
  intros Hcheck.
  induction fuel as [|fuel IH]; intros numPolls Hfuel; cbn [Backoff.pollLoop].
  - destruct (Z.ltb_spec numPolls Backoff.liltMaxPolls); [lia | terminate].
  - destruct (Z.ltb_spec numPolls Backoff.liltMaxPolls); [| terminate].
    apply terminates_bind; [terminate | intros r].
    destruct (ok r); cbn [negb]; [| terminate].
    apply terminates_bind; [terminate | intros body].
    apply terminates_bind; [by apply terminates_lift | intros a].
    destruct (strictNull a); cbn [negb]; [| terminate].
    apply terminates_bind; [terminate | intros _]. apply IH; lia.
Qed.

Theorem fixed_liltTranslate_terminates text :
  terminates (Fixed.liltTranslate srv text).
Proof.
  unfold Fixed.liltTranslate, Fixed.liltTranslateFuel.
  apply terminates_bind; [terminate | intros r].
  destruct (ok r); cbn [negb]; [| terminate].
  apply terminates_bind; [terminate | intros fileId].
  unfold Fixed.afterUpload.
  apply terminates_bind;
    [apply fixed_checkUploadLoop_terminates; unfold Fixed.liltMaxPolls; lia |].
  intros [r'|d]; [terminate |].
  unfold Fixed.afterDetection.
  apply terminates_bind; [terminate | intros key].
  destruct (Fixed.liltMemories !! key) as [memoryId|]; [| terminate].
  unfold Fixed.translateWith.
  apply terminates_bind; [terminate | intros url].
  apply terminates_bind; [terminate | intros r2].
  destruct (ok r2); cbn [negb]; [| terminate].
  apply terminates_bind; [terminate | intros translationId].
  apply terminates_bind;
    [apply fixed_checkTranslateLoop_terminates; unfold Fixed.liltMaxPolls; lia |].
  intros [r'|s]; [terminate |].
  unfold Fixed.download. terminate.
Qed.

Theorem backoff_liltTranslate_terminates text :
  terminates (Backoff.liltTranslate srv text).
Proof.
  unfold Backoff.liltTranslate, Backoff.liltTranslateFuel.
  apply terminates_bind; [terminate | intros r].
  destruct (ok r); cbn [negb]; [| terminate].
  apply terminates_bind; [terminate | intros fileId].
  unfold Backoff.afterUpload.
  apply terminates_bind; [terminate | intros url].
  apply terminates_bind.
  { apply backoff_pollLoop_terminates;
      [apply checkDetectedLang_fuel | unfold Backoff.liltMaxPolls; lia]. }
  intros d. unfold Backoff.afterDetection.
  destruct (strictEqStr d "und"); [terminate |].
  apply terminates_bind; [terminate | intros key].
  cbv zeta. destruct (Backoff.truthy (Backoff.lookupMember key)); cbn [negb]; [| terminate].
  unfold Backoff.translateWith.
  apply terminates_bind; [terminate | intros url2].
  apply terminates_bind; [terminate | intros r2].
  destruct (ok r2); cbn [negb]; [| terminate].
  apply terminates_bind; [terminate | intros translationId].
  apply terminates_bind; [terminate | intros url3].
  apply terminates_bind.
  { apply backoff_pollLoop_terminates;
      [apply checkStatus_fuel | unfold Backoff.liltMaxPolls; lia]. }
  intros st. destruct (strictEqStr st "ReadyForDownload"); cbn [negb]; [| terminate].
  unfold Backoff.download. terminate.
Qed.
End Termination.

(** ** What a run can emit *)

Lemma events_bind {A B} (m : M A) (k : A -> M B) n :
  events (bind m k n) =
    (events (m n) ++
     match m n with
     | (Normal a, n1, _) => events (k a n1)
     | _ => []
     end)%list.
Proof.
  unfold bind, events. destruct (m n) as [[[a| |] n1] l1]; cbn.
  - by destruct (k a n1) as [[c n2] l2].
  - by rewrite app_nil_r.
  - by rewrite app_nil_r.
Qed.

Lemma always_bind {A B} P (m : M A) (k : A -> M B) :
  always P m -> (forall a, always P (k a)) -> always P (bind m k).
Proof.
  intros Hm Hk n. rewrite events_bind. apply Forall_app. split; [apply Hm |].
  destruct (m n) as [[[a| |] n1] l1]; [apply Hk | constructor | constructor].
Qed.

Lemma always_ret {A} P (a : A) : always P (ret a).
Proof. intros n. constructor. Qed.

Lemma always_lift {A} P (c : completion A) : always P (lift c).
Proof. intros n. constructor. Qed.

Lemma always_fetch P srv req : P (EFetch req) -> always P (fetch srv req).
Proof. intros H n. by repeat constructor. Qed.

Lemma always_sleep P ms : P (ESleep ms) -> always P (sleep ms).
Proof. intros H n. by repeat constructor. Qed.

Lemma always_warn P d : P (EWarn d) -> always P (warn d).
Proof. intros H n. by repeat constructor. Qed.

Lemma atMost_bind {A B} p b1 b2 b (m : M A) (k : A -> M B) :
  atMost p b1 m -> (forall a, atMost p b2 (k a)) -> (b1 + b2 <= b)%nat ->
  atMost p b (bind m k).
Proof.
  intros Hm Hk Hb n. rewrite events_bind, count_app.
  eapply Nat.le_trans; [| exact Hb]. apply Nat.add_le_mono; [apply Hm |].
  destruct (m n) as [[[a| |] n1] l1]; [apply Hk | apply Nat.le_0_l | apply Nat.le_0_l].
Qed.

Lemma always_atMost {A} p (m : M A) b :
  always (fun e => p e = false) m -> atMost p b m.
Proof.
  intros H n. specialize (H n). induction H as [|e l He _ IH]; [cbn; lia |].
  rewrite count_cons, He. lia.
Qed.

Lemma atMost_always {A} p (m : M A) b b' :
  atMost p b m -> (b <= b')%nat -> atMost p b' m.
Proof. intros H Hb n. specialize (H n). lia. Qed.

Lemma always_bind_lift {A B} P (c : completion A) (k : A -> M B) :
  (forall a, c = Normal a -> always P (k a)) -> always P (bind (lift c) k).
Proof.
  intros Hk n. rewrite events_bind. cbn.
  destruct c as [a| |]; [by apply Hk | constructor | constructor].
Qed.

Lemma urlCheckUpload_inv v url :
  urlCheckUpload v = Normal url -> exists s, url = CheckUpload s.
Proof. unfold urlCheckUpload. destruct (toString v); cbn; intros [= <-]; eauto. Qed.

Lemma urlCheckTranslate_inv v url :
  urlCheckTranslate v = Normal url -> exists s, url = CheckTranslate s.
Proof. unfold urlCheckTranslate. destruct (toString v); cbn; intros [= <-]; eauto. Qed.

Lemma urlDownload_inv v url :
  urlDownload v = Normal url -> exists s, url = Download s.
Proof. unfold urlDownload. destruct (toString v); cbn; intros [= <-]; eauto. Qed.

Lemma fixed_urlTranslate_inv m v url :
  Fixed.urlTranslate m v = Normal url -> exists a b, url = Translate a b.
Proof. unfold Fixed.urlTranslate. destruct (toString v); cbn; intros [= <-]; eauto. Qed.

Lemma backoff_urlTranslate_inv m v url :
  Backoff.urlTranslate m v = Normal url -> exists a b, url = Translate a b.
Proof.
  unfold Backoff.urlTranslate.
  destruct (Backoff.memoryIdText m); cbn; try discriminate.
  destruct (toString v); cbn; intros [= <-]; eauto.
Qed.

Ltac alphabet_with tac :=
  repeat first
    [ tac
    | apply always_ret | apply always_lift
    | apply always_fetch; done | apply always_sleep; done | apply always_warn; done
    | match goal with
      | |- always _ (bind (lift (urlCheckUpload _)) _) =>
          apply always_bind_lift; intros ? [? ->]%urlCheckUpload_inv
      | |- always _ (bind (lift (urlCheckTranslate _)) _) =>
          apply always_bind_lift; intros ? [? ->]%urlCheckTranslate_inv
      | |- always _ (bind (lift (urlDownload _)) _) =>
          apply always_bind_lift; intros ? [? ->]%urlDownload_inv
      | |- always _ (bind (lift (Fixed.urlTranslate _ _)) _) =>
          apply always_bind_lift; intros ? (? & ? & ->)%fixed_urlTranslate_inv
      | |- always _ (bind (lift (Backoff.urlTranslate _ _)) _) =>
          apply always_bind_lift; intros ? (? & ? & ->)%backoff_urlTranslate_inv
      end
    | apply always_bind; [| intros ?]
    | match goal with |- always _ (if ?b then _ else _) => destruct b end
    | match goal with |- always _ (match ?x with _ => _ end) => destruct x end
    | progress cbv zeta ].

Ltac alphabet := alphabet_with ltac:(assumption).

Lemma atMost_bind_l {A B} p b (m : M A) (k : A -> M B) :
  always (fun e => p e = false) m -> (forall a, atMost p b (k a)) ->
  atMost p b (bind m k).
Proof.
  intros Hm Hk. apply (atMost_bind p 0 b); [by apply always_atMost | exact Hk | lia].
Qed.

Lemma atMost_bind_r {A B} p b (m : M A) (k : A -> M B) :
  atMost p b m -> (forall a, always (fun e => p e = false) (k a)) ->
  atMost p b (bind m k).
Proof.
  intros Hm Hk. apply (atMost_bind p b 0); [exact Hm | | lia].
  intros a. by apply always_atMost.
Qed.

Lemma atMost_fetch p srv req : atMost p 1 (fetch srv req).
Proof. intros n. cbn. unfold count. cbn. destruct (p (EFetch req)); cbn; lia. Qed.

Lemma atMost_le {A} p (m : M A) b b' :
  atMost p b m -> (b <= b')%nat -> atMost p b' m.
Proof. intros H Hb n. specialize (H n). lia. Qed.

Section Alphabets.
Variable srv : service.
Variable P : event -> Prop.
Hypothesis Pupload : forall t, P (EFetch (Upload t)).
Hypothesis PcheckUpload : forall s, P (EFetch (CheckUpload s)).
Hypothesis Ptranslate : forall m s, P (EFetch (Translate m s)).
Hypothesis PcheckTranslate : forall s, P (EFetch (CheckTranslate s)).
Hypothesis Pdownload : forall s, P (EFetch (Download s)).
Hypothesis Pwarn : forall d, P (EWarn d).

Lemma fixed_checkUploadLoop_always fileId fuel :
  P (ESleep Fixed.liltPollTimeMs) ->
  forall d tries, always P (Fixed.checkUploadLoop srv fuel fileId d tries).
Proof.
  intros Psleep.
  induction fuel as [|fuel IH]; intros d tries; cbn [Fixed.checkUploadLoop];
    alphabet_with ltac:(first [assumption | apply IH]).
Qed.

Lemma fixed_checkTranslateLoop_always translationId fuel :
  P (ESleep Fixed.liltPollTimeMs) ->
  forall s tries, always P (Fixed.checkTranslateLoop srv fuel translationId s tries).
Proof.
  intros Psleep.
  induction fuel as [|fuel IH]; intros s tries; cbn [Fixed.checkTranslateLoop];
    alphabet_with ltac:(first [assumption | apply IH]).
Qed.

Lemma fixed_afterDetection_always fuel fileId d :
  P (ESleep Fixed.liltPollTimeMs) ->
  always P (Fixed.afterDetection srv fuel fileId d).
Proof.
  intros Psleep.
  unfold Fixed.afterDetection, Fixed.translateWith, Fixed.download.
  alphabet_with ltac:(by apply fixed_checkTranslateLoop_always).
Qed.

Lemma fixed_liltTranslate_always text :
  P (ESleep Fixed.liltPollTimeMs) ->
  always P (Fixed.liltTranslate srv text).
Proof.
  intros Psleep.
  unfold Fixed.liltTranslate, Fixed.liltTranslateFuel, Fixed.afterUpload.
  alphabet_with ltac:(first [ by apply fixed_checkUploadLoop_always
                            | by apply fixed_afterDetection_always ]).
Qed.

Lemma backoff_pollLoop_always url check fuel :
  P (EFetch url) ->
  (forall numPolls, P (ESleep (Backoff.sleepTime numPolls))) ->
  forall numPolls, always P (Backoff.pollLoop srv fuel url check numPolls).
Proof.
  intros Purl Psleep.
  induction fuel as [|fuel IH]; intros numPolls; cbn [Backoff.pollLoop];
    alphabet_with ltac:(first [assumption | apply IH]).
Qed.

Lemma backoff_afterDetection_always fuel fileId d :
  (forall numPolls, P (ESleep (Backoff.sleepTime numPolls))) ->
  always P (Backoff.afterDetection srv fuel fileId d).
Proof.
  intros Psleep.
  unfold Backoff.afterDetection, Backoff.translateWith, Backoff.download,
    Backoff.pollForFuel.
  alphabet_with ltac:(by apply backoff_pollLoop_always).
Qed.

Lemma backoff_liltTranslate_always text :
  (forall numPolls, P (ESleep (Backoff.sleepTime numPolls))) ->
  always P (Backoff.liltTranslate srv text).
Proof.
  intros Psleep.
  unfold Backoff.liltTranslate, Backoff.liltTranslateFuel, Backoff.afterUpload,
    Backoff.pollForFuel.
  alphabet_with ltac:(first [ by apply backoff_pollLoop_always
                            | by apply backoff_afterDetection_always ]).
Qed.
End Alphabets.

Lemma sleepTime_formula pollNumber :
  Backoff.sleepTime pollNumber = 100 * Z.min 32 (2 ^ (pollNumber + 1)) /\
  Backoff.sleepTime pollNumber <= 3200.
Proof. unfold Backoff.sleepTime, Backoff.liltPollTimeMs. lia. Qed.

(** X10.  The delays of the fixed-delay revision are all [liltPollTimeMs]. *)
Theorem fixed_delays srv text n :
  Forall (fun ms => ms = 1000) (delays (events (Fixed.liltTranslate srv text n))).
Proof.
  assert (H : always (fun e => match e with ESleep ms => ms = 1000 | _ => True end)
                (Fixed.liltTranslate srv text))
    by (by apply fixed_liltTranslate_always).
  specialize (H n).
  induction H as [|e l He _ IH]; [constructor |].
  destruct e; cbn; try exact IH. constructor; [exact He | exact IH].
Qed.

(** X11.  The delays of the backoff revision are at most 3200 ms each, whatever
    the service answers. *)
Theorem backoff_delays srv text n :
  Forall (fun ms => ms <= 3200) (delays (events (Backoff.liltTranslate srv text n))).
Proof.
  assert (H : always (fun e => match e with ESleep ms => ms <= 3200 | _ => True end)
                (Backoff.liltTranslate srv text)).
  { apply backoff_liltTranslate_always; try done. intros; apply sleepTime_formula. }
  specialize (H n).
  induction H as [|e l He _ IH]; [constructor |].
  destruct e; cbn; try exact IH. constructor; [exact He | exact IH].
Qed.

Lemma count_le p q l :
  (forall e, p e = true -> q e = true) -> (count p l <= count q l)%nat.
Proof.
  intros H. induction l as [|e l IH]; [reflexivity |].
  rewrite !count_cons. specialize (H e).
  destruct (p e), (q e); first [lia | by discriminate H].
Qed.

Lemma atMost_pred {A} p q b (m : M A) :
  (forall e, p e = true -> q e = true) -> atMost q b m -> atMost p b m.
Proof.
  intros H Hm n. specialize (Hm n). pose proof (count_le p q (events (m n)) H). lia.
Qed.

Lemma atMost_bind_lift {A B} p b (c : completion A) (k : A -> M B) :
  (forall a, c = Normal a -> atMost p b (k a)) -> atMost p b (bind (lift c) k).
Proof.
  intros Hk n. rewrite events_bind, count_app. cbn.
  destruct c as [a| |]; [by apply Hk | cbn; lia | cbn; lia].
Qed.

Lemma atMost_none {A} p b (m : M A) :
  always (fun e => p e = false) m -> atMost p b m.
Proof. apply always_atMost. Qed.

Section PollBounds.
Variable srv : service.

Lemma fixed_checkUploadLoop_polls fileId fuel :
  forall d tries, tries < Fixed.liltMaxPolls ->
  atMost isFetch (Z.to_nat (Fixed.liltMaxPolls - tries))
    (Fixed.checkUploadLoop srv fuel fileId d tries).
Proof.
  induction fuel as [|fuel IH]; intros d tries Hlt; cbn [Fixed.checkUploadLoop].
  - apply atMost_none. alphabet.
  - destruct (looseNull d); cbn [negb]; [| apply atMost_none; alphabet].
    apply atMost_bind_l; [alphabet | intros url].
    apply (atMost_bind _ 1 (Z.to_nat (Fixed.liltMaxPolls - tries) - 1));
      [apply atMost_fetch | intros r | lia].
    destruct (ok r); cbn [negb]; [| apply atMost_none; alphabet].
    apply atMost_bind_l; [alphabet | intros d'].
    destruct (Z.leb_spec Fixed.liltMaxPolls (tries + 1)); [apply atMost_none; alphabet |].
    apply atMost_bind_l; [alphabet | intros _].
    eapply atMost_le; [apply IH; lia | lia].
Qed.

Lemma fixed_checkTranslateLoop_polls translationId fuel :
  forall s tries, tries < Fixed.liltMaxPolls ->
  atMost isFetch (Z.to_nat (Fixed.liltMaxPolls - tries))
    (Fixed.checkTranslateLoop srv fuel translationId s tries).
Proof.
  induction fuel as [|fuel IH]; intros s tries Hlt; cbn [Fixed.checkTranslateLoop].
  - apply atMost_none. alphabet.
  - destruct (strictEqStr s "ReadyForDownload"); [apply atMost_none; alphabet |].
    apply atMost_bind_l; [alphabet | intros url].
    apply (atMost_bind _ 1 (Z.to_nat (Fixed.liltMaxPolls - tries) - 1));
      [apply atMost_fetch | intros r | lia].
    destruct (ok r); cbn [negb]; [| apply atMost_none; alphabet].
    apply atMost_bind_l; [alphabet | intros d'].
    destruct (Z.leb_spec Fixed.liltMaxPolls (tries + 1)); [apply atMost_none; alphabet |].
    apply atMost_bind_l; [alphabet | intros _].
    eapply atMost_le; [apply IH; lia | lia].
Qed.

Lemma backoff_pollLoop_polls url check fuel :
  forall numPolls, 0 <= numPolls ->
  atMost isFetch (Z.to_nat ((Backoff.liltMaxPolls + 1 - numPolls) / 2))
    (Backoff.pollLoop srv fuel url check numPolls).
Proof.
  induction fuel as [|fuel IH]; intros numPolls Hge; cbn [Backoff.pollLoop].
  - apply atMost_none. alphabet.
  - destruct (Z.ltb_spec numPolls Backoff.liltMaxPolls); [| apply atMost_none; alphabet].
    apply (atMost_bind _ 1 (Z.to_nat ((Backoff.liltMaxPolls + 1 - numPolls) / 2) - 1));
      [apply atMost_fetch | intros r |].
    2:{ unfold Backoff.liltMaxPolls in *.
        assert (1 <= (20 + 1 - numPolls) / 2) by (apply Z.div_le_lower_bound; lia). lia. }
    destruct (ok r); cbn [negb]; [| apply atMost_none; alphabet].
    apply atMost_bind_l; [alphabet | intros body].
    apply atMost_bind_l; [alphabet | intros a].
    destruct (strictNull a); cbn [negb]; [| apply atMost_none; alphabet].
    apply atMost_bind_l; [alphabet | intros _]. cbv zeta.
    eapply atMost_le; [apply IH; lia |].
    unfold Backoff.liltMaxPolls.
    replace (20 + 1 - numPolls) with ((20 + 1 - (numPolls + 1 + 1)) + 1 * 2) by lia.
    rewrite Z.div_add by lia. lia.
Qed.

Ltac quiet := apply atMost_none; alphabet.

(** X8.  The fixed-delay revision polls each endpoint at most [liltMaxPolls]
    times, whatever the service answers. *)
Theorem fixed_polls_bounded text n :
  (count isCheckUpload (events (Fixed.liltTranslate srv text n)) <= 20)%nat /\
  (count isCheckTranslate (events (Fixed.liltTranslate srv text n)) <= 20)%nat.
Proof.
  split.
  - revert n. change (atMost isCheckUpload 20 (Fixed.liltTranslate srv text)).
    unfold Fixed.liltTranslate, Fixed.liltTranslateFuel.
    apply atMost_bind_l; [alphabet | intros r].
    destruct (ok r); cbn [negb]; [| quiet].
    apply atMost_bind_l; [alphabet | intros fileId].
    unfold Fixed.afterUpload. apply atMost_bind_r.
    + apply (atMost_pred _ isFetch); [by intros [[]| |] |].
      by apply (fixed_checkUploadLoop_polls fileId _ VNull 0).
    + intros [r'|d]; [alphabet | by apply fixed_afterDetection_always].
  - revert n. change (atMost isCheckTranslate 20 (Fixed.liltTranslate srv text)).
    unfold Fixed.liltTranslate, Fixed.liltTranslateFuel.
    apply atMost_bind_l; [alphabet | intros r].
    destruct (ok r); cbn [negb]; [| quiet].
    apply atMost_bind_l; [alphabet | intros fileId].
    unfold Fixed.afterUpload. apply atMost_bind_l.
    { by apply fixed_checkUploadLoop_always. }
    intros [r'|d]; [quiet |].
    unfold Fixed.afterDetection.
    apply atMost_bind_l; [alphabet | intros key].
    destruct (Fixed.liltMemories !! key) as [memoryId|]; [| quiet].
    unfold Fixed.translateWith.
    apply atMost_bind_lift. intros url (m & s & ->)%fixed_urlTranslate_inv.
    apply atMost_bind_l; [alphabet | intros r2].
    destruct (ok r2); cbn [negb]; [| quiet].
    apply atMost_bind_l; [alphabet | intros translationId].
    apply atMost_bind_r.
    + apply (atMost_pred _ isFetch); [by intros [[]| |] |].
      by apply (fixed_checkTranslateLoop_polls translationId _ VNull 0).
    + intros [r'|st]; [alphabet |]. unfold Fixed.download. alphabet.
Qed.

(** X9.  The backoff revision polls each endpoint at most ten times. *)
Theorem backoff_polls_bounded text n :
  (count isCheckUpload (events (Backoff.liltTranslate srv text n)) <= 10)%nat /\
  (count isCheckTranslate (events (Backoff.liltTranslate srv text n)) <= 10)%nat.
Proof.
  split.
  - revert n. change (atMost isCheckUpload 10 (Backoff.liltTranslate srv text)).
    unfold Backoff.liltTranslate, Backoff.liltTranslateFuel.
    apply atMost_bind_l; [alphabet | intros r].
    destruct (ok r); cbn [negb]; [| quiet].
    apply atMost_bind_l; [alphabet | intros fileId].
    unfold Backoff.afterUpload.
    apply atMost_bind_l; [alphabet | intros url].
    apply atMost_bind_r.
    + apply (atMost_pred _ isFetch); [by intros [[]| |] |].
      by apply (backoff_pollLoop_polls url _ _ 0).
    + intros d. by apply backoff_afterDetection_always.
  - revert n. change (atMost isCheckTranslate 10 (Backoff.liltTranslate srv text)).
    unfold Backoff.liltTranslate, Backoff.liltTranslateFuel.
    apply atMost_bind_l; [alphabet | intros r].
    destruct (ok r); cbn [negb]; [| quiet].
    apply atMost_bind_l; [alphabet | intros fileId].
    unfold Backoff.afterUpload.
    apply atMost_bind_lift. intros url [s ->]%urlCheckUpload_inv.
    apply atMost_bind_l.
    { by apply backoff_pollLoop_always. }
    intros d. unfold Backoff.afterDetection.
    destruct (strictEqStr d "und"); [quiet |].
    apply atMost_bind_l; [alphabet | intros key]. cbv zeta.
    destruct (Backoff.truthy (Backoff.lookupMember key)); cbn [negb]; [| quiet].
    unfold Backoff.translateWith.
    apply atMost_bind_lift. intros url (m & s' & ->)%backoff_urlTranslate_inv.
    apply atMost_bind_l; [alphabet | intros r2].
    destruct (ok r2); cbn [negb]; [| quiet].
    apply atMost_bind_l; [alphabet | intros translationId].
    apply atMost_bind_l; [alphabet | intros url].
    apply atMost_bind_r.
    + apply (atMost_pred _ isFetch); [by intros [[]| |] |].
      by apply (backoff_pollLoop_polls url _ _ 0).
    + intros st. destruct (strictEqStr st "ReadyForDownload"); cbn [negb]; [| alphabet].
      unfold Backoff.download. alphabet.
Qed.
End PollBounds.

(* ------------------------------------------------------------------ *)
(** * More of the two revisions *)

(** ** More on the eligibility filter *)

(** X1.  A text with fewer than two space characters is offered whenever the
    sender is not the current user: every segment has a space on either
    side, so an English word that begins or ends the text is not seen. *)
Theorem short_text_offered (messageSender currentUser messageText : string) :
  messageSender <> currentUser ->
  (spaces messageText < 2)%nat ->
  Backoff.shouldOfferTranslation messageSender currentUser messageText = true.
Proof.
  intros Hne Hspaces. unfold Backoff.shouldOfferTranslation.
  apply andb_true_iff. split; [by apply strictNeq_spec |].
  unfold Backoff.liltShouldOfferTranslation. apply scanSegments_spec.
  intros segment Hin (p & q & Hocc).
  assert (Hseg : spaces (toLowerCase segment) = 2%nat).
  { cbn in Hin. repeat (destruct Hin as [<- | Hin]; [reflexivity |]). destruct Hin. }
  apply (f_equal spaces) in Hocc.
  rewrite spaces_toLowerCase, !spaces_app, Hseg in Hocc. lia.
Qed.

Lemma short_text_offered_witness :
  Backoff.shouldOfferTranslation "@alice:example.org" "@bob:example.org" "the cat" = true.
Proof.
  apply (short_text_offered "@alice:example.org" "@bob:example.org" "the cat").
  - discriminate.
  - cbn. lia.
Defined.

(** X2.  A text that contains a refused text is refused. *)
Theorem refusal_extends (messageText longer : string) :
  occursIn messageText longer ->
  Backoff.liltShouldOfferTranslation messageText = false ->
  Backoff.liltShouldOfferTranslation longer = false.
Proof.
  unfold Backoff.liltShouldOfferTranslation. intros Hocc Hrefused.
  apply not_true_is_false. intros Hoffered.
  apply not_true_iff_false in Hrefused. apply Hrefused.
  apply scanSegments_spec. intros segment Hin Hseg.
  apply scanSegments_spec with (segment := segment) in Hoffered; [| exact Hin].
  apply Hoffered. eapply occursIn_trans; [exact Hseg |].
  by apply occursIn_toLowerCase.
Qed.

Lemma refusal_extends_witness :
  Backoff.liltShouldOfferTranslation "Where is THE cat" = false.
Proof.
  apply (refusal_extends " THE " "Where is THE cat").
  - by exists "Where is", "cat".
  - reflexivity.
Defined.

(** X3.  The filter does not see the case of the letters: two texts that
    differ in the case of their letters at most are offered or refused
    alike. *)
Theorem case_is_ignored (messageSender currentUser a b : string) :
  sameIgnoringCase a b = true ->
  Backoff.shouldOfferTranslation messageSender currentUser a
    = Backoff.shouldOfferTranslation messageSender currentUser b.
Proof.
  intros Hab.
  unfold Backoff.shouldOfferTranslation, Backoff.liltShouldOfferTranslation.
  by rewrite (sameIgnoringCase_toLowerCase a b Hab).
Qed.

Lemma case_is_ignored_witness :
  Backoff.shouldOfferTranslation "@alice:example.org" "@bob:example.org"
      "Where is THE cat"
    = Backoff.shouldOfferTranslation "@alice:example.org" "@bob:example.org"
        "where IS the Cat".
Proof.
  apply (case_is_ignored "@alice:example.org" "@bob:example.org"
           "Where is THE cat" "where IS the Cat").
  reflexivity.
Defined.

(** ** The delay and what is on screen *)

(** X4.  [sleepTime] never decreases from one poll number to a later one, and
    is at its ceiling from poll number 4 on. *)
Theorem sleepTime_monotone (p q : Z) :
  0 <= p -> p <= q ->
  Backoff.sleepTime p <= Backoff.sleepTime q /\
  (4 <= p -> Backoff.sleepTime p = 3200).
Proof.
  intros Hp Hpq. unfold Backoff.sleepTime, Backoff.liltPollTimeMs.
  assert (Hpow : 2 ^ (p + 1) <= 2 ^ (q + 1)) by (apply Z.pow_le_mono_r; lia).
  split; [lia |]. intros H4.
  assert (2 ^ 5 <= 2 ^ (p + 1)) by (apply Z.pow_le_mono_r; lia).
  change (2 ^ 5) with 32 in *. lia.
Qed.

Lemma sleepTime_monotone_witness :
  Backoff.sleepTime 4 <= Backoff.sleepTime 18 /\
  (4 <= 4 -> Backoff.sleepTime 4 = 3200).
Proof. apply (sleepTime_monotone 4 18); lia. Defined.

Section Rendered.
Variable _t : string -> string.

(** X5.  What is on screen once the click handler is through, by what
    [liltTranslate] did: if it resolved to a text, the translation under
    its heading; if it resolved to [null], the enabled button that offers
    to try again; if it threw, the disabled button that still says it is
    translating. *)
Theorem rendered_after_click (liltTranslate : string -> M (option string))
    (text : string) (c : component) :
  let shown := TranslateThis _t (clickHandler liltTranslate text c).1.2 in
  (forall t, outcome (liltTranslate text 0%nat) = Normal (Some t) ->
     shown = TranslatedElement (_t "Translation:") (VStr t)) /\
  (outcome (liltTranslate text 0%nat) = Normal None ->
     shown = ButtonElement (_t "Translation failed. Try again?") false) /\
  (forall e, outcome (liltTranslate text 0%nat) = Throw e ->
     shown = ButtonElement (_t "Translating ...") true).
Proof.
  cbv zeta. unfold clickHandler, outcome.
  destruct (liltTranslate text 0%nat) as [[[[t|]| |] n] l]; cbn;
    (split; [intros ? [= <-] | split; [intros [=] | intros ? [=]]]);
    reflexivity.
Qed.
End Rendered.

Lemma rendered_after_click_witness :
  TranslateThis (fun s => s)
      (Fixed.onTranslateThisClick happyService "Bonjour" initialComponent).1.2
    = TranslatedElement "Translation:" (VStr "Hello") /\
  TranslateThis (fun s => s)
      (Backoff.onTranslateThisClick refusingService "Bonjour" initialComponent).1.2
    = ButtonElement "Translation failed. Try again?" false /\
  TranslateThis (fun s => s)
      (Fixed.onTranslateThisClick emptyListService "Bonjour" initialComponent).1.2
    = ButtonElement "Translating ..." true.
Proof.
  split; [| split].
  - apply (proj1 (rendered_after_click (fun s => s)
                    (Fixed.liltTranslate happyService) "Bonjour" initialComponent)).
    reflexivity.
  - apply (proj1 (proj2 (rendered_after_click (fun s => s)
                    (Backoff.liltTranslate refusingService) "Bonjour" initialComponent))).
    reflexivity.
  - apply (proj2 (proj2 (rendered_after_click (fun s => s)
                    (Fixed.liltTranslate emptyListService) "Bonjour" initialComponent))
             TypeError).
    reflexivity.
Defined.

(** ** The order of the requests *)

Lemma requests_app l1 l2 : requests (l1 ++ l2)%list = (requests l1 ++ requests l2)%list.
Proof. unfold requests. apply omap_app. Qed.

Lemma requests_cons e l :
  requests (e :: l) =
    match e with EFetch req => req :: requests l | _ => requests l end.
Proof. by destruct e. Qed.

Lemma events_after {A} l0 (r : completion A * nat * list event) :
  events (after l0 r) = (l0 ++ events r)%list.
Proof. by destruct r as [[c n] l]. Qed.

Lemma memoryTexts_app l1 l2 :
  memoryTexts (l1 ++ l2)%list = (memoryTexts l1 ++ memoryTexts l2)%list.
Proof. unfold memoryTexts. apply omap_app. Qed.

Lemma memoryTexts_polls_upload k fid : memoryTexts (replicate k (CheckUpload fid)) = [].
Proof. induction k as [|k IH]; [reflexivity | exact IH]. Qed.

Lemma memoryTexts_polls_translate k tid :
  memoryTexts (replicate k (CheckTranslate tid)) = [].
Proof. induction k as [|k IH]; [reflexivity | exact IH]. Qed.

Lemma rendering_normal v s : toString v = Normal s -> rendering v = s.
Proof. unfold rendering. by intros ->. Qed.

Lemma fixed_memories_texts key memoryId :
  Fixed.liltMemories !! key = Some memoryId ->
  pretty memoryId = "69501" \/ pretty memoryId = "69706".
Proof.
  unfold Fixed.liltMemories. intros H.
  destruct (decide (key = "fr")) as [-> |];
    [left; by simplify_map_eq |].
  destruct (decide (key = "de")) as [-> |];
    [right; by simplify_map_eq |].
  by simplify_map_eq.
Qed.

Section Order.
Variable srv : service.

Lemma fixed_checkUploadLoop_requests fileId fuel :
  forall d tries n, exists k,
    requests (events (Fixed.checkUploadLoop srv fuel fileId d tries n))
      = replicate k (CheckUpload (rendering fileId)).
Proof.
  destruct (toString fileId) as [fid| |] eqn:Efid.
  - rewrite (rendering_normal _ _ Efid).
    induction fuel as [|fuel IH]; intros d tries n.
    + exists 0%nat. cbn [Fixed.checkUploadLoop]. by destruct (looseNull d).
    + destruct (looseNull d) eqn:Hd.
      2:{ exists 0%nat. by rewrite checkUploadLoop_exit. }
      rewrite (checkUploadLoop_step _ _ _ fid) by assumption. cbv zeta.
      destruct (ok (srv n (CheckUpload fid))); [| by exists 1%nat].
      destruct (detectedLangOf (srv n (CheckUpload fid))) as [d'| |];
        [| by exists 1%nat | by exists 1%nat].
      destruct (Fixed.liltMaxPolls <=? tries + 1)%Z; [by exists 1%nat |].
      destruct (IH d' (tries + 1) (S n)) as [k Hk].
      exists (S k). rewrite events_after, requests_app, Hk. reflexivity.
  - intros d tries n. exists 0%nat.
    destruct fuel; cbn [Fixed.checkUploadLoop]; destruct (looseNull d); try reflexivity.
    unfold bind, lift, urlCheckUpload. by rewrite Efid.
  - intros d tries n. exists 0%nat.
    destruct fuel; cbn [Fixed.checkUploadLoop]; destruct (looseNull d); try reflexivity.
    unfold bind, lift, urlCheckUpload. by rewrite Efid.
Qed.

Lemma fixed_checkTranslateLoop_requests translationId fuel :
  forall s tries n, exists k,
    requests (events (Fixed.checkTranslateLoop srv fuel translationId s tries n))
      = replicate k (CheckTranslate (rendering translationId)).
Proof.
  destruct (toString translationId) as [tid| |] eqn:Etid.
  - rewrite (rendering_normal _ _ Etid).
    induction fuel as [|fuel IH]; intros s tries n.
    + exists 0%nat. cbn [Fixed.checkTranslateLoop].
      by destruct (strictEqStr s "ReadyForDownload").
    + destruct (strictEqStr s "ReadyForDownload") eqn:Hs.
      { exists 0%nat. by rewrite checkTranslateLoop_exit. }
      rewrite (checkTranslateLoop_step _ _ _ tid) by assumption. cbv zeta.
      destruct (ok (srv n (CheckTranslate tid))); [| by exists 1%nat].
      destruct (statusOf (srv n (CheckTranslate tid))) as [s'| |];
        [| by exists 1%nat | by exists 1%nat].
      destruct (Fixed.liltMaxPolls <=? tries + 1)%Z; [by exists 1%nat |].
      destruct (IH s' (tries + 1) (S n)) as [k Hk].
      exists (S k). rewrite events_after, requests_app, Hk. reflexivity.
  - intros s tries n. exists 0%nat.
    destruct fuel; cbn [Fixed.checkTranslateLoop];
      destruct (strictEqStr s "ReadyForDownload"); try reflexivity.
    unfold bind, lift, urlCheckTranslate. by rewrite Etid.
  - intros s tries n. exists 0%nat.
    destruct fuel; cbn [Fixed.checkTranslateLoop];
      destruct (strictEqStr s "ReadyForDownload"); try reflexivity.
    unfold bind, lift, urlCheckTranslate. by rewrite Etid.
Qed.

Lemma fixed_download_requests translationId n :
  downloadOrder (rendering translationId)
    (requests (events (Fixed.download srv translationId n))).
Proof.
  destruct (toString translationId) as [tid| |] eqn:Etid.
  - rewrite (rendering_normal _ _ Etid), (fixed_download_any _ _ tid) by assumption.
    cbv zeta. destruct (ok (srv n (Download tid))); by right.
  - left. unfold Fixed.download, bind, lift, urlDownload. by rewrite Etid.
  - left. unfold Fixed.download, bind, lift, urlDownload. by rewrite Etid.
Qed.

Lemma fixed_translateWith_requests fuel memoryId fileId n :
  let rs := requests (events (Fixed.translateWith srv fuel memoryId fileId n)) in
  rs = [] \/
  exists tid m dl,
    rs = (Translate (pretty memoryId) (rendering fileId)
            :: replicate m (CheckTranslate tid) ++ dl)%list /\
    downloadOrder tid dl.
Proof.
  cbv zeta. unfold Fixed.translateWith.
  rewrite events_bind. unfold Fixed.urlTranslate.
  destruct (toString fileId) as [fid| |] eqn:Efid; cbn [andThen lift events snd];
    [| by left | by left].
  rewrite (rendering_normal _ _ Efid). right.
  rewrite events_bind. cbn [fetch events snd app].
  destruct (ok (srv n (Translate (pretty memoryId) fid))); cbn [negb].
  2:{ exists "", 0%nat, []. split; [reflexivity | by left]. }
  rewrite events_bind. cbn [lift events snd app].
  destruct (firstIdOf (srv n (Translate (pretty memoryId) fid))) as [translationId| |].
  2,3: exists "", 0%nat, []; split; [reflexivity | by left].
  rewrite events_bind.
  destruct (fixed_checkTranslateLoop_requests translationId fuel VNull 0 (S n))
    as [m Hm].
  exists (rendering translationId), m.
  destruct (Fixed.checkTranslateLoop srv fuel translationId VNull 0 (S n))
    as [[[[r|s]| |] n'] l] eqn:Eloop; cbn [events snd] in Hm |- *.
  - exists []. split; [| by left].
    rewrite requests_cons, requests_app, Hm. reflexivity.
  - eexists. split; [| apply fixed_download_requests].
    rewrite requests_cons, requests_app, Hm. reflexivity.
  - exists []. split; [| by left].
    rewrite requests_cons, requests_app, Hm. reflexivity.
  - exists []. split; [| by left].
    rewrite requests_cons, requests_app, Hm. reflexivity.
Qed.

Lemma fixed_afterDetection_requests fuel fileId d n :
  let rs := requests (events (Fixed.afterDetection srv fuel fileId d n)) in
  rs = [] \/
  exists mem tid m dl,
    rs = (Translate mem (rendering fileId)
            :: replicate m (CheckTranslate tid) ++ dl)%list /\
    downloadOrder tid dl /\ (mem = "69501" \/ mem = "69706").
Proof.
  cbv zeta. unfold Fixed.afterDetection. rewrite events_bind.
  destruct (toPropertyKey d) as [key| |]; cbn [lift events snd app]; [| by left | by left].
  destruct (Fixed.liltMemories !! key) as [memoryId|] eqn:Emem.
  - destruct (fixed_translateWith_requests fuel memoryId fileId n)
      as [-> | (tid & m & dl & -> & Hdl)]; [by left |].
    right. exists (pretty memoryId), tid, m, dl.
    split; [reflexivity |]. split; [exact Hdl | exact (fixed_memories_texts _ _ Emem)].
  - left. by destruct (strictNull d).
Qed.

(** X6.  The requests of the fixed-delay revision come in the order of the
    protocol and are made from one file identifier and one translation
    identifier, the ones given to [replace] each time; the memory it asks
    for is one of the two it has. *)
Theorem fixed_request_order text n :
  let rs := requests (events (Fixed.liltTranslate srv text n)) in
  protocolOrder text rs /\
  Forall (fun mem => mem = "69501" \/ mem = "69706") (memoryTexts rs).
Proof.
  cbv zeta. unfold Fixed.liltTranslate, Fixed.liltTranslateFuel.
  rewrite events_bind. cbn [fetch events snd].
  assert (Hnone : forall l, requests l = [] ->
            protocolOrder text (requests ([EFetch (Upload text)] ++ l)%list) /\
            Forall (fun mem => mem = "69501" \/ mem = "69706")
              (memoryTexts (requests ([EFetch (Upload text)] ++ l)%list))).
  { intros l Hl. rewrite requests_app, Hl. split; [| constructor].
    exists "", 0%nat, []. split; [reflexivity | by left]. }
  destruct (ok (srv n (Upload text))); cbn [negb]; [| by apply Hnone].
  rewrite events_bind. cbn [lift events snd app].
  destruct (idOf (srv n (Upload text))) as [fileId| |];
    [| by apply (Hnone []) | by apply (Hnone [])].
  unfold Fixed.afterUpload. rewrite events_bind.
  destruct (fixed_checkUploadLoop_requests fileId (Z.to_nat Fixed.liltMaxPolls)
              VNull 0 (S n)) as [k Hk].
  destruct (Fixed.checkUploadLoop srv (Z.to_nat Fixed.liltMaxPolls) fileId VNull 0 (S n))
    as [[[[r|d]| |] n'] l] eqn:Eloop; cbn [events snd] in Hk |- *.
  2:{ rewrite requests_cons, requests_app, Hk.
      destruct (fixed_afterDetection_requests (Z.to_nat Fixed.liltMaxPolls) fileId d n')
        as [-> | (mem & tid & m & dl & -> & Hdl & Hmem)].
      - split; [| rewrite app_nil_r; cbn; by rewrite memoryTexts_polls_upload].
        exists (rendering fileId), k, []. split; [reflexivity | by left].
      - split.
        + exists (rendering fileId), k. eexists. split; [reflexivity |].
          right. by exists mem, tid, m, dl.
        + change (memoryTexts (?x :: ?y)) with (memoryTexts ([x] ++ y)%list).
          rewrite !memoryTexts_app, memoryTexts_polls_upload.
          change (memoryTexts (Translate mem ?f :: ?y))
            with (mem :: memoryTexts y).
          rewrite memoryTexts_app, memoryTexts_polls_translate.
          cbn [app memoryTexts omap]. constructor; [exact Hmem |].
          destruct Hdl as [-> | ->]; constructor. }
  all: rewrite requests_cons, requests_app, Hk, app_nil_r;
    (split; [| cbn; by rewrite memoryTexts_polls_upload]);
    exists (rendering fileId), k, []; (split; [by rewrite app_nil_r | by left]).
Qed.

Lemma backoff_pollLoop_requests url check fuel :
  forall numPolls n, exists k,
    requests (events (Backoff.pollLoop srv fuel url check numPolls n))
      = replicate k url.
Proof.
  induction fuel as [|fuel IH]; intros numPolls n.
  - exists 0%nat. cbn [Backoff.pollLoop].
    by destruct (numPolls <? Backoff.liltMaxPolls)%Z.
  - destruct (Z.lt_ge_cases numPolls Backoff.liltMaxPolls) as [Hlt | Hge].
    2:{ exists 0%nat. by rewrite pollLoop_gaveUp. }
    rewrite pollLoop_step by assumption. cbv zeta.
    destruct (ok (srv n url)); [| by exists 1%nat].
    destruct (answerOf check (srv n url)) as [a| |];
      [| by exists 1%nat | by exists 1%nat].
    destruct (strictNull a); [| by exists 1%nat].
    destruct (IH (numPolls + 1 + 1) (S n)) as [k Hk].
    exists (S k). rewrite events_after, requests_app, Hk. reflexivity.
Qed.

Lemma backoff_download_requests translationId n :
  downloadOrder (rendering translationId)
    (requests (events (Backoff.download srv translationId n))).
Proof.
  destruct (toString translationId) as [tid| |] eqn:Etid.
  - rewrite (rendering_normal _ _ Etid), (backoff_download_any _ _ tid) by assumption.
    cbv zeta. destruct (ok (srv n (Download tid))); by right.
  - left. unfold Backoff.download, bind, lift, urlDownload. by rewrite Etid.
  - left. unfold Backoff.download, bind, lift, urlDownload. by rewrite Etid.
Qed.

Lemma backoff_translateWith_requests fuel memoryId fileId n :
  translateOrder (rendering fileId)
    (requests (events (Backoff.translateWith srv fuel memoryId fileId n))).
Proof.
  unfold Backoff.translateWith.
  rewrite events_bind. unfold Backoff.urlTranslate.
  destruct (Backoff.memoryIdText memoryId) as [mem| |]; cbn [andThen lift events snd];
    [| by left | by left].
  destruct (toString fileId) as [fid| |] eqn:Efid; cbn [andThen lift events snd];
    [| by left | by left].
  rewrite (rendering_normal _ _ Efid). right.
  rewrite events_bind. cbn [fetch events snd app].
  destruct (ok (srv n (Translate mem fid))); cbn [negb].
  2:{ exists mem, "", 0%nat, []. split; [reflexivity | by left]. }
  rewrite events_bind. cbn [lift events snd app].
  destruct (firstIdOf (srv n (Translate mem fid))) as [translationId| |].
  2,3: exists mem, "", 0%nat, []; split; [reflexivity | by left].
  rewrite events_bind. unfold urlCheckTranslate.
  destruct (toString translationId) as [tid| |] eqn:Etid;
    cbn [andThen lift events snd app].
  2,3: exists mem, "", 0%nat, []; split; [reflexivity | by left].
  rewrite events_bind. unfold Backoff.pollForFuel.
  destruct (backoff_pollLoop_requests (CheckTranslate tid) Backoff.checkStatus fuel 0 (S n))
    as [m Hm].
  exists mem, tid, m.
  destruct (Backoff.pollLoop srv fuel (CheckTranslate tid) Backoff.checkStatus 0 (S n))
    as [[[st| |] n'] l] eqn:Eloop; cbn [events snd] in Hm |- *.
  - destruct (strictEqStr st "ReadyForDownload"); cbn [negb].
    + eexists. split.
      * rewrite requests_cons, requests_app, Hm. reflexivity.
      * rewrite <- (rendering_normal _ _ Etid). apply backoff_download_requests.
    + exists []. split; [| by left].
      rewrite requests_cons, requests_app, Hm. reflexivity.
  - exists []. split; [| by left].
    rewrite requests_cons, requests_app, Hm. reflexivity.
  - exists []. split; [| by left].
    rewrite requests_cons, requests_app, Hm. reflexivity.
Qed.

(** X7.  The requests of the backoff revision come in the order of the
    protocol and are made from one file identifier and one translation
    identifier, the ones given to [replace] each time. *)
Theorem backoff_request_order text n :
  protocolOrder text (requests (events (Backoff.liltTranslate srv text n))).
Proof.
  unfold Backoff.liltTranslate, Backoff.liltTranslateFuel.
  rewrite events_bind. cbn [fetch events snd].
  assert (Hnone : forall l, requests l = [] ->
            protocolOrder text (requests ([EFetch (Upload text)] ++ l)%list)).
  { intros l Hl. rewrite requests_app, Hl.
    exists "", 0%nat, []. split; [reflexivity | by left]. }
  destruct (ok (srv n (Upload text))); cbn [negb]; [| by apply Hnone].
  rewrite events_bind. cbn [lift events snd app].
  destruct (idOf (srv n (Upload text))) as [fileId| |];
    [| by apply (Hnone []) | by apply (Hnone [])].
  unfold Backoff.afterUpload. rewrite events_bind. unfold urlCheckUpload.
  destruct (toString fileId) as [fid| |] eqn:Efid; cbn [andThen lift events snd app];
    [| by apply (Hnone []) | by apply (Hnone [])].
  rewrite events_bind. unfold Backoff.pollForFuel.
  destruct (backoff_pollLoop_requests (CheckUpload fid) Backoff.checkDetectedLang
              (Z.to_nat Backoff.liltMaxPolls) 0 (S n)) as [k Hk].
  destruct (Backoff.pollLoop srv (Z.to_nat Backoff.liltMaxPolls) (CheckUpload fid)
              Backoff.checkDetectedLang 0 (S n)) as [[[d| |] n'] l] eqn:Eloop;
    cbn [events snd] in Hk |- *.
  2,3: rewrite requests_cons, requests_app, Hk, app_nil_r;
    exists fid, k, []; (split; [by rewrite app_nil_r | by left]).
  rewrite requests_cons, requests_app, Hk.
  exists fid, k. eexists. split; [reflexivity |].
  unfold Backoff.afterDetection.
  destruct (strictEqStr d "und"); [by left |].
  rewrite events_bind.
  destruct (toPropertyKey d) as [key| |]; cbn [lift events snd app]; [| by left | by left].
  cbv zeta. destruct (Backoff.truthy (Backoff.lookupMember key)); cbn [negb].
  - rewrite <- (rendering_normal _ _ Efid). apply backoff_translateWith_requests.
  - left. by destruct (strictNull d).
Qed.
End Order.

(** ** Where the fixed-delay revision stops *)

Lemma delays_cons e l :
  delays (e :: l) = match e with ESleep ms => ms :: delays l | _ => delays l end.
Proof. by destruct e. Qed.

Ltac list_delays :=
  repeat rewrite ?delays_app, ?delays_cons, ?delays_pollEvents; try reflexivity.

Lemma count_fixedPolls p url k :
  (1 <= k)%nat -> p (ESleep Fixed.liltPollTimeMs) = false ->
  count p (fixedPolls url k) = if p (EFetch url) then k else 0%nat.
Proof.
  intros Hk Hs. unfold fixedPolls. rewrite count_app, count_pollEvents by assumption.
  destruct (k =? 20)%nat; rewrite !count_cons, ?Hs; cbn;
    destruct (p (EFetch url)); lia.
Qed.

Lemma warnings_fixedPolls url k : warnings (fixedPolls url k) = [].
Proof.
  unfold fixedPolls. rewrite warnings_app, warnings_pollEvents.
  by destruct (k =? 20)%nat.
Qed.

Lemma delays_fixedPolls url k :
  (1 <= k <= 20)%nat ->
  delays (fixedPolls url k) = replicate (Nat.min k 19) Fixed.liltPollTimeMs.
Proof.
  intros Hk. unfold fixedPolls. rewrite delays_app, delays_pollEvents.
  destruct (Nat.eqb_spec k 20) as [-> | Hne]; [reflexivity |].
  replace (Nat.min k 19) with (k - 1 + 1)%nat by lia.
  by rewrite replicate_add.
Qed.

Lemma requests_pollEvents url ms k : requests (pollEvents url ms k) = replicate k url.
Proof.
  induction k as [|k IH]; [reflexivity |].
  rewrite pollEvents_S, !requests_cons, IH. reflexivity.
Qed.

Lemma requests_fixedPolls url k :
  (1 <= k)%nat -> requests (fixedPolls url k) = replicate k url.
Proof.
  intros Hk. unfold fixedPolls. rewrite requests_app, requests_pollEvents.
  replace k with (k - 1 + 1)%nat at 3 by lia. rewrite replicate_add.
  by destruct (k =? 20)%nat.
Qed.

Lemma requests_backoffEvents url numPolls k :
  requests (backoffEvents url numPolls k) = replicate k url.
Proof.
  revert numPolls. induction k as [|k IH]; intros numPolls; [reflexivity |].
  cbn [backoffEvents]. rewrite !requests_cons, IH. reflexivity.
Qed.

Lemma requests_backoffPolls url k :
  (1 <= k)%nat -> requests (backoffPolls url k) = replicate k url.
Proof.
  intros Hk. unfold backoffPolls. rewrite requests_app, requests_backoffEvents.
  replace k with (k - 1 + 1)%nat at 2 by lia. by rewrite replicate_add.
Qed.

(** Counting the requests of a list of events put together from polls. *)
Ltac count_requests :=
  repeat rewrite ?requests_cons, ?requests_app, ?requests_pollEvents,
    ?requests_fixedPolls, ?requests_backoffEvents, ?requests_backoffPolls by lia;
  change (requests []) with (@nil request);
  cbn [List.length app];
  repeat rewrite ?length_app, ?length_replicate, ?length_cons;
  cbn [List.length]; lia.

Lemma endsFailed_intro run click l n :
  run = (Normal None, n, l) ->
  (run = (Normal None, n, l) ->
   click = (Normal tt, {| status := Failed; translation := VNull |}, l)) ->
  n = List.length (requests l) ->
  endsFailed run click l.
Proof. intros H Hclick ->. split; [exact H | by apply Hclick]. Qed.

Lemma endsTranslated_intro run click l n t :
  run = (Normal (Some t), n, l) ->
  (run = (Normal (Some t), n, l) ->
   click = (Normal tt, {| status := Translated; translation := VStr t |}, l)) ->
  n = List.length (requests l) ->
  endsTranslated run click l t.
Proof. intros H Hclick ->. split; [exact H | by apply Hclick]. Qed.

Section FixedFailures.
Variable srv : service.

Lemma checkUploadLoop_exact fileId fid (D : nat) n d' :
  toString fileId = Normal fid ->
  (1 <= D <= 20)%nat ->
  (forall j, (j < D - 1)%nat -> pendingDetection (srv (n + j)%nat (CheckUpload fid)) = true) ->
  detects (srv (n + (D - 1))%nat (CheckUpload fid)) d' ->
  looseNull d' = false \/ D = 20%nat ->
  Fixed.checkUploadLoop srv (Z.to_nat Fixed.liltMaxPolls) fileId VNull 0 n
    = (Normal (Left d'), (n + D)%nat, fixedPolls (CheckUpload fid) D).
Proof.
  intros Hid HD Hpend [Hok Hdet] Hend.
  replace (Z.to_nat Fixed.liltMaxPolls) with ((D - 1) + S (20 - D))%nat
    by (unfold Fixed.liltMaxPolls; lia).
  destruct (checkUploadLoop_pending srv fileId fid (D - 1) Hid (S (20 - D)) VNull 0 n)
    as (d1 & Hd1 & Heq); [reflexivity | unfold Fixed.liltMaxPolls; lia | exact Hpend |].
  rewrite Heq, (checkUploadLoop_step _ _ _ fid) by assumption. cbv zeta.
  rewrite Hok, Hdet. unfold fixedPolls, Fixed.liltMaxPolls.
  destruct (Z.leb_spec 20 (0 + Z.of_nat (D - 1) + 1)) as [Hle | Hlt].
  - destruct (Nat.eqb_spec D 20) as [-> | Hne]; [| lia].
    cbn [after]. f_equal. f_equal. lia.
  - destruct (Nat.eqb_spec D 20) as [-> | Hne]; [lia |].
    destruct Hend as [Hend | ->]; [| lia].
    rewrite checkUploadLoop_exit by assumption. cbn [after].
    f_equal. f_equal. lia.
Qed.

Lemma checkTranslateLoop_exact translationId tid (N : nat) n s' :
  toString translationId = Normal tid ->
  (1 <= N <= 20)%nat ->
  (forall j, (j < N - 1)%nat -> pendingStatus (srv (n + j)%nat (CheckTranslate tid)) = true) ->
  reports (srv (n + (N - 1))%nat (CheckTranslate tid)) s' ->
  strictEqStr s' "ReadyForDownload" = true \/ N = 20%nat ->
  Fixed.checkTranslateLoop srv (Z.to_nat Fixed.liltMaxPolls) translationId VNull 0 n
    = (Normal (Left s'), (n + N)%nat, fixedPolls (CheckTranslate tid) N).
Proof.
  intros Hid HN Hpend [Hok Hst] Hend.
  replace (Z.to_nat Fixed.liltMaxPolls) with ((N - 1) + S (20 - N))%nat
    by (unfold Fixed.liltMaxPolls; lia).
  destruct (checkTranslateLoop_pending srv translationId tid (N - 1) Hid (S (20 - N))
              VNull 0 n)
    as (s1 & Hs1 & Heq); [reflexivity | unfold Fixed.liltMaxPolls; lia | exact Hpend |].
  rewrite Heq, (checkTranslateLoop_step _ _ _ tid) by assumption. cbv zeta.
  rewrite Hok, Hst. unfold fixedPolls, Fixed.liltMaxPolls.
  destruct (Z.leb_spec 20 (0 + Z.of_nat (N - 1) + 1)) as [Hle | Hlt].
  - destruct (Nat.eqb_spec N 20) as [-> | Hne]; [| lia].
    cbn [after]. f_equal. f_equal. lia.
  - destruct (Nat.eqb_spec N 20) as [-> | Hne]; [lia |].
    destruct Hend as [Hend | ->]; [| lia].
    rewrite checkTranslateLoop_exit by assumption. cbn [after].
    f_equal. f_equal. lia.
Qed.

(** A failed poll after [k] polls that found nothing. *)
Lemma checkUploadLoop_failed fileId fid (k : nat) n :
  toString fileId = Normal fid ->
  (k < 20)%nat ->
  (forall j, (j < k)%nat -> pendingDetection (srv (n + j)%nat (CheckUpload fid)) = true) ->
  ok (srv (n + k)%nat (CheckUpload fid)) = false ->
  Fixed.checkUploadLoop srv (Z.to_nat Fixed.liltMaxPolls) fileId VNull 0 n
    = (Normal (Returned None), S (n + k),
       (pollEvents (CheckUpload fid) Fixed.liltPollTimeMs k
        ++ [EFetch (CheckUpload fid); EWarn FailedCheckingUpload])%list).
Proof.
  intros Hid Hk Hpend Hok.
  replace (Z.to_nat Fixed.liltMaxPolls) with (k + S (19 - k))%nat
    by (unfold Fixed.liltMaxPolls; lia).
  destruct (checkUploadLoop_pending srv fileId fid k Hid (S (19 - k)) VNull 0 n)
    as (d1 & Hd1 & Heq); [reflexivity | unfold Fixed.liltMaxPolls; lia | exact Hpend |].
  rewrite Heq, (checkUploadLoop_step _ _ _ fid) by assumption. cbv zeta.
  by rewrite Hok.
Qed.

Lemma checkTranslateLoop_failed translationId tid (k : nat) n :
  toString translationId = Normal tid ->
  (k < 20)%nat ->
  (forall j, (j < k)%nat -> pendingStatus (srv (n + j)%nat (CheckTranslate tid)) = true) ->
  ok (srv (n + k)%nat (CheckTranslate tid)) = false ->
  Fixed.checkTranslateLoop srv (Z.to_nat Fixed.liltMaxPolls) translationId VNull 0 n
    = (Normal (Returned None), S (n + k),
       (pollEvents (CheckTranslate tid) Fixed.liltPollTimeMs k
        ++ [EFetch (CheckTranslate tid); EWarn FailedCheckingStatus])%list).
Proof.
  intros Hid Hk Hpend Hok.
  replace (Z.to_nat Fixed.liltMaxPolls) with (k + S (19 - k))%nat
    by (unfold Fixed.liltMaxPolls; lia).
  destruct (checkTranslateLoop_pending srv translationId tid k Hid (S (19 - k)) VNull 0 n)
    as (s1 & Hs1 & Heq); [reflexivity | unfold Fixed.liltMaxPolls; lia | exact Hpend |].
  rewrite Heq, (checkTranslateLoop_step _ _ _ tid) by assumption. cbv zeta.
  by rewrite Hok.
Qed.

Lemma fixed_afterUpload_returned fuel fileId n r n' l :
  Fixed.checkUploadLoop srv fuel fileId VNull 0 n = (Normal (Returned r), n', l) ->
  Fixed.afterUpload srv fuel fileId n = (Normal r, n', l).
Proof.
  intros H. unfold Fixed.afterUpload, bind at 1. rewrite H. unfold ret.
  by rewrite app_nil_r.
Qed.

Lemma fixed_translate_refused fuel memoryId fileId fid n :
  toString fileId = Normal fid ->
  ok (srv n (Translate (pretty memoryId) fid)) = false ->
  Fixed.translateWith srv fuel memoryId fileId n =
    (Normal None, S n,
     [EFetch (Translate (pretty memoryId) fid); EWarn FailedRequestingTranslation]).
Proof.
  intros Hid Hok. unfold Fixed.translateWith, bind at 1, lift at 1, Fixed.urlTranslate.
  rewrite Hid. cbn [andThen]. unfold bind, fetch. by rewrite Hok.
Qed.

Lemma fixed_translateWith_returned fuel memoryId fileId fid n translationId n' l r :
  toString fileId = Normal fid ->
  starts (srv n (Translate (pretty memoryId) fid)) translationId ->
  Fixed.checkTranslateLoop srv fuel translationId VNull 0 (S n)
    = (Normal (Returned r), n', l) ->
  Fixed.translateWith srv fuel memoryId fileId n =
    (Normal r, n', EFetch (Translate (pretty memoryId) fid) :: l).
Proof.
  intros Hid [Hok Htid] Hloop.
  unfold Fixed.translateWith, bind at 1, lift at 1, Fixed.urlTranslate.
  rewrite Hid. cbn [andThen]. unfold bind at 1, fetch at 1. rewrite Hok. cbn [negb].
  unfold bind at 1, lift at 1. rewrite Htid. unfold bind at 1. rewrite Hloop.
  unfold ret. cbn [app]. by rewrite app_nil_r.
Qed.

(** The run of the fixed-delay revision up to the translate request, when
    poll [D] of the upload check is the first to report a language and the
    language has a memory. *)
Lemma fixed_reaches_translate text fileId fid (D : nat) lang memoryId :
  uploads (srv 0%nat (Upload text)) fileId ->
  toString fileId = Normal fid ->
  (1 <= D <= 20)%nat ->
  (forall j, (1 <= j < D)%nat -> pendingDetection (srv j (CheckUpload fid)) = true) ->
  detects (srv D (CheckUpload fid)) (VStr lang) ->
  Fixed.liltMemories !! lang = Some memoryId ->
  Fixed.liltTranslate srv text 0%nat =
    after (EFetch (Upload text) :: fixedPolls (CheckUpload fid) D)
      (Fixed.translateWith srv (Z.to_nat Fixed.liltMaxPolls) memoryId fileId (1 + D)%nat).
Proof.
  intros Hup Hfid HD Hpend Hdet Hmem.
  assert (Hloop : Fixed.checkUploadLoop srv (Z.to_nat Fixed.liltMaxPolls) fileId VNull
                    0 1%nat
                  = (Normal (Left (VStr lang)), (1 + D)%nat,
                     fixedPolls (CheckUpload fid) D)).
  { apply checkUploadLoop_exact; try assumption.
    - intros j Hj. apply Hpend. lia.
    - by replace (1 + (D - 1))%nat with D by lia.
    - by left. }
  unfold Fixed.liltTranslate.
  rewrite (fixed_uploaded _ _ _ _ fileId Hup).
  rewrite (fixed_afterUpload _ _ _ _ _ _ _ Hloop).
  rewrite (fixed_supported _ _ _ _ lang memoryId) by done.
  by rewrite after_after.
Qed.
End FixedFailures.

Section FixedAborts.
Variable srv : service.
Variables (text : string) (c : component) (fileId : value) (fid : string).
Hypothesis Hup : uploads (srv 0%nat (Upload text)) fileId.
Hypothesis Hfid : toString fileId = Normal fid.

(** X15.  In the fixed-delay revision a non-success answer to a poll of the upload
    check ends the run at once: one warning, [null], no translate
    request. *)
Theorem fixed_detection_poll_failure (k : nat) :
  (k < 20)%nat ->
  (forall j, (1 <= j <= k)%nat -> pendingDetection (srv j (CheckUpload fid)) = true) ->
  ok (srv (k + 1)%nat (CheckUpload fid)) = false ->
  endsFailed (Fixed.liltTranslate srv text 0%nat)
    (Fixed.onTranslateThisClick srv text c)
    (EFetch (Upload text)
       :: pollEvents (CheckUpload fid) Fixed.liltPollTimeMs k
       ++ [EFetch (CheckUpload fid); EWarn FailedCheckingUpload])%list.
Proof.
  intros Hk Hpend Hok.
  assert (Hloop :
    Fixed.checkUploadLoop srv (Z.to_nat Fixed.liltMaxPolls) fileId VNull 0 1%nat
    = (Normal (Returned None), S (1 + k),
       (pollEvents (CheckUpload fid) Fixed.liltPollTimeMs k
        ++ [EFetch (CheckUpload fid); EWarn FailedCheckingUpload])%list)).
  { apply checkUploadLoop_failed; try assumption.
    - intros j Hj. apply Hpend. lia.
    - by replace (1 + k)%nat with (k + 1)%nat by lia. }
  eapply endsFailed_intro.
  - unfold Fixed.liltTranslate.
    rewrite (fixed_uploaded _ _ _ _ fileId Hup).
    rewrite (fixed_afterUpload_returned _ _ _ _ None _ _ Hloop).
    reflexivity.
  - apply click_failed.
  - count_requests.
Qed.

Variables (D : nat) (lang : string) (memoryId : Z).
Hypothesis HD : (1 <= D <= 20)%nat.
Hypothesis Hpend :
  forall j, (1 <= j < D)%nat -> pendingDetection (srv j (CheckUpload fid)) = true.
Hypothesis Hdet : detects (srv D (CheckUpload fid)) (VStr lang).
Hypothesis Hmem : Fixed.liltMemories !! lang = Some memoryId.

(** X16.  In the fixed-delay revision a non-success answer to the translate
    request ends the run: one warning, [null], no poll of the translation
    check and no download. *)
Theorem fixed_translate_failure :
  ok (srv (D + 1)%nat (Translate (pretty memoryId) fid)) = false ->
  endsFailed (Fixed.liltTranslate srv text 0%nat)
    (Fixed.onTranslateThisClick srv text c)
    (EFetch (Upload text) :: fixedPolls (CheckUpload fid) D
       ++ [EFetch (Translate (pretty memoryId) fid);
           EWarn FailedRequestingTranslation])%list.
Proof.
  intros Hok.
  eapply endsFailed_intro.
  - rewrite (fixed_reaches_translate srv text fileId fid D lang memoryId) by assumption.
    rewrite (fixed_translate_refused _ _ _ _ fid) by
      (first [assumption | by replace (1 + D)%nat with (D + 1)%nat by lia]).
    reflexivity.
  - apply click_failed.
  - count_requests.
Qed.

Variables (translationId : value) (tid : string).
Hypothesis Hstart :
  starts (srv (D + 1)%nat (Translate (pretty memoryId) fid)) translationId.
Hypothesis Htid : toString translationId = Normal tid.

Lemma fixed_starts_shifted :
  starts (srv (1 + D)%nat (Translate (pretty memoryId) fid)) translationId.
Proof. by replace (1 + D)%nat with (D + 1)%nat by lia. Qed.

(** X17.  In the fixed-delay revision a non-success answer to a poll of the
    translation check ends the run: one warning, [null], no download. *)
Theorem fixed_status_poll_failure (k : nat) :
  (k < 20)%nat ->
  (forall j, (1 <= j <= k)%nat ->
     pendingStatus (srv (D + 1 + j)%nat (CheckTranslate tid)) = true) ->
  ok (srv (D + k + 2)%nat (CheckTranslate tid)) = false ->
  endsFailed (Fixed.liltTranslate srv text 0%nat)
    (Fixed.onTranslateThisClick srv text c)
    (EFetch (Upload text) :: fixedPolls (CheckUpload fid) D
       ++ EFetch (Translate (pretty memoryId) fid)
       :: pollEvents (CheckTranslate tid) Fixed.liltPollTimeMs k
       ++ [EFetch (CheckTranslate tid); EWarn FailedCheckingStatus])%list.
Proof.
  intros Hk Hpend' Hok.
  assert (Hloop :
    Fixed.checkTranslateLoop srv (Z.to_nat Fixed.liltMaxPolls) translationId VNull 0
      (S (1 + D))
    = (Normal (Returned None), S (S (1 + D) + k),
       (pollEvents (CheckTranslate tid) Fixed.liltPollTimeMs k
        ++ [EFetch (CheckTranslate tid); EWarn FailedCheckingStatus])%list)).
  { apply checkTranslateLoop_failed; try assumption.
    - intros j Hj. replace (S (1 + D) + j)%nat with (D + 1 + S j)%nat by lia.
      apply Hpend'. lia.
    - by replace (S (1 + D) + k)%nat with (D + k + 2)%nat by lia. }
  eapply endsFailed_intro.
  - rewrite (fixed_reaches_translate srv text fileId fid D lang memoryId) by assumption.
    rewrite (fixed_translateWith_returned _ _ _ _ fid _ translationId _ _ None Hfid
               fixed_starts_shifted Hloop).
    reflexivity.
  - apply click_failed.
  - count_requests.
Qed.

Variables (N : nat) (translateStatus : value).
Hypothesis HN : (1 <= N <= 20)%nat.
Hypothesis Hpend' :
  forall j, (1 <= j < N)%nat ->
    pendingStatus (srv (D + 1 + j)%nat (CheckTranslate tid)) = true.
Hypothesis Hstatus :
  reports (srv (D + 1 + N)%nat (CheckTranslate tid)) translateStatus.
Hypothesis Hlast :
  strictEqStr translateStatus "ReadyForDownload" = true \/ N = 20%nat.

Lemma fixed_reaches_download :
  Fixed.liltTranslate srv text 0%nat =
    after (EFetch (Upload text) :: fixedPolls (CheckUpload fid) D
             ++ EFetch (Translate (pretty memoryId) fid)
             :: fixedPolls (CheckTranslate tid) N)%list
      (Fixed.download srv translationId (D + N + 2)%nat).
Proof.
  assert (Hloop :
    Fixed.checkTranslateLoop srv (Z.to_nat Fixed.liltMaxPolls) translationId VNull 0
      (S (1 + D))
    = (Normal (Left translateStatus), (S (1 + D) + N)%nat,
       fixedPolls (CheckTranslate tid) N)).
  { apply checkTranslateLoop_exact; try assumption.
    - intros j Hj. replace (S (1 + D) + j)%nat with (D + 1 + S j)%nat by lia.
      apply Hpend'. lia.
    - by replace (S (1 + D) + (N - 1))%nat with (D + 1 + N)%nat by lia. }
  rewrite (fixed_reaches_translate srv text fileId fid D lang memoryId) by assumption.
  rewrite (fixed_translateWith _ _ _ _ fid _ translationId _ _ _ Hfid
             fixed_starts_shifted Hloop).
  rewrite after_after.
  replace (S (1 + D) + N)%nat with (D + N + 2)%nat by lia.
  reflexivity.
Qed.

(** X18.  In the fixed-delay revision a non-success answer to the download ends
    the run with one warning and [null], also when the download was
    requested with the polling budget spent. *)
Theorem fixed_download_failure :
  ok (srv (D + N + 2)%nat (Download tid)) = false ->
  endsFailed (Fixed.liltTranslate srv text 0%nat)
    (Fixed.onTranslateThisClick srv text c)
    (EFetch (Upload text) :: fixedPolls (CheckUpload fid) D
       ++ EFetch (Translate (pretty memoryId) fid)
       :: fixedPolls (CheckTranslate tid) N
       ++ [EFetch (Download tid); EWarn FailedDownloading])%list.
Proof.
  intros Hok.
  eapply endsFailed_intro.
  - rewrite fixed_reaches_download.
    rewrite (fixed_download_any _ _ tid) by assumption. cbv zeta. rewrite Hok.
    cbn [after app]. f_equal. f_equal. by rewrite <- app_assoc.
  - apply click_failed.
  - count_requests.
Qed.

(** X19.  In the fixed-delay revision a successful run sleeps after every poll
    but a twentieth, the poll that succeeds included: it sleeps
    [min D 19 + min N 19] times 1000 ms, two seconds at the least. *)
Theorem fixed_success_sleeps (t : string) :
  delivers (srv (D + N + 2)%nat (Download tid)) t ->
  endsTranslated (Fixed.liltTranslate srv text 0%nat)
    (Fixed.onTranslateThisClick srv text c)
    (EFetch (Upload text) :: fixedPolls (CheckUpload fid) D
       ++ EFetch (Translate (pretty memoryId) fid)
       :: fixedPolls (CheckTranslate tid) N
       ++ [EFetch (Download tid)])%list t /\
  delays (events (Fixed.liltTranslate srv text 0%nat))
    = replicate (Nat.min D 19 + Nat.min N 19) 1000 /\
  (2 <= Nat.min D 19 + Nat.min N 19)%nat.
Proof.
  intros Hdl.
  assert (Hrun : Fixed.liltTranslate srv text 0%nat
    = (Normal (Some t), S (D + N + 2),
       (EFetch (Upload text) :: fixedPolls (CheckUpload fid) D
          ++ EFetch (Translate (pretty memoryId) fid)
          :: fixedPolls (CheckTranslate tid) N
          ++ [EFetch (Download tid)])%list)).
  { rewrite fixed_reaches_download.
    rewrite (fixed_download _ _ tid _ t Htid Hdl).
    cbn [after app]. f_equal. f_equal. by rewrite <- app_assoc. }
  split; [| split; [| lia]].
  - eapply endsTranslated_intro; [exact Hrun | apply click_translated | count_requests].
  - rewrite Hrun. cbn [events snd].
    rewrite delays_cons, delays_app, delays_cons, delays_app, !delays_fixedPolls by lia.
    cbn [delays omap app]. rewrite app_nil_r, <- replicate_add. reflexivity.
Qed.
End FixedAborts.

(** ** Where the backoff revision stops *)

Lemma backoff_memories lang memoryId :
  Backoff.liltMemories !! lang = Some memoryId ->
  lang <> "und" /\ Backoff.lookupMember lang = Backoff.OwnMember memoryId /\
  Backoff.truthy (Backoff.OwnMember memoryId) = true.
Proof.
  intros H. unfold Backoff.lookupMember. rewrite H. unfold Backoff.liltMemories in H.
  destruct (decide (lang = "fr")) as [-> |];
    [simplify_map_eq; by repeat split |].
  destruct (decide (lang = "de")) as [-> |];
    [simplify_map_eq; by repeat split |].
  by simplify_map_eq.
Qed.

Lemma length_delays_backoffEvents url numPolls k :
  List.length (delays (backoffEvents url numPolls k)) = k.
Proof.
  revert numPolls. induction k as [|k IH]; intros numPolls; [reflexivity |].
  cbn [backoffEvents]. rewrite !delays_cons. cbn [List.length]. by rewrite IH.
Qed.

Section BackoffAborts.
Variable srv : service.

(** [pollFor] when the [k] first polls give no answer and the next is
    answered with a non-success response. *)
Lemma pollFor_failed url check (k : nat) n :
  (k < 10)%nat ->
  (forall j, (j < k)%nat -> pendingAnswer check (srv (n + j)%nat url) = true) ->
  ok (srv (n + k)%nat url) = false ->
  Backoff.pollFor srv url check n =
    (Normal VNull, S (n + k),
     (backoffEvents url 0 k ++ [EFetch url; EWarn (FailedPolling url)])%list).
Proof.
  intros Hk Hpend Hok. unfold Backoff.pollFor, Backoff.pollForFuel.
  replace (Z.to_nat Backoff.liltMaxPolls) with (k + S (19 - k))%nat
    by (unfold Backoff.liltMaxPolls; lia).
  rewrite pollLoop_pending by (unfold Backoff.liltMaxPolls; first [lia | assumption]).
  rewrite pollLoop_step by (unfold Backoff.liltMaxPolls; lia).
  cbv zeta. by rewrite Hok.
Qed.

Lemma pollFor_answered url check (k : nat) n a :
  (1 <= k <= 10)%nat ->
  (forall j, (j < k - 1)%nat -> pendingAnswer check (srv (n + j)%nat url) = true) ->
  ok (srv (n + (k - 1))%nat url) = true ->
  answerOf check (srv (n + (k - 1))%nat url) = Normal a ->
  strictNull a = false ->
  Backoff.pollFor srv url check n = (Normal a, (n + k)%nat, backoffPolls url k).
Proof.
  intros Hk Hpend Hok Hans Ha.
  rewrite (pollFor_answer srv url check (k - 1) n a); try assumption; [| lia].
  unfold backoffPolls. f_equal. f_equal. lia.
Qed.

Variables (text : string) (c : component) (fileId : value) (fid : string).
Hypothesis Hup : uploads (srv 0%nat (Upload text)) fileId.
Hypothesis Hfid : toString fileId = Normal fid.

(** X20.  In the backoff revision a non-success answer to a poll of the upload
    check is warned about by [pollFor], which returns [null]; the run then
    warns that no language was detected and returns [null] without a
    translate request. *)
Theorem backoff_detection_poll_failure (k : nat) :
  (k < 10)%nat ->
  (forall j, (1 <= j <= k)%nat -> pendingDetection (srv j (CheckUpload fid)) = true) ->
  ok (srv (k + 1)%nat (CheckUpload fid)) = false ->
  endsFailed (Backoff.liltTranslate srv text 0%nat)
    (Backoff.onTranslateThisClick srv text c)
    (EFetch (Upload text)
       :: backoffEvents (CheckUpload fid) 0 k
       ++ [EFetch (CheckUpload fid); EWarn (FailedPolling (CheckUpload fid));
           EWarn UnableToDetectAPI])%list.
Proof.
  intros Hk Hpend Hok.
  assert (Hpoll : Backoff.pollFor srv (CheckUpload fid) Backoff.checkDetectedLang 1%nat
    = (Normal VNull, S (1 + k),
       (backoffEvents (CheckUpload fid) 0 k
        ++ [EFetch (CheckUpload fid); EWarn (FailedPolling (CheckUpload fid))])%list)).
  { apply pollFor_failed; [exact Hk | |].
    - intros j Hj. apply pendingAnswer_detectedLang, Hpend. lia.
    - by replace (1 + k)%nat with (k + 1)%nat by lia. }
  eapply endsFailed_intro.
  - unfold Backoff.liltTranslate.
    rewrite (backoff_uploaded _ _ _ _ fileId Hup).
    rewrite (backoff_afterUpload _ _ _ fid _ _ _ _ Hfid Hpoll).
    rewrite backoff_absent. cbn [after app]. rewrite <- app_assoc. reflexivity.
  - apply click_failed.
  - count_requests.
Qed.

Variables (D : nat) (lang : string) (memoryId : Z).
Hypothesis HD : (1 <= D <= 10)%nat.
Hypothesis Hpend :
  forall j, (1 <= j < D)%nat -> pendingDetection (srv j (CheckUpload fid)) = true.
Hypothesis Hdet : detects (srv D (CheckUpload fid)) (VStr lang).
Hypothesis Hmem : Backoff.liltMemories !! lang = Some memoryId.

Lemma backoff_reaches_translate :
  Backoff.liltTranslate srv text 0%nat =
    after (EFetch (Upload text) :: backoffPolls (CheckUpload fid) D)
      (Backoff.translateWith srv (Z.to_nat Backoff.liltMaxPolls)
         (Backoff.OwnMember memoryId) fileId (1 + D)%nat).
Proof.
  destruct (backoff_memories _ _ Hmem) as (Hund & Hlookup & Htruthy).
  assert (Hpoll : Backoff.pollFor srv (CheckUpload fid) Backoff.checkDetectedLang 1%nat
    = (Normal (VStr lang), (1 + D)%nat, backoffPolls (CheckUpload fid) D)).
  { destruct Hdet as [Hok Hd]. apply pollFor_answered; try done.
    - intros j Hj. apply pendingAnswer_detectedLang, Hpend. lia.
    - by replace (1 + (D - 1))%nat with D by lia.
    - replace (1 + (D - 1))%nat with D by lia. exact (answerOf_detectedLang _ _ Hd). }
  unfold Backoff.liltTranslate.
  rewrite (backoff_uploaded _ _ _ _ fileId Hup).
  rewrite (backoff_afterUpload _ _ _ fid _ _ _ _ Hfid Hpoll).
  rewrite backoff_supported by (first [exact Hund | by rewrite Hlookup]).
  rewrite Hlookup. by rewrite after_after.
Qed.

(** X21.  In the backoff revision a non-success answer to the translate request
    ends the run: one warning, [null], no poll of the translation check and
    no download. *)
Theorem backoff_translate_failure :
  ok (srv (D + 1)%nat (Translate (pretty memoryId) fid)) = false ->
  endsFailed (Backoff.liltTranslate srv text 0%nat)
    (Backoff.onTranslateThisClick srv text c)
    (EFetch (Upload text) :: backoffPolls (CheckUpload fid) D
       ++ [EFetch (Translate (pretty memoryId) fid);
           EWarn FailedRequestingTranslation])%list.
Proof.
  intros Hok.
  eapply endsFailed_intro.
  - rewrite backoff_reaches_translate.
    unfold Backoff.translateWith, bind at 1, lift at 1, Backoff.urlTranslate.
    cbn [Backoff.memoryIdText andThen]. rewrite Hfid. cbn [andThen].
    unfold bind, fetch. replace (1 + D)%nat with (D + 1)%nat by lia.
    rewrite Hok. reflexivity.
  - apply click_failed.
  - count_requests.
Qed.

Variables (translationId : value) (tid : string).
Hypothesis Hstart :
  starts (srv (D + 1)%nat (Translate (pretty memoryId) fid)) translationId.
Hypothesis Htid : toString translationId = Normal tid.

Lemma backoff_starts_shifted :
  starts (srv (1 + D)%nat (Translate (pretty memoryId) fid)) translationId.
Proof. by replace (1 + D)%nat with (D + 1)%nat by lia. Qed.

(** X22.  In the backoff revision a non-success answer to a poll of the
    translation check is warned about by [pollFor]; the run returns [null]
    without a warning of its own and without a download. *)
Theorem backoff_status_poll_failure (k : nat) :
  (k < 10)%nat ->
  (forall j, (1 <= j <= k)%nat ->
     pendingFirstStatus (srv (D + 1 + j)%nat (CheckTranslate tid)) = true) ->
  ok (srv (D + k + 2)%nat (CheckTranslate tid)) = false ->
  endsFailed (Backoff.liltTranslate srv text 0%nat)
    (Backoff.onTranslateThisClick srv text c)
    (EFetch (Upload text) :: backoffPolls (CheckUpload fid) D
       ++ EFetch (Translate (pretty memoryId) fid)
       :: backoffEvents (CheckTranslate tid) 0 k
       ++ [EFetch (CheckTranslate tid);
           EWarn (FailedPolling (CheckTranslate tid))])%list.
Proof.
  intros Hk Hpend' Hok.
  assert (Hpoll : Backoff.pollFor srv (CheckTranslate tid) Backoff.checkStatus (S (1 + D))
    = (Normal VNull, S (S (1 + D) + k),
       (backoffEvents (CheckTranslate tid) 0 k
        ++ [EFetch (CheckTranslate tid);
            EWarn (FailedPolling (CheckTranslate tid))])%list)).
  { apply pollFor_failed; [exact Hk | |].
    - intros j Hj. apply pendingAnswer_status.
      replace (S (1 + D) + j)%nat with (D + 1 + S j)%nat by lia. apply Hpend'. lia.
    - by replace (S (1 + D) + k)%nat with (D + k + 2)%nat by lia. }
  eapply endsFailed_intro.
  - rewrite backoff_reaches_translate.
    rewrite (backoff_translateWith _ _ (Backoff.OwnMember memoryId) (pretty memoryId) _ fid _ translationId tid
               _ _ _ eq_refl Hfid backoff_starts_shifted Htid Hpoll).
    reflexivity.
  - apply click_failed.
  - count_requests.
Qed.

Variable N : nat.
Hypothesis HN : (1 <= N <= 10)%nat.
Hypothesis Hpend' :
  forall j, (1 <= j < N)%nat ->
    pendingFirstStatus (srv (D + 1 + j)%nat (CheckTranslate tid)) = true.
Hypothesis Hready :
  reportsFirst (srv (D + 1 + N)%nat (CheckTranslate tid)) (VStr "ReadyForDownload").

Lemma backoff_reaches_download :
  Backoff.liltTranslate srv text 0%nat =
    after (EFetch (Upload text) :: backoffPolls (CheckUpload fid) D
             ++ EFetch (Translate (pretty memoryId) fid)
             :: backoffPolls (CheckTranslate tid) N)%list
      (Backoff.download srv translationId (D + N + 2)%nat).
Proof.
  assert (Hpoll : Backoff.pollFor srv (CheckTranslate tid) Backoff.checkStatus (S (1 + D))
    = (Normal (VStr "ReadyForDownload"), (S (1 + D) + N)%nat,
       backoffPolls (CheckTranslate tid) N)).
  { destruct Hready as [Hok Hst]. apply pollFor_answered; try done.
    - intros j Hj. apply pendingAnswer_status.
      replace (S (1 + D) + j)%nat with (D + 1 + S j)%nat by lia. apply Hpend'. lia.
    - by replace (S (1 + D) + (N - 1))%nat with (D + 1 + N)%nat by lia.
    - replace (S (1 + D) + (N - 1))%nat with (D + 1 + N)%nat by lia.
      exact (answerOf_status _ _ Hst). }
  rewrite backoff_reaches_translate.
  rewrite (backoff_translateWith _ _ (Backoff.OwnMember memoryId) (pretty memoryId) _ fid _ translationId tid
             _ _ _ eq_refl Hfid backoff_starts_shifted Htid Hpoll).
  cbn [strictEqStr String.eqb Ascii.eqb Bool.eqb]. rewrite after_after.
  replace (S (1 + D) + N)%nat with (D + N + 2)%nat by lia.
  reflexivity.
Qed.

(** X23.  In the backoff revision a non-success answer to the download ends the
    run with one warning and [null]. *)
Theorem backoff_download_failure :
  ok (srv (D + N + 2)%nat (Download tid)) = false ->
  endsFailed (Backoff.liltTranslate srv text 0%nat)
    (Backoff.onTranslateThisClick srv text c)
    (EFetch (Upload text) :: backoffPolls (CheckUpload fid) D
       ++ EFetch (Translate (pretty memoryId) fid)
       :: backoffPolls (CheckTranslate tid) N
       ++ [EFetch (Download tid); EWarn FailedDownloading])%list.
Proof.
  intros Hok.
  eapply endsFailed_intro.
  - rewrite backoff_reaches_download.
    rewrite (backoff_download_any _ _ tid) by assumption. cbv zeta. rewrite Hok.
    cbn [after app]. f_equal. f_equal. by rewrite <- app_assoc.
  - apply click_failed.
  - count_requests.
Qed.

(** X24.  In the backoff revision, when poll [D] of the upload check is the first
    to report a language, which has a memory, and poll [N] of the
    translation check the first to report ["ReadyForDownload"], [D] and [N]
    at most ten, and the download succeeds, the run resolves to the
    downloaded text; it does not sleep after the polls that succeed. *)
Theorem backoff_happy_path (t : string) :
  delivers (srv (D + N + 2)%nat (Download tid)) t ->
  endsTranslated (Backoff.liltTranslate srv text 0%nat)
    (Backoff.onTranslateThisClick srv text c)
    (EFetch (Upload text) :: backoffPolls (CheckUpload fid) D
       ++ EFetch (Translate (pretty memoryId) fid)
       :: backoffPolls (CheckTranslate tid) N
       ++ [EFetch (Download tid)])%list t /\
  List.length (delays (events (Backoff.liltTranslate srv text 0%nat)))
    = (D - 1 + (N - 1))%nat.
Proof.
  intros [Hok Ht].
  assert (Hrun : Backoff.liltTranslate srv text 0%nat
    = (Normal (Some t), S (D + N + 2),
       (EFetch (Upload text) :: backoffPolls (CheckUpload fid) D
          ++ EFetch (Translate (pretty memoryId) fid)
          :: backoffPolls (CheckTranslate tid) N
          ++ [EFetch (Download tid)])%list)).
  { rewrite backoff_reaches_download.
    rewrite (backoff_download_any _ _ tid) by assumption. cbv zeta. rewrite Hok, Ht.
    cbn [after app]. f_equal. f_equal. by rewrite <- app_assoc. }
  split.
  - eapply endsTranslated_intro; [exact Hrun | apply click_translated | count_requests].
  - rewrite Hrun. cbn [events snd]. unfold backoffPolls.
    repeat rewrite ?delays_cons, ?delays_app, ?length_app, ?length_delays_backoffEvents.
    cbn. lia.
Qed.
End BackoffAborts.

(** ** The time a run sleeps *)

Lemma waited_app l1 l2 : waited (l1 ++ l2)%list = waited l1 + waited l2.
Proof.
  unfold waited. rewrite delays_app. induction (delays l1) as [|ms l IH]; cbn; lia.
Qed.

Lemma waitsAtMost_bind {A B} b1 b2 b (m : M A) (k : A -> M B) :
  waitsAtMost b1 m -> (forall a, waitsAtMost b2 (k a)) -> 0 <= b2 -> b1 + b2 <= b ->
  waitsAtMost b (bind m k).
Proof.
  intros Hm Hk H2 Hb n. rewrite events_bind, waited_app.
  specialize (Hm n).
  assert (waited match m n with
                 | (Normal a, n1, _) => events (k a n1)
                 | _ => []
                 end <= b2)
    by (destruct (m n) as [[[a| |] n1] l1]; [apply Hk | exact H2 | exact H2]).
  lia.
Qed.

Lemma waitsAtMost_none {A} b (m : M A) :
  always (fun e => isSleep e = false) m -> 0 <= b -> waitsAtMost b m.
Proof.
  intros H Hb n. specialize (H n).
  assert (waited (events (m n)) = 0); [| lia].
  induction H as [|e l He _ IH]; [reflexivity |].
  unfold waited in *. rewrite delays_cons. by destruct e.
Qed.

Lemma waitsAtMost_bind_l {A B} b (m : M A) (k : A -> M B) :
  always (fun e => isSleep e = false) m -> (forall a, waitsAtMost b (k a)) -> 0 <= b ->
  waitsAtMost b (bind m k).
Proof.
  intros Hm Hk Hb. apply (waitsAtMost_bind 0 b); [by apply waitsAtMost_none | exact Hk | lia | lia].
Qed.

Lemma waitsAtMost_sleep ms : waitsAtMost ms (sleep ms).
Proof. intros n. cbn. lia. Qed.

Ltac still := apply waitsAtMost_none; [alphabet | try lia].

Section Waits.
Variable srv : service.

Lemma fixed_checkUploadLoop_waits fileId fuel :
  forall d tries, tries < Fixed.liltMaxPolls ->
  waitsAtMost (Fixed.liltPollTimeMs * (Fixed.liltMaxPolls - 1 - tries))
    (Fixed.checkUploadLoop srv fuel fileId d tries).
Proof.
  unfold Fixed.liltPollTimeMs, Fixed.liltMaxPolls.
  induction fuel as [|fuel IH]; intros d tries Hlt; cbn [Fixed.checkUploadLoop].
  - still.
  - destruct (looseNull d); cbn [negb]; [| still].
    apply waitsAtMost_bind_l; [alphabet | intros url | lia].
    apply waitsAtMost_bind_l; [alphabet | intros r | lia].
    destruct (ok r); cbn [negb]; [| still].
    apply waitsAtMost_bind_l; [alphabet | intros d' | lia].
    unfold Fixed.liltMaxPolls.
    destruct (Z.leb_spec 20 (tries + 1)); [still |].
    apply (waitsAtMost_bind 1000 (1000 * (20 - 1 - (tries + 1))));
      [apply waitsAtMost_sleep | intros _; apply IH; lia | lia | lia].
Qed.

Lemma fixed_checkTranslateLoop_waits translationId fuel :
  forall s tries, tries < Fixed.liltMaxPolls ->
  waitsAtMost (Fixed.liltPollTimeMs * (Fixed.liltMaxPolls - 1 - tries))
    (Fixed.checkTranslateLoop srv fuel translationId s tries).
Proof.
  unfold Fixed.liltPollTimeMs, Fixed.liltMaxPolls.
  induction fuel as [|fuel IH]; intros s tries Hlt; cbn [Fixed.checkTranslateLoop].
  - still.
  - destruct (strictEqStr s "ReadyForDownload"); [still |].
    apply waitsAtMost_bind_l; [alphabet | intros url | lia].
    apply waitsAtMost_bind_l; [alphabet | intros r | lia].
    destruct (ok r); cbn [negb]; [| still].
    apply waitsAtMost_bind_l; [alphabet | intros d' | lia].
    unfold Fixed.liltMaxPolls.
    destruct (Z.leb_spec 20 (tries + 1)); [still |].
    apply (waitsAtMost_bind 1000 (1000 * (20 - 1 - (tries + 1))));
      [apply waitsAtMost_sleep | intros _; apply IH; lia | lia | lia].
Qed.

(** X12.  A run of the fixed-delay revision sleeps at most 38 seconds in all,
    whatever the service answers: nineteen sleeps of a second in each
    loop. *)
Theorem fixed_wait_bounded text n :
  waited (events (Fixed.liltTranslate srv text n)) <= 38000.
Proof.
  revert n. change (waitsAtMost 38000 (Fixed.liltTranslate srv text)).
  unfold Fixed.liltTranslate, Fixed.liltTranslateFuel.
  apply waitsAtMost_bind_l; [alphabet | intros r | lia].
  destruct (ok r); cbn [negb]; [| still].
  apply waitsAtMost_bind_l; [alphabet | intros fileId | lia].
  unfold Fixed.afterUpload.
  apply (waitsAtMost_bind 19000 19000);
    [by apply (fixed_checkUploadLoop_waits fileId _ VNull 0) | | lia | lia].
  intros [r'|d]; [still |].
  unfold Fixed.afterDetection.
  apply waitsAtMost_bind_l; [alphabet | intros key | lia].
  destruct (Fixed.liltMemories !! key) as [memoryId|]; [| still].
  unfold Fixed.translateWith.
  apply waitsAtMost_bind_l; [alphabet | intros url | lia].
  apply waitsAtMost_bind_l; [alphabet | intros r2 | lia].
  destruct (ok r2); cbn [negb]; [| still].
  apply waitsAtMost_bind_l; [alphabet | intros translationId | lia].
  apply (waitsAtMost_bind 19000 0);
    [by apply (fixed_checkTranslateLoop_waits translationId _ VNull 0) | | lia | lia].
  intros [r'|st]; [still |]. unfold Fixed.download. still.
Qed.

Lemma backoffBudget_nonneg fuel :
  forall numPolls, 0 <= numPolls -> 0 <= backoffBudget fuel numPolls.
Proof.
  induction fuel as [|fuel IH]; intros numPolls Hge; cbn [backoffBudget]; [lia |].
  destruct (numPolls <? Backoff.liltMaxPolls)%Z; [| lia].
  pose proof (sleepTime_formula numPolls) as [Hs _].
  assert (0 <= 2 ^ (numPolls + 1)) by (apply Z.pow_nonneg; lia).
  specialize (IH (numPolls + 1 + 1)). lia.
Qed.

Lemma backoff_pollLoop_waits url check fuel :
  forall numPolls, 0 <= numPolls ->
  waitsAtMost (backoffBudget fuel numPolls)
    (Backoff.pollLoop srv fuel url check numPolls).
Proof.
  induction fuel as [|fuel IH]; intros numPolls Hge;
    cbn [Backoff.pollLoop backoffBudget].
  - destruct (numPolls <? Backoff.liltMaxPolls)%Z; still.
  - destruct (numPolls <? Backoff.liltMaxPolls)%Z; [| still].
    pose proof (backoffBudget_nonneg fuel (numPolls + 1 + 1)).
    pose proof (sleepTime_formula numPolls) as [Hs _].
    assert (0 <= 2 ^ (numPolls + 1)) by (apply Z.pow_nonneg; lia).
    apply waitsAtMost_bind_l; [alphabet | intros r | lia].
    destruct (ok r); cbn [negb]; [| still].
    apply waitsAtMost_bind_l; [alphabet | intros body | lia].
    apply waitsAtMost_bind_l; [alphabet | intros a | lia].
    destruct (strictNull a); cbn [negb]; [| still].
    apply (waitsAtMost_bind (Backoff.sleepTime numPolls)
             (backoffBudget fuel (numPolls + 1 + 1)));
      [apply waitsAtMost_sleep | intros _; apply IH; lia | lia | lia].
Qed.

(** X13.  A run of the backoff revision sleeps at most 53.2 seconds in all,
    whatever the service answers: each [pollFor] sleeps at most
    200 + 800 + 8 * 3200 milliseconds. *)
Theorem backoff_wait_bounded text n :
  waited (events (Backoff.liltTranslate srv text n)) <= 53200.
Proof.
  assert (Hpoll : forall url check,
            waitsAtMost 26600 (Backoff.pollForFuel srv (Z.to_nat Backoff.liltMaxPolls) url check)).
  { intros url check. exact (backoff_pollLoop_waits url check _ 0 (Z.le_refl 0)). }
  revert n. change (waitsAtMost 53200 (Backoff.liltTranslate srv text)).
  unfold Backoff.liltTranslate, Backoff.liltTranslateFuel.
  apply waitsAtMost_bind_l; [alphabet | intros r | lia].
  destruct (ok r); cbn [negb]; [| still].
  apply waitsAtMost_bind_l; [alphabet | intros fileId | lia].
  unfold Backoff.afterUpload.
  apply waitsAtMost_bind_l; [alphabet | intros url | lia].
  apply (waitsAtMost_bind 26600 26600); [apply Hpoll | | lia | lia].
  intros d. unfold Backoff.afterDetection.
  destruct (strictEqStr d "und"); [still |].
  apply waitsAtMost_bind_l; [alphabet | intros key | lia]. cbv zeta.
  destruct (Backoff.truthy (Backoff.lookupMember key)); cbn [negb]; [| still].
  unfold Backoff.translateWith.
  apply waitsAtMost_bind_l; [alphabet | intros url2 | lia].
  apply waitsAtMost_bind_l; [alphabet | intros r2 | lia].
  destruct (ok r2); cbn [negb]; [| still].
  apply waitsAtMost_bind_l; [alphabet | intros translationId | lia].
  apply waitsAtMost_bind_l; [alphabet | intros url3 | lia].
  apply (waitsAtMost_bind 26600 0); [apply Hpoll | | lia | lia].
  intros st. destruct (strictEqStr st "ReadyForDownload"); cbn [negb]; [| still].
  unfold Backoff.download. still.
Qed.
End Waits.

(** ** The loops end *)

(** X14.  In neither revision does a run use up the [liltMaxPolls] iterations its
    loops are given and go on polling: whatever the service answers, the
    run has resolved or thrown by then. *)
Theorem liltTranslate_settles (srv : service) (text : string) (n : nat) :
  outcome (Fixed.liltTranslate srv text n) <> OutOfFuel /\
  outcome (Backoff.liltTranslate srv text n) <> OutOfFuel.
Proof.
  split; [apply fixed_liltTranslate_terminates | apply backoff_liltTranslate_terminates].
Qed.

(** ** The paths on example services *)

Ltac poll_one := let j := fresh "j" in let Hj := fresh "Hj" in
  intros j Hj; replace j with 1%nat by lia; reflexivity.

Lemma fixed_detection_poll_failure_witness :
  endsFailed (Fixed.liltTranslate (cutShort 2 happyService) "Bonjour" 0%nat)
    (Fixed.onTranslateThisClick (cutShort 2 happyService) "Bonjour" initialComponent)
    (EFetch (Upload "Bonjour")
       :: pollEvents (CheckUpload "7") Fixed.liltPollTimeMs 1
       ++ [EFetch (CheckUpload "7"); EWarn FailedCheckingUpload])%list.
Proof.
  apply (fixed_detection_poll_failure (cutShort 2 happyService) "Bonjour"
           initialComponent (VNum "7") "7").
  - split; reflexivity.
  - reflexivity.
  - lia.
  - poll_one.
  - reflexivity.
Defined.

Lemma fixed_translate_failure_witness :
  endsFailed (Fixed.liltTranslate (cutShort 3 happyService) "Bonjour" 0%nat)
    (Fixed.onTranslateThisClick (cutShort 3 happyService) "Bonjour" initialComponent)
    (EFetch (Upload "Bonjour") :: fixedPolls (CheckUpload "7") 2
       ++ [EFetch (Translate (pretty 69501) "7");
           EWarn FailedRequestingTranslation])%list.
Proof.
  apply fixed_translate_failure with
    (fileId := VNum "7") (fid := "7") (D := 2%nat) (lang := "fr") (memoryId := 69501).
  - split; reflexivity.
  - reflexivity.
  - lia.
  - poll_one.
  - split; reflexivity.
  - reflexivity.
  - reflexivity.
Defined.

Lemma fixed_status_poll_failure_witness :
  endsFailed (Fixed.liltTranslate (cutShort 5 happyService) "Bonjour" 0%nat)
    (Fixed.onTranslateThisClick (cutShort 5 happyService) "Bonjour" initialComponent)
    (EFetch (Upload "Bonjour") :: fixedPolls (CheckUpload "7") 2
       ++ EFetch (Translate (pretty 69501) "7")
       :: pollEvents (CheckTranslate "9") Fixed.liltPollTimeMs 1
       ++ [EFetch (CheckTranslate "9"); EWarn FailedCheckingStatus])%list.
Proof.
  apply fixed_status_poll_failure with
    (fileId := VNum "7") (fid := "7") (D := 2%nat) (lang := "fr") (memoryId := 69501)
    (translationId := VNum "9").
  - split; reflexivity.
  - reflexivity.
  - lia.
  - poll_one.
  - split; reflexivity.
  - reflexivity.
  - split; reflexivity.
  - reflexivity.
  - lia.
  - poll_one.
  - reflexivity.
Defined.

Lemma fixed_download_failure_witness :
  endsFailed (Fixed.liltTranslate (cutShort 6 happyService) "Bonjour" 0%nat)
    (Fixed.onTranslateThisClick (cutShort 6 happyService) "Bonjour" initialComponent)
    (EFetch (Upload "Bonjour") :: fixedPolls (CheckUpload "7") 2
       ++ EFetch (Translate (pretty 69501) "7")
       :: fixedPolls (CheckTranslate "9") 2
       ++ [EFetch (Download "9"); EWarn FailedDownloading])%list.
Proof.
  apply fixed_download_failure with
    (fileId := VNum "7") (fid := "7") (D := 2%nat) (lang := "fr") (memoryId := 69501)
    (translationId := VNum "9") (translateStatus := VStr "ReadyForDownload").
  - split; reflexivity.
  - reflexivity.
  - lia.
  - poll_one.
  - split; reflexivity.
  - reflexivity.
  - split; reflexivity.
  - reflexivity.
  - lia.
  - poll_one.
  - split; reflexivity.
  - by left.
  - reflexivity.
Defined.

Lemma fixed_success_sleeps_witness :
  endsTranslated (Fixed.liltTranslate happyService "Bonjour" 0%nat)
    (Fixed.onTranslateThisClick happyService "Bonjour" initialComponent)
    (EFetch (Upload "Bonjour") :: fixedPolls (CheckUpload "7") 2
       ++ EFetch (Translate (pretty 69501) "7")
       :: fixedPolls (CheckTranslate "9") 2
       ++ [EFetch (Download "9")])%list "Hello" /\
  delays (events (Fixed.liltTranslate happyService "Bonjour" 0%nat))
    = replicate (Nat.min 2 19 + Nat.min 2 19) 1000 /\
  (2 <= Nat.min 2 19 + Nat.min 2 19)%nat.
Proof.
  apply (fixed_success_sleeps happyService "Bonjour" initialComponent (VNum "7") "7")
    with (lang := "fr") (translationId := VNum "9")
         (translateStatus := VStr "ReadyForDownload").
  - split; reflexivity.
  - reflexivity.
  - lia.
  - poll_one.
  - split; reflexivity.
  - reflexivity.
  - split; reflexivity.
  - reflexivity.
  - lia.
  - poll_one.
  - split; reflexivity.
  - by left.
  - split; reflexivity.
Defined.

Lemma backoff_detection_poll_failure_witness :
  endsFailed (Backoff.liltTranslate (cutShort 2 happyListService) "Guten Tag" 0%nat)
    (Backoff.onTranslateThisClick (cutShort 2 happyListService) "Guten Tag"
       initialComponent)
    (EFetch (Upload "Guten Tag")
       :: backoffEvents (CheckUpload "7") 0 1
       ++ [EFetch (CheckUpload "7"); EWarn (FailedPolling (CheckUpload "7"));
           EWarn UnableToDetectAPI])%list.
Proof.
  apply (backoff_detection_poll_failure (cutShort 2 happyListService) "Guten Tag"
           initialComponent (VNum "7") "7").
  - split; reflexivity.
  - reflexivity.
  - lia.
  - poll_one.
  - reflexivity.
Defined.

Lemma backoff_translate_failure_witness :
  endsFailed (Backoff.liltTranslate (cutShort 3 happyListService) "Guten Tag" 0%nat)
    (Backoff.onTranslateThisClick (cutShort 3 happyListService) "Guten Tag"
       initialComponent)
    (EFetch (Upload "Guten Tag") :: backoffPolls (CheckUpload "7") 2
       ++ [EFetch (Translate (pretty 69706) "7");
           EWarn FailedRequestingTranslation])%list.
Proof.
  apply backoff_translate_failure with
    (fileId := VNum "7") (fid := "7") (D := 2%nat) (lang := "de") (memoryId := 69706).
  - split; reflexivity.
  - reflexivity.
  - lia.
  - poll_one.
  - split; reflexivity.
  - reflexivity.
  - reflexivity.
Defined.

Lemma backoff_status_poll_failure_witness :
  endsFailed (Backoff.liltTranslate (cutShort 5 happyListService) "Guten Tag" 0%nat)
    (Backoff.onTranslateThisClick (cutShort 5 happyListService) "Guten Tag"
       initialComponent)
    (EFetch (Upload "Guten Tag") :: backoffPolls (CheckUpload "7") 2
       ++ EFetch (Translate (pretty 69706) "7")
       :: backoffEvents (CheckTranslate "9") 0 1
       ++ [EFetch (CheckTranslate "9");
           EWarn (FailedPolling (CheckTranslate "9"))])%list.
Proof.
  apply backoff_status_poll_failure with
    (fileId := VNum "7") (fid := "7") (D := 2%nat) (lang := "de") (memoryId := 69706)
    (translationId := VNum "9").
  - split; reflexivity.
  - reflexivity.
  - lia.
  - poll_one.
  - split; reflexivity.
  - reflexivity.
  - split; reflexivity.
  - reflexivity.
  - lia.
  - poll_one.
  - reflexivity.
Defined.

Lemma backoff_download_failure_witness :
  endsFailed (Backoff.liltTranslate (cutShort 6 happyListService) "Guten Tag" 0%nat)
    (Backoff.onTranslateThisClick (cutShort 6 happyListService) "Guten Tag"
       initialComponent)
    (EFetch (Upload "Guten Tag") :: backoffPolls (CheckUpload "7") 2
       ++ EFetch (Translate (pretty 69706) "7")
       :: backoffPolls (CheckTranslate "9") 2
       ++ [EFetch (Download "9"); EWarn FailedDownloading])%list.
Proof.
  apply backoff_download_failure with
    (fileId := VNum "7") (fid := "7") (D := 2%nat) (lang := "de") (memoryId := 69706)
    (translationId := VNum "9").
  - split; reflexivity.
  - reflexivity.
  - lia.
  - poll_one.
  - split; reflexivity.
  - reflexivity.
  - split; reflexivity.
  - reflexivity.
  - lia.
  - poll_one.
  - split; reflexivity.
  - reflexivity.
Defined.

Lemma backoff_happy_path_witness :
  endsTranslated (Backoff.liltTranslate happyListService "Guten Tag" 0%nat)
    (Backoff.onTranslateThisClick happyListService "Guten Tag" initialComponent)
    (EFetch (Upload "Guten Tag") :: backoffPolls (CheckUpload "7") 2
       ++ EFetch (Translate (pretty 69706) "7")
       :: backoffPolls (CheckTranslate "9") 2
       ++ [EFetch (Download "9")])%list "Good day" /\
  List.length (delays (events (Backoff.liltTranslate happyListService "Guten Tag" 0%nat)))
    = (2 - 1 + (2 - 1))%nat.
Proof.
  apply (backoff_happy_path happyListService "Guten Tag" initialComponent (VNum "7") "7")
    with (lang := "de") (translationId := VNum "9").
  - split; reflexivity.
  - reflexivity.
  - lia.
  - poll_one.
  - split; reflexivity.
  - reflexivity.
  - split; reflexivity.
  - reflexivity.
  - lia.
  - poll_one.
  - split; reflexivity.
  - split; reflexivity.
Defined.

(** ** When the translation does not get ready *)

Lemma count_backoffPolls p url k :
  (1 <= k)%nat -> (forall ms, p (ESleep ms) = false) ->
  count p (backoffPolls url k) = if p (EFetch url) then k else 0%nat.
Proof.
  intros Hk Hs. unfold backoffPolls.
  rewrite count_app, count_backoffEvents, count_cons by assumption.
  cbn. destruct (p (EFetch url)); lia.
Qed.

Lemma warnings_backoffPolls url k : warnings (backoffPolls url k) = [].
Proof. unfold backoffPolls. by rewrite warnings_app, warnings_backoffEvents. Qed.

(** ** No exception when the bodies can be read *)


(** The detected languages that the backoff revision cannot go on with:
    the names of the eight inherited members that throw when [replace]
    calls them. *)
Lemma backoff_unreadable_languages key :
  Backoff.truthy (Backoff.lookupMember key) = true ->
  (isNormal (Backoff.memoryIdText (Backoff.lookupMember key)) = false <->
   In key [ "__defineGetter__"; "__defineSetter__"; "hasOwnProperty";
            "__lookupGetter__"; "__lookupSetter__"; "propertyIsEnumerable";
            "valueOf"; "toLocaleString" ]).
Proof.
  unfold Backoff.lookupMember.
  destruct (Backoff.liltMemories !! key) as [memoryId|] eqn:Emem.
  - intros _. split; [discriminate |]. intros Hin. exfalso.
    cbn in Hin. repeat (destruct Hin as [<- | Hin]; [by vm_compute in Emem |]).
    destruct Hin.
  - destruct (inObjectPrototype key) eqn:Eproto; [| discriminate]. intros _.
    apply existsb_exists in Eproto as (name & Hname & ->%String.eqb_eq).
    cbn in Hname.
    repeat (destruct Hname as [<- | Hname];
            [vm_compute; split; first [discriminate | tauto | intros _; tauto
                                      | intros H; repeat (destruct H as [H | H];
                                                            [discriminate H |]);
                                        destruct H] |]).
    destruct Hname.
Qed.

Section Reading.
Variable srv : service.
Variable reads : request -> response -> bool.






End Reading.

Section Safety.
Variable srv : service.








End Safety.

(* ------------------------------------------------------------------ *)
(** * The claims *)

(** ** C1 *)

Lemma fixed_eligibility_examples :
  Fixed.shouldOfferTranslation "@alice:example.org" "@bob:example.org"
    "Where is the cat" = true /\
  Fixed.shouldOfferTranslation "@bob:example.org" "@bob:example.org"
    "Ou est le chat" = false.
Proof. split; reflexivity. Qed.

(** ** C2 *)

(** C2 at a service that never lets a poll succeed in its purpose: the
    backoff revision stops each polling phase after ten polls, half of
    [liltMaxPolls], where the fixed-delay revision makes twenty. *)
Theorem backoff_gives_up_after_ten_polls :
  Backoff.liltMaxPolls = 20 /\
  count isCheckUpload (events (Backoff.liltTranslate silentService "Bonjour" 0%nat))
    = 10%nat /\
  count isCheckTranslate (events (Backoff.liltTranslate stuckService "Bonjour" 0%nat))
    = 10%nat /\
  count isCheckUpload (events (Fixed.liltTranslate silentService "Bonjour" 0%nat))
    = 20%nat /\
  count isCheckTranslate (events (Fixed.liltTranslate stuckService "Bonjour" 0%nat))
    = 20%nat.
Proof. vm_compute. repeat split. Qed.

(** ** C3 *)

(** C3.  Take any run in which the upload succeeds, a language that has a
    memory is detected on poll [D] of the upload check ([D] at most ten,
    so that both revisions see it), the translate request succeeds, and
    every poll of the translation check is successful but short of
    ["ReadyForDownload"], as either revision reads the status.  The
    fixed-delay revision polls 20 times and goes on to request the
    download: it resolves to the downloaded text, the click handler ending
    in [Translated], or, should the download be refused, to [null].  The
    backoff revision gives up after its ten polls, requests no download
    and resolves to [null], the click handler ending in [Failed].  The two
    runs differ in their events, and in their results when the download
    succeeds. *)
Theorem exhausted_translation_check srv message c fileId fid (D : nat) lang memoryId
    translationId tid :
  uploads (srv 0%nat (Upload message)) fileId ->
  toString fileId = Normal fid ->
  (1 <= D <= 10)%nat ->
  (forall j, (1 <= j < D)%nat -> pendingDetection (srv j (CheckUpload fid)) = true) ->
  detects (srv D (CheckUpload fid)) (VStr lang) ->
  Fixed.liltMemories !! lang = Some memoryId ->
  starts (srv (D + 1)%nat (Translate (pretty memoryId) fid)) translationId ->
  toString translationId = Normal tid ->
  (forall j, (1 <= j <= 20)%nat ->
     pendingStatus (srv (D + 1 + j)%nat (CheckTranslate tid)) = true) ->
  (forall j, (1 <= j <= 10)%nat ->
     pendingFirstStatus (srv (D + 1 + j)%nat (CheckTranslate tid)) = true) ->
  let download := srv (D + 22)%nat (Download tid) in
  (exists l,
     Fixed.liltTranslate srv message 0%nat
       = (Normal (if ok download then Some (text download) else None),
          (D + 23)%nat, l) /\
     Fixed.onTranslateThisClick srv message c
       = (Normal tt,
          if ok download
          then {| status := Translated; translation := VStr (text download) |}
          else {| status := Failed; translation := VNull |}, l) /\
     count isCheckTranslate l = 20%nat /\ count isDownload l = 1%nat) /\
  (exists l,
     Backoff.liltTranslate srv message 0%nat = (Normal None, (D + 12)%nat, l) /\
     Backoff.onTranslateThisClick srv message c =
       (Normal tt, {| status := Failed; translation := VNull |}, l) /\
     count isCheckTranslate l = 10%nat /\ count isDownload l = 0%nat /\
     warnings l = [GaveUpPolling (CheckTranslate tid)]) /\
  events (Fixed.liltTranslate srv message 0%nat)
    <> events (Backoff.liltTranslate srv message 0%nat) /\
  (ok download = true ->
   outcome (Fixed.liltTranslate srv message 0%nat)
     <> outcome (Backoff.liltTranslate srv message 0%nat)).
Proof.
  intros Hup Hfid HD Hpend Hdet Hmem Hstart Htid Hstatus Hfirst download.
  assert (Hmem' : Backoff.liltMemories !! lang = Some memoryId) by exact Hmem.
  (* the fixed-delay revision *)
  pose proof (Hstatus 20%nat ltac:(lia)) as H20.
  unfold pendingStatus in H20. apply andb_true_iff in H20 as [Hok20 Hst20].
  destruct (statusOf (srv (D + 1 + 20)%nat (CheckTranslate tid))) as [s20| |] eqn:E20;
    try discriminate.
  assert (HF : Fixed.liltTranslate srv message 0%nat =
    after (EFetch (Upload message) :: fixedPolls (CheckUpload fid) D
             ++ EFetch (Translate (pretty memoryId) fid)
             :: fixedPolls (CheckTranslate tid) 20)%list
      (Fixed.download srv translationId (D + 20 + 2)%nat)).
  { apply (fixed_reaches_download srv message fileId fid Hup Hfid D lang memoryId)
      with (translateStatus := s20); try assumption; try lia;
      first [ by split | by right | intros j Hj; apply Hstatus; lia ]. }
  rewrite (fixed_download_any _ _ tid) in HF by assumption. cbv zeta in HF.
  replace (D + 20 + 2)%nat with (D + 22)%nat in HF by lia.
  fold download in HF.
  assert (HFl : exists l,
     Fixed.liltTranslate srv message 0%nat
       = (Normal (if ok download then Some (text download) else None),
          (D + 23)%nat, l) /\
     count isCheckTranslate l = 20%nat /\ count isDownload l = 1%nat).
  { rewrite HF. replace (D + 23)%nat with (S (D + 22)) by lia.
    destruct (ok download); cbn [after]; eexists; (split; [reflexivity |]);
      repeat rewrite ?count_app, ?count_cons, ?count_fixedPolls
        by (first [lia | reflexivity]);
      cbn; lia. }
  (* the backoff revision *)
  assert (Hpoll : Backoff.pollFor srv (CheckTranslate tid) Backoff.checkStatus (S (1 + D))
    = (Normal VNull, (S (1 + D) + 10)%nat,
       (backoffEvents (CheckTranslate tid) 0 10
        ++ [EWarn (GaveUpPolling (CheckTranslate tid))])%list)).
  { apply pollFor_gaveUp. intros j Hj. apply pendingAnswer_status.
    replace (S (1 + D) + j)%nat with (D + 1 + S j)%nat by lia. apply Hfirst. lia. }
  assert (HB : Backoff.liltTranslate srv message 0%nat =
    (Normal None, (D + 12)%nat,
     (EFetch (Upload message) :: backoffPolls (CheckUpload fid) D
        ++ EFetch (Translate (pretty memoryId) fid)
        :: backoffEvents (CheckTranslate tid) 0 10
        ++ [EWarn (GaveUpPolling (CheckTranslate tid))])%list)).
  { rewrite (backoff_reaches_translate srv message fileId fid Hup Hfid D lang memoryId)
      by assumption.
    assert (Hstart' : starts (srv (1 + D)%nat (Translate (pretty memoryId) fid))
                        translationId)
      by (by replace (1 + D)%nat with (D + 1)%nat by lia).
    rewrite (backoff_translateWith _ _ (Backoff.OwnMember memoryId) (pretty memoryId)
               _ fid _ translationId tid _ _ _ eq_refl Hfid Hstart' Htid Hpoll).
    cbn [strictEqStr after]. replace (S (1 + D) + 10)%nat with (D + 12)%nat by lia.
    reflexivity. }
  assert (HBcount : forall p, (forall ms, p (ESleep ms) = false) ->
            (forall d, p (EWarn d) = false) ->
            p (EFetch (Upload message)) = false ->
            p (EFetch (CheckUpload fid)) = false ->
            p (EFetch (Translate (pretty memoryId) fid)) = false ->
            count p (events (Backoff.liltTranslate srv message 0%nat))
              = if p (EFetch (CheckTranslate tid)) then 10%nat else 0%nat).
  { intros p Hs Hw H1 H2 H3. rewrite HB. cbn [events snd].
    repeat rewrite ?count_app, ?count_cons, ?count_backoffPolls, ?count_backoffEvents
      by (first [lia | assumption]).
    rewrite H1, H2, H3, Hw. cbn. destruct (p (EFetch (CheckTranslate tid))); lia. }
  destruct HFl as (lF & HlF & HcF & HdF).
  split; [| split; [| split]].
  - exists lF. split; [exact HlF |]. split; [| by split].
    destruct (ok download).
    + exact (click_translated _ _ _ _ _ _ HlF).
    + exact (click_failed _ _ _ _ _ HlF).
  - eexists. split; [exact HB |]. split; [exact (click_failed _ _ _ _ _ HB) |].
    pose proof (HBcount isCheckTranslate) as H1. pose proof (HBcount isDownload) as H2.
    rewrite HB in H1, H2. cbn [events snd] in H1, H2.
    split; [by apply H1 |]. split; [by apply H2 |].
    repeat rewrite ?warnings_app, ?warnings_cons, ?warnings_backoffPolls,
      ?warnings_backoffEvents. reflexivity.
  - intros Heq. apply (f_equal (count isDownload)) in Heq.
    rewrite (HBcount isDownload) in Heq by done.
    rewrite HlF in Heq. cbn [events snd] in Heq. rewrite HdF in Heq. discriminate.
  - intros Hok. rewrite HlF, HB, Hok. cbn. discriminate.
Qed.

Lemma exhausted_translation_check_witness :
  let download := lateGermanService (2 + 22)%nat (Download "9") in
  (exists l,
     Fixed.liltTranslate lateGermanService "Guten Tag" 0%nat
       = (Normal (if ok download then Some (text download) else None),
          (2 + 23)%nat, l) /\
     Fixed.onTranslateThisClick lateGermanService "Guten Tag" initialComponent
       = (Normal tt,
          if ok download
          then {| status := Translated; translation := VStr (text download) |}
          else {| status := Failed; translation := VNull |}, l) /\
     count isCheckTranslate l = 20%nat /\ count isDownload l = 1%nat) /\
  (exists l,
     Backoff.liltTranslate lateGermanService "Guten Tag" 0%nat
       = (Normal None, (2 + 12)%nat, l) /\
     Backoff.onTranslateThisClick lateGermanService "Guten Tag" initialComponent =
       (Normal tt, {| status := Failed; translation := VNull |}, l) /\
     count isCheckTranslate l = 10%nat /\ count isDownload l = 0%nat /\
     warnings l = [GaveUpPolling (CheckTranslate "9")]) /\
  events (Fixed.liltTranslate lateGermanService "Guten Tag" 0%nat)
    <> events (Backoff.liltTranslate lateGermanService "Guten Tag" 0%nat) /\
  (ok download = true ->
   outcome (Fixed.liltTranslate lateGermanService "Guten Tag" 0%nat)
     <> outcome (Backoff.liltTranslate lateGermanService "Guten Tag" 0%nat)).
Proof.
  apply (exhausted_translation_check lateGermanService "Guten Tag" initialComponent
           (VNum "7") "7" 2 "de" 69706 (VNum "9") "9").
  - split; reflexivity.
  - reflexivity.
  - lia.
  - intros j Hj. replace j with 1%nat by lia. reflexivity.
  - split; reflexivity.
  - reflexivity.
  - split; reflexivity.
  - reflexivity.
  - intros j Hj. reflexivity.
  - intros j Hj. reflexivity.
Defined.

(** ** C4 *)

Lemma fixed_happy_path_witness :
  exists l,
    Fixed.liltTranslate happyService "Bonjour" 0%nat
      = (Normal (Some "Hello"), (2 + 2 + 3)%nat, l) /\
    Fixed.onTranslateThisClick happyService "Bonjour" initialComponent =
      (Normal tt, {| status := Translated; translation := VStr "Hello" |}, l) /\
    count isCheckUpload l = 2%nat /\ count isCheckTranslate l = 2%nat /\
    count isDownload l = 1%nat.
Proof.
  apply (fixed_happy_path happyService "Bonjour" initialComponent
           (VNum "7") "7" (VNum "9") "9" 2 2 "Hello").
  - split; reflexivity.
  - reflexivity.
  - lia.
  - intros j Hj. replace j with 1%nat by lia. reflexivity.
  - split; reflexivity.
  - split; reflexivity.
  - reflexivity.
  - lia.
  - intros j Hj. replace j with 1%nat by lia. reflexivity.
  - split; reflexivity.
  - split; reflexivity.
Defined.

(** ** C5 *)

Lemma upload_failure_witness :
  let l := [EFetch (Upload "Bonjour"); EWarn FailedUploading] in
  Fixed.liltTranslate refusingService "Bonjour" 0%nat = (Normal None, 1%nat, l) /\
  Fixed.onTranslateThisClick refusingService "Bonjour" initialComponent =
    (Normal tt, {| status := Failed; translation := VNull |}, l) /\
  Backoff.liltTranslate refusingService "Bonjour" 0%nat = (Normal None, 1%nat, l) /\
  Backoff.onTranslateThisClick refusingService "Bonjour" initialComponent =
    (Normal tt, {| status := Failed; translation := VNull |}, l) /\
  count isFetch l = 1%nat.
Proof.
  apply (upload_failure refusingService "Bonjour" initialComponent).
  reflexivity.
Defined.

(** ** C6 *)

(** C6 at the language code ["constructor"], which is no key of
    [liltMemories]: the backoff revision finds the inherited member
    truthy, posts the translate request and goes on to resolve to the
    download, where the fixed-delay revision warns and returns [null]. *)
Theorem backoff_inherited_member_translates :
  Backoff.liltMemories !! "constructor" = None /\
  (let run := Backoff.liltTranslate (detectingService "constructor") "Bonjour" 0%nat in
   outcome run = Normal (Some "Hello") /\
   count isTranslate (events run) = 1%nat /\
   warnings (events run) = []) /\
  (let run := Fixed.liltTranslate (detectingService "constructor") "Bonjour" 0%nat in
   outcome run = Normal None /\
   count isTranslate (events run) = 0%nat /\
   warnings (events run) = [NotSetUp "constructor"]).
Proof. vm_compute. repeat split. Qed.

(** ** C7 *)

(** C7 fails on the fixed-delay revision: a detected ["und"] is reported
    with the message for an unsupported language, as ["es"] is, while the
    backoff revision has a message of its own for it. *)
Lemma fixed_und_reported_as_unsupported :
  outcome (Fixed.liltTranslate (detectingService "und") "Bonjour" 0%nat) = Normal None /\
  warnings (events (Fixed.liltTranslate (detectingService "und") "Bonjour" 0%nat))
    = [NotSetUp "und"] /\
  warnings (events (Fixed.liltTranslate (detectingService "es") "Hola" 0%nat))
    = [NotSetUp "es"] /\
  warnings (events (Backoff.liltTranslate (detectingService "und") "Bonjour" 0%nat))
    = [UnableToDetect].
Proof. vm_compute. repeat split. Qed.

(** C7, as amended.  After a successful upload, both revisions return
    [null] without a translate request, and the click handler ends in
    [Failed], when no language is detected within the budget and when the
    detected language has no memory, ["und"] among them.  The fixed-delay
    revision warns [UnableToDetectAPI] in the first case and [NotSetUp]
    with the language in the second, ["und"] included; the backoff revision
    warns [UnableToDetectAPI] after giving up polling, [UnableToDetect] for
    ["und"], and [NotSetUp] for any other language that is neither a key
    nor an inherited member. *)
Theorem detection_failures srv text c fileId fid :
  uploads (srv 0%nat (Upload text)) fileId ->
  toString fileId = Normal fid ->
  let failedWith (run : completion (option string) * nat * list event)
        (click : completion unit * component * list event)
        (ws : list diagnostic) :=
    outcome run = Normal None /\
    click = (Normal tt, {| status := Failed; translation := VNull |}, events run) /\
    warnings (events run) = ws /\
    count isTranslate (events run) = 0%nat in
  ((forall j, (1 <= j < 20)%nat -> pendingDetection (srv j (CheckUpload fid)) = true) ->
   detects (srv 20%nat (CheckUpload fid)) VNull ->
   failedWith (Fixed.liltTranslate srv text 0%nat)
     (Fixed.onTranslateThisClick srv text c) [UnableToDetectAPI]) /\
  (forall (D : nat) (lang : string),
   (1 <= D <= 20)%nat ->
   (forall j, (1 <= j < D)%nat -> pendingDetection (srv j (CheckUpload fid)) = true) ->
   detects (srv D (CheckUpload fid)) (VStr lang) ->
   Fixed.liltMemories !! lang = None ->
   failedWith (Fixed.liltTranslate srv text 0%nat)
     (Fixed.onTranslateThisClick srv text c) [NotSetUp lang]) /\
  ((forall j, (1 <= j <= 10)%nat -> pendingDetection (srv j (CheckUpload fid)) = true) ->
   failedWith (Backoff.liltTranslate srv text 0%nat)
     (Backoff.onTranslateThisClick srv text c)
     [GaveUpPolling (CheckUpload fid); UnableToDetectAPI]) /\
  (forall (D : nat),
   (1 <= D <= 10)%nat ->
   (forall j, (1 <= j < D)%nat -> pendingDetection (srv j (CheckUpload fid)) = true) ->
   detects (srv D (CheckUpload fid)) (VStr "und") ->
   failedWith (Backoff.liltTranslate srv text 0%nat)
     (Backoff.onTranslateThisClick srv text c) [UnableToDetect]) /\
  (forall (D : nat) (lang : string),
   (1 <= D <= 10)%nat ->
   (forall j, (1 <= j < D)%nat -> pendingDetection (srv j (CheckUpload fid)) = true) ->
   detects (srv D (CheckUpload fid)) (VStr lang) ->
   lang <> "und" ->
   Backoff.liltMemories !! lang = None ->
   inObjectPrototype lang = false ->
   failedWith (Backoff.liltTranslate srv text 0%nat)
     (Backoff.onTranslateThisClick srv text c) [NotSetUp lang]).
Proof.
  intros Hup Hfid failedWith.
  assert (Hfail : forall run click ws,
            (exists l, run = (Normal None, (run.1.2), l) /\
                       click = (Normal tt, {| status := Failed; translation := VNull |}, l) /\
                       warnings l = ws /\ count isTranslate l = 0%nat) ->
            failedWith run click ws).
  { intros run click ws (l & Hrun & Hclick & Hw & Hc). unfold failedWith.
    rewrite Hrun. by repeat split. }
  split; [| split; [| split; [| split]]].
  - intros Hpend Hdet.
    destruct (fixed_undetected srv text c fileId fid Hup Hfid Hpend Hdet)
      as (l & Hl & Hclick & Hw & _ & Hc).
    apply Hfail. exists l. by rewrite Hl.
  - intros D lang HD Hpend Hdet Hmem.
    destruct (fixed_unsupported_language srv text c fileId fid Hup Hfid D lang
                HD Hpend Hdet Hmem) as (l & Hl & Hclick & Hw & _ & Hc).
    apply Hfail. exists l. by rewrite Hl.
  - intros Hpend.
    destruct (backoff_undetected srv text c fileId fid Hup Hfid Hpend)
      as (l & Hl & Hclick & Hw & _ & Hc).
    apply Hfail. exists l. by rewrite Hl.
  - intros D HD Hpend Hdet.
    destruct (backoff_undetermined srv text c fileId fid Hup Hfid D HD Hpend Hdet)
      as (l & Hl & Hclick & Hw & _ & Hc).
    apply Hfail. exists l. by rewrite Hl.
  - intros D lang HD Hpend Hdet Hund Hmem Hproto.
    destruct (backoff_unsupported_language srv text c fileId fid Hup Hfid D lang
                HD Hpend Hdet Hund Hmem Hproto) as (l & Hl & Hclick & Hw & _ & Hc).
    apply Hfail. exists l. by rewrite Hl.
Qed.

Lemma detection_failures_witness :
  let failed (run : completion (option string) * nat * list event)
        (click : completion unit * component * list event)
        (ws : list diagnostic) :=
    outcome run = Normal None /\
    click = (Normal tt, {| status := Failed; translation := VNull |}, events run) /\
    warnings (events run) = ws /\
    count isTranslate (events run) = 0%nat in
  failed (Fixed.liltTranslate silentService "Bonjour" 0%nat)
    (Fixed.onTranslateThisClick silentService "Bonjour" initialComponent)
    [UnableToDetectAPI] /\
  failed (Fixed.liltTranslate (detectingService "und") "Bonjour" 0%nat)
    (Fixed.onTranslateThisClick (detectingService "und") "Bonjour" initialComponent)
    [NotSetUp "und"] /\
  failed (Backoff.liltTranslate silentService "Bonjour" 0%nat)
    (Backoff.onTranslateThisClick silentService "Bonjour" initialComponent)
    [GaveUpPolling (CheckUpload "7"); UnableToDetectAPI] /\
  failed (Backoff.liltTranslate (detectingService "und") "Bonjour" 0%nat)
    (Backoff.onTranslateThisClick (detectingService "und") "Bonjour" initialComponent)
    [UnableToDetect] /\
  failed (Backoff.liltTranslate (detectingService "es") "Bonjour" 0%nat)
    (Backoff.onTranslateThisClick (detectingService "es") "Bonjour" initialComponent)
    [NotSetUp "es"].
Proof.
  intros failed.
  assert (Hup : forall srv', srv' 0%nat (Upload "Bonjour") = fileCreated ->
                  uploads (srv' 0%nat (Upload "Bonjour")) (VNum "7")).
  { intros srv' ->. split; reflexivity. }
  pose proof (detection_failures silentService "Bonjour" initialComponent (VNum "7") "7"
                (Hup _ eq_refl) eq_refl) as Hsilent.
  pose proof (detection_failures (detectingService "und") "Bonjour" initialComponent
                (VNum "7") "7" (Hup _ eq_refl) eq_refl) as Hund.
  pose proof (detection_failures (detectingService "es") "Bonjour" initialComponent
                (VNum "7") "7" (Hup _ eq_refl) eq_refl) as Hes.
  cbv zeta in Hsilent, Hund, Hes.
  destruct Hsilent as (Hs1 & _ & Hs3 & _).
  destruct Hund as (_ & Hu2 & _ & Hu4 & _).
  destruct Hes as (_ & _ & _ & _ & He5).
  split; [| split; [| split; [| split]]].
  - apply Hs1; [intros j Hj; reflexivity | split; reflexivity].
  - apply (Hu2 1%nat "und"); [lia | intros j Hj; lia | split; reflexivity | reflexivity].
  - apply Hs3. intros j Hj. reflexivity.
  - apply (Hu4 1%nat); [lia | intros j Hj; lia | split; reflexivity].
  - apply (He5 1%nat "es");
      [lia | intros j Hj; lia | split; reflexivity | discriminate
      | reflexivity | reflexivity].
Defined.

(** ** C8 *)

(** What [sleepTime] computes, and its ceiling. *)
Lemma sleepTime_capped pollNumber :
  0 <= pollNumber ->
  Backoff.sleepTime pollNumber = 100 * Z.min 32 (2 ^ (pollNumber + 1)) /\
  200 <= Backoff.sleepTime pollNumber <= 3200.
Proof.
  intros H. unfold Backoff.sleepTime, Backoff.liltPollTimeMs.
  assert (2 ^ 1 <= 2 ^ (pollNumber + 1)) by (apply Z.pow_le_mono_r; lia).
  lia.
Qed.

(** C8 at a service whose translation never gets ready: the delays the
    backoff revision sleeps between its polls are those of the poll numbers
    0, 2, 4, ..., so that the delay goes from 200 ms to 800 ms to the
    ceiling, where doubling with the poll number would give
    200, 400, 800, 1600 and then the ceiling; the fixed-delay revision
    sleeps 1000 ms every time. *)
Theorem backoff_delays_skip_every_other :
  delays (events (Backoff.liltTranslate stuckService "Bonjour" 0%nat))
    = [200; 800; 3200; 3200; 3200; 3200; 3200; 3200; 3200; 3200] /\
  map (fun n => 100 * Z.min 32 (2 ^ (n + 1))) [0; 1; 2; 3; 4; 5; 6; 7; 8; 9]
    = [200; 400; 800; 1600; 3200; 3200; 3200; 3200; 3200; 3200] /\
  delays (events (Backoff.liltTranslate stuckService "Bonjour" 0%nat))
    = map Backoff.sleepTime [0; 2; 4; 6; 8; 10; 12; 14; 16; 18] /\
  delays (events (Fixed.liltTranslate stuckService "Bonjour" 0%nat))
    = replicate 20 1000.
Proof. vm_compute. repeat split. Qed.

(** ** C9 *)



